(** * Sistema financeiro: contas a pagar / a receber e fluxo de caixa

    Shallow embedding of [src/login/financeiro.py] (class
    [SistemaFinanceiro]) together with the parts of the Python runtime
    the class relies on: [datetime] calendar arithmetic, [strptime] with
    the format [%Y-%m-%d], binary64 floating point, and [decimal.Decimal]
    accumulation under the default 28-digit context.

    Strings are sequences of one-byte characters: Python text outside
    ASCII is not distinguished from its bytes, and the digits and blanks
    that [strptime] and [int] recognise are the ASCII ones. *)

From Stdlib Require Import ZArith List String Ascii Bool Lia.
From Stdlib Require Import SpecFloat.
Import ListNotations.

Open Scope string_scope.
Open Scope Z_scope.

(* ================================================================== *)
(** ** Calendar arithmetic of [datetime]                               *)
(* ================================================================== *)

Module Datetime.

Record date := mkdate { year : Z; month : Z; day : Z }.

Definition MINYEAR : Z := 1.
Definition MAXYEAR : Z := 9999.

(** [_is_leap]: [year % 4 == 0 and (year % 100 != 0 or year % 400 == 0)]. *)
Definition _is_leap (y : Z) : bool :=
  (y mod 4 =? 0) && (negb (y mod 100 =? 0) || (y mod 400 =? 0)).

(** [_DAYS_IN_MONTH = [-1, 31, 28, 31, 30, 31, 30, 31, 31, 30, 31, 30, 31]]. *)
Definition _DAYS_IN_MONTH (m : Z) : Z :=
  match m with
  | 1 => 31 | 2 => 28 | 3 => 31 | 4 => 30 | 5 => 31 | 6 => 30
  | 7 => 31 | 8 => 31 | 9 => 30 | 10 => 31 | 11 => 30 | 12 => 31
  | _ => -1
  end.

(** [_DAYS_BEFORE_MONTH]: running sum of [_DAYS_IN_MONTH]. *)
Definition _DAYS_BEFORE_MONTH (m : Z) : Z :=
  match m with
  | 1 => 0 | 2 => 31 | 3 => 59 | 4 => 90 | 5 => 120 | 6 => 151
  | 7 => 181 | 8 => 212 | 9 => 243 | 10 => 273 | 11 => 304 | 12 => 334
  | _ => -1
  end.

Definition _days_before_year (y : Z) : Z :=
  let y' := y - 1 in
  y' * 365 + y' / 4 - y' / 100 + y' / 400.

Definition _days_in_month (y m : Z) : Z :=
  if (m =? 2) && _is_leap y then 29 else _DAYS_IN_MONTH m.

Definition _days_before_month (y m : Z) : Z :=
  _DAYS_BEFORE_MONTH m + (if (2 <? m) && _is_leap y then 1 else 0).

Definition _ymd2ord (y m d : Z) : Z :=
  _days_before_year y + _days_before_month y m + d.

Definition _DI400Y : Z := 146097.
Definition _DI100Y : Z := 36524.
Definition _DI4Y : Z := 1461.
Definition _MAXORDINAL : Z := 3652059.

(** [_ord2ymd]: ordinal to (year, month, day), with 01-Jan-0001 as day 1. *)
Definition _ord2ymd (n0 : Z) : date :=
  let n := n0 - 1 in
  let n400 := n / _DI400Y in
  let n := n mod _DI400Y in
  let y := n400 * 400 + 1 in
  let n100 := n / _DI100Y in
  let n := n mod _DI100Y in
  let n4 := n / _DI4Y in
  let n := n mod _DI4Y in
  let n1 := n / 365 in
  let n := n mod 365 in
  let y := y + n100 * 100 + n4 * 4 + n1 in
  if (n1 =? 4) || (n100 =? 4) then mkdate (y - 1) 12 31
  else
    let leapyear := (n1 =? 3) && (negb (n4 =? 24) || (n100 =? 3)) in
    let mo := Z.shiftr (n + 50) 5 in
    let preceding :=
      _DAYS_BEFORE_MONTH mo + (if (2 <? mo) && leapyear then 1 else 0) in
    if n <? preceding then
      let mo' := mo - 1 in
      let preceding' :=
        preceding
        - (_DAYS_IN_MONTH mo' + (if (mo' =? 2) && leapyear then 1 else 0)) in
      mkdate y mo' (n - preceding' + 1)
    else mkdate y mo (n - preceding + 1).

(** The [date(year, month, day)] constructor; [None] is [ValueError]. *)
Definition new_date (y m d : Z) : option date :=
  if (MINYEAR <=? y) && (y <=? MAXYEAR)
     && (1 <=? m) && (m <=? 12)
     && (1 <=? d) && (d <=? _days_in_month y m)
  then Some (mkdate y m d) else None.

Definition toordinal (d : date) : Z := _ymd2ord (year d) (month d) (day d).

(** Dates compare as the tuples [(year, month, day)]. *)
Definition date_cmp (a b : date) : comparison :=
  match year a ?= year b with
  | Eq => match month a ?= month b with
          | Eq => day a ?= day b
          | c => c
          end
  | c => c
  end.

Definition date_ltb (a b : date) : bool :=
  match date_cmp a b with Lt => true | _ => false end.
Definition date_eqb (a b : date) : bool :=
  match date_cmp a b with Eq => true | _ => false end.
Definition date_leb (a b : date) : bool :=
  match date_cmp a b with Gt => false | _ => true end.

(** [(a - b).days] for two dates. *)
Definition days_between (a b : date) : Z := toordinal a - toordinal b.

(** [d - timedelta(days=n)]; [None] is [OverflowError]. *)
Definition sub_days (d : date) (n : Z) : option date :=
  let o := toordinal d - n in
  if (0 <? o) && (o <=? _MAXORDINAL) then Some (_ord2ymd o) else None.

Definition valid (d : date) : Prop :=
  new_date (year d) (month d) (day d) = Some d.

End Datetime.

(* ================================================================== *)
(** ** [datetime.strptime(s, "%Y-%m-%d")]                              *)
(* ================================================================== *)

Module Strptime.
Import Datetime.

Definition code (c : ascii) : Z := Z.of_N (N_of_ascii c).

(** The character class [[lo-hi]]. *)
Definition in_range (lo hi c : ascii) : bool :=
  (code lo <=? code c) && (code c <=? code hi).

Definition digit_val (c : ascii) : Z := code c - 48.

(** [%Y] is the group [\d\d\d\d]. *)
Definition re_Y (s : string) : option (Z * string) :=
  match s with
  | String a (String b (String c (String d r))) =>
      if in_range "0" "9" a && in_range "0" "9" b
         && in_range "0" "9" c && in_range "0" "9" d
      then Some (1000 * digit_val a + 100 * digit_val b
                 + 10 * digit_val c + digit_val d, r)
      else None
  | _ => None
  end.

(** A two-character alternative [a-range][b-range], with its [int] value. *)
Definition alt2 (lo1 hi1 lo2 hi2 : ascii) (tens : bool) (s : string)
  : list (Z * string) :=
  match s with
  | String a (String b r) =>
      if in_range lo1 hi1 a && in_range lo2 hi2 b
      then [((if tens then 10 * digit_val a else 0) + digit_val b, r)]
      else []
  | _ => []
  end.

Definition alt1 (lo hi : ascii) (s : string) : list (Z * string) :=
  match s with
  | String a r => if in_range lo hi a then [(digit_val a, r)] else []
  | _ => []
  end.

(** [%m] is [1[0-2]|0[1-9]|[1-9]]: the matches, in the order the regex
    engine tries them. *)
Definition re_m (s : string) : list (Z * string) :=
  alt2 "1" "1" "0" "2" true s ++ alt2 "0" "0" "1" "9" true s
  ++ alt1 "1" "9" s.

(** [%d] is [3[0-1]|[1-2]\d|0[1-9]|[1-9]| [1-9]]. *)
Definition re_d (s : string) : list (Z * string) :=
  alt2 "3" "3" "0" "1" true s ++ alt2 "1" "2" "0" "9" true s
  ++ alt2 "0" "0" "1" "9" true s ++ alt1 "1" "9" s
  ++ alt2 " " " " "1" "9" false s.

Definition re_lit (c : ascii) (s : string) : option string :=
  match s with
  | String a r => if Ascii.eqb a c then Some r else None
  | _ => None
  end.

(** After a month candidate: the literal dash and the first day
    alternative that matches. *)
Definition after_m (cand : Z * string) : option (Z * Z * string) :=
  match re_lit "-" (snd cand) with
  | None => None
  | Some r =>
      match re_d r with
      | [] => None
      | (d, r') :: _ => Some (fst cand, d, r')
      end
  end.

Fixpoint first_some {A B} (f : A -> option B) (l : list A) : option B :=
  match l with
  | [] => None
  | x :: l' => match f x with Some y => Some y | None => first_some f l' end
  end.

(** [format_regex.match(data_string)]: the first match of the compiled
    pattern, with the text left unconsumed. *)
Definition regex_match (s : string) : option (Z * Z * Z * string) :=
  match re_Y s with
  | None => None
  | Some (y, r1) =>
      match re_lit "-" r1 with
      | None => None
      | Some r2 =>
          match first_some after_m (re_m r2) with
          | None => None
          | Some (m, d, r) => Some (y, m, d, r)
          end
      end
  end.

(** [datetime.strptime(s, "%Y-%m-%d").date()]; [None] stands for the
    [ValueError] raised when the text does not match, when unconverted
    data remains, or when the fields are not a calendar date. *)
Definition strptime (s : string) : option date :=
  match regex_match s with
  | Some (y, m, d, EmptyString) => new_date y m d
  | _ => None
  end.

End Strptime.

(* ================================================================== *)
(** ** Python [float]: IEEE-754 binary64, round to nearest even         *)
(* ================================================================== *)

Module Float64.

Definition prec : Z := 53.
Definition emax : Z := 1024.

Definition float : Type := spec_float.

Definition zero : float := S754_zero false.
Definition add : float -> float -> float := SFadd prec emax.
Definition sub : float -> float -> float := SFsub prec emax.
Definition abs : float -> float := SFabs.
Definition leb : float -> float -> bool := SFleb.
Definition ltb : float -> float -> bool := SFltb.

(** [x == y] on floats ([nan] differs from itself, [0.0 == -0.0]). *)
Definition eqb : float -> float -> bool := SFeqb.

Definition is_finite (x : float) : bool :=
  match x with
  | S754_zero _ | S754_finite _ _ _ => true
  | _ => false
  end.

(** The float nearest to [c * 10^e]: what a literal such as [0.1] denotes
    ([of_decimal 1 (-1)]) and what [float(Decimal)] returns. *)
Definition of_decimal (c e : Z) : float :=
  if 0 <=? e then binary_normalize prec emax (c * 10 ^ e) 0 false
  else
    match c with
    | Z0 => zero
    | Zpos p =>
        SFdiv prec emax (S754_finite false p 0)
              (S754_finite false (Z.to_pos (10 ^ (- e))) 0)
    | Zneg p =>
        SFdiv prec emax (S754_finite true p 0)
              (S754_finite false (Z.to_pos (10 ^ (- e))) 0)
    end.

(** The built-in [sum] over floats as CPython evaluates it up to 3.11:
    the additions are carried out left to right from the start value 0. *)
Definition py_sum (l : list float) : float := fold_left add l zero.

(** The built-in [sum] from CPython 3.12 on: Neumaier's compensated
    summation, with the correction added at the end when it is finite and
    not zero. *)
Definition neumaier_step (st : float * float) (x : float) : float * float :=
  let '(f_result, c) := st in
  let t := add f_result x in
  let c' :=
    if leb (abs x) (abs f_result)
    then add c (add (sub f_result t) x)
    else add c (add (sub x t) f_result) in
  (t, c').

Definition py_sum_neumaier (l : list float) : float :=
  match l with
  | [] => zero
  | x :: l' =>
      let '(f_result, c) := fold_left neumaier_step l' (add zero x, zero) in
      if negb (eqb c zero) && is_finite c then add f_result c else f_result
  end.

End Float64.

(* ================================================================== *)
(** ** [decimal.Decimal] under the default context                      *)
(* ================================================================== *)

Module PyDecimal.
Import Float64.

(** A decimal is [coef * 10^expo], an infinity or a quiet NaN.  Only the
    value a decimal denotes is observed by the program (through
    [float(...)]), so the sign of a zero and the choice among
    equal-valued representations are not tracked. *)
Inductive decimal :=
| DFin (coef expo : Z)
| DInf (negative : bool)
| DNaN.

(** Context precision: [getcontext().prec]. *)
Definition context_prec : Z := 28.

Fixpoint ndigits_fuel (fuel : nat) (n : Z) : Z :=
  match fuel with
  | O => 1
  | S f => if n <? 10 then 1 else 1 + ndigits_fuel f (n / 10)
  end.

(** Number of decimal digits of [|n|] (1 for 0). *)
Definition ndigits (n : Z) : Z :=
  ndigits_fuel (S (Z.to_nat (Z.log2 (Z.abs n)))) (Z.abs n).

(** Division by [10^k] rounded half to even. *)
Definition div_half_even (n k : Z) : Z :=
  let p := 10 ^ k in
  let q := n / p in
  let r := n mod p in
  match 2 * r ?= p with
  | Lt => q
  | Gt => q + 1
  | Eq => if Z.even q then q else q + 1
  end.

(** [Decimal._fix]: rounding of a finite result to [context_prec]
    significant digits, ROUND_HALF_EVEN. *)
Definition fix_prec (c e : Z) : decimal :=
  let n := ndigits c in
  if n <=? context_prec then DFin c e
  else
    let k := n - context_prec in
    let q := div_half_even (Z.abs c) k in
    let '(q, k) := if q =? 10 ^ context_prec then (q / 10, k + 1) else (q, k) in
    DFin (Z.sgn c * q) (e + k).

(** The exact sum of two finite decimals, on the smaller exponent. *)
Definition add_exact (c1 e1 c2 e2 : Z) : Z * Z :=
  let e := Z.min e1 e2 in
  (c1 * 10 ^ (e1 - e) + c2 * 10 ^ (e2 - e), e).

Definition neg (a : decimal) : decimal :=
  match a with
  | DFin c e => DFin (- c) e
  | DInf s => DInf (negb s)
  | DNaN => DNaN
  end.

(** [a + b]: the exact result rounded by the context.  [None] is the
    [InvalidOperation] the default context raises for
    [Infinity + -Infinity]. *)
Definition add (a b : decimal) : option decimal :=
  match a, b with
  | DNaN, _ | _, DNaN => Some DNaN
  | DInf s1, DInf s2 => if Bool.eqb s1 s2 then Some a else None
  | DInf _, _ => Some a
  | _, DInf _ => Some b
  | DFin c1 e1, DFin c2 e2 =>
      let '(c, e) := add_exact c1 e1 c2 e2 in Some (fix_prec c e)
  end.

Definition sub (a b : decimal) : option decimal := add a (neg b).

(** [Decimal('0.00')]. *)
Definition zero_00 : decimal := DFin 0 (-2).

(** [float(d)]. *)
Definition to_float (d : decimal) : float :=
  match d with
  | DFin c e => of_decimal c e
  | DInf s => S754_infinity s
  | DNaN => S754_nan
  end.

(** *** [str(x)] for a float: the shortest digits that read back as [x] *)

(** [x = num / den] for a finite positive float [m * 2^e]. *)
Definition ratio (m : positive) (e : Z) : Z * Z :=
  if 0 <=? e then (Zpos m * 2 ^ e, 1) else (Zpos m, 2 ^ (- e)).

(** [floor (num / den / 10^k)]. *)
Definition scaled_floor (num den k : Z) : Z :=
  if 0 <=? k then num / (den * 10 ^ k) else (num * 10 ^ (- k)) / den.

(** [10^p <= num/den]. *)
Definition pow10_le (num den p : Z) : bool :=
  if 0 <=? p then den * 10 ^ p <=? num else den <=? num * 10 ^ (- p).

Fixpoint adjust_up (fuel : nat) (num den p : Z) : Z :=
  match fuel with
  | O => p
  | S f => if pow10_le num den (p + 1) then adjust_up f num den (p + 1) else p
  end.

Fixpoint adjust_down (fuel : nat) (num den p : Z) : Z :=
  match fuel with
  | O => p
  | S f => if pow10_le num den p then p else adjust_down f num den (p - 1)
  end.

(** [floor (log10 (num/den))], from the binary logarithms and a
    correction by exact comparison. *)
Definition floor_log10 (num den : Z) : Z :=
  let p0 := ((Z.log2 num - Z.log2 den) * 30103) / 100000 in
  adjust_up 4 num den (adjust_down 4 num den p0).

(** [|c * 10^k - num/den|] as a numerator over the common denominator
    [den * 10^max(0,-k)]. *)
Definition dist_num (num den c k : Z) : Z :=
  if 0 <=? k then Z.abs (c * 10 ^ k * den - num)
  else Z.abs (c * den - num * 10 ^ (- k)).

(** The candidates with [n] significant digits: the two neighbours of
    the value on the grid [10^k], kept when they read back as [x], the
    nearer one first (the even one on a tie). *)
Definition candidates (x : float) (num den p n : Z) : list (Z * Z) :=
  let k := p - n + 1 in
  let lo := scaled_floor num den k in
  let hi := lo + 1 in
  let ok c := match SFcompare (of_decimal c k) x with
              | Some Eq => true | _ => false end in
  let dlo := dist_num num den lo k in
  let dhi := dist_num num den hi k in
  let lo_first :=
    match dlo ?= dhi with
    | Lt => true | Gt => false | Eq => Z.even lo
    end in
  filter (fun ck => ok (fst ck))
         (if lo_first then [(lo, k); (hi, k)] else [(hi, k); (lo, k)]).

Fixpoint shortest (fuel : nat) (x : float) (num den p n : Z) : Z * Z :=
  match fuel with
  | O => (scaled_floor num den (p - n + 1), p - n + 1)
  | S f =>
      match candidates x num den p n with
      | ck :: _ => ck
      | [] => shortest f x num den p (n + 1)
      end
  end.

(** [Decimal(str(x))]: [str] prints a finite float with the fewest
    digits that read back as the same float, and [nan], [inf], [-inf]
    otherwise. *)
Definition of_float_str (x : float) : decimal :=
  match x with
  | S754_zero _ => DFin 0 (-1)
  | S754_finite s m e =>
      let '(num, den) := ratio m e in
      let p := floor_log10 num den in
      let '(c, k) := shortest 17 (S754_finite false m e) num den p 1 in
      DFin (if s then - c else c) k
  | S754_infinity s => DInf s
  | S754_nan => DNaN
  end.

End PyDecimal.

(* ================================================================== *)
(** ** Text: [int(s)], [format(n, "03d")], slices, [sorted]             *)
(* ================================================================== *)

Module PyStr.
Import Strptime.

(** A value tested by [if v:] / [if not v:] where [v] is [None] or text. *)
Definition truthy (o : option string) : bool :=
  match o with
  | Some (String _ _) => true
  | _ => false
  end.

Definition nonempty (s : string) : bool :=
  match s with
  | EmptyString => false
  | String _ _ => true
  end.

(** [s.startswith(p)]. *)
Definition startswith (p s : string) : bool := String.prefix p s.

(** [s[2:]]. *)
Definition slice_from_2 (s : string) : string :=
  match s with
  | String _ (String _ r) => r
  | _ => EmptyString
  end.

(** [needle in hay]. *)
Fixpoint contains (needle hay : string) : bool :=
  String.prefix needle hay
  || match hay with
     | EmptyString => false
     | String _ r => contains needle r
     end.

Definition str_ltb (a b : string) : bool :=
  match String.compare a b with Lt => true | _ => false end.

Definition is_space (c : ascii) : bool :=
  (code c =? 32) || ((9 <=? code c) && (code c <=? 13)).

Definition is_digit (c : ascii) : bool := in_range "0" "9" c.

Fixpoint lstrip (s : string) : string :=
  match s with
  | String c r => if is_space c then lstrip r else s
  | EmptyString => s
  end.

(** The digits of an [int] literal: at least one digit, single
    underscores between digits only.  Returns the value read and the
    text that follows. *)
Fixpoint scan_digits (after_us : bool) (acc : Z) (s : string)
  : option (Z * string) :=
  match s with
  | EmptyString => if after_us then None else Some (acc, s)
  | String c r =>
      if is_digit c then scan_digits false (10 * acc + digit_val c) r
      else if Ascii.eqb c "_" then
             if after_us then None else scan_digits true acc r
           else if after_us then None else Some (acc, s)
  end.

Definition scan_number (s : string) : option (Z * string) :=
  match s with
  | String c _ => if is_digit c then scan_digits false 0 s else None
  | EmptyString => None
  end.

(** [int(s)] in base 10; [None] is [ValueError]. *)
Definition py_int (s : string) : option Z :=
  let s := lstrip s in
  let '(negative, body) :=
    match s with
    | String "-" r => (true, r)
    | String "+" r => (false, r)
    | _ => (false, s)
    end in
  match scan_number body with
  | None => None
  | Some (n, rest) =>
      match lstrip rest with
      | EmptyString => Some (if negative then - n else n)
      | _ => None
      end
  end.

Definition digit_char (d : Z) : ascii := ascii_of_N (Z.to_N (48 + d)).

Fixpoint digits_fuel (fuel : nat) (n : Z) (acc : string) : string :=
  match fuel with
  | O => acc
  | S f =>
      let acc' := String (digit_char (n mod 10)) acc in
      if n <? 10 then acc' else digits_fuel f (n / 10) acc'
  end.

(** [str(n)] for [n >= 0]. *)
Definition str_nat (n : Z) : string :=
  digits_fuel (S (Z.to_nat (Z.log2 n))) n EmptyString.

Fixpoint zeros (k : nat) (s : string) : string :=
  match k with
  | O => s
  | S k' => String "0" (zeros k' s)
  end.

(** Left padding with zeros up to width [w]. *)
Definition zfill (w : nat) (s : string) : string :=
  zeros (w - String.length s) s.

(** [f"{n:03d}"]: sign-aware zero padding to width 3. *)
Definition fmt_03d (n : Z) : string :=
  if n <? 0 then String "-" (zfill 2 (str_nat (- n)))
  else zfill 3 (str_nat n).

(** [max(numeros)] on a non-empty list. *)
Definition py_max (x : Z) (l : list Z) : Z := fold_left Z.max l x.

(** [sorted(l, key=f)]: stable, keys compared as text. *)
Fixpoint insert_by {A} (key : A -> string) (x : A) (l : list A) : list A :=
  match l with
  | [] => [x]
  | y :: r =>
      if str_ltb (key y) (key x) then y :: insert_by key x r
      else x :: l
  end.

Definition sorted_by {A} (key : A -> string) (l : list A) : list A :=
  fold_right (insert_by key) [] l.

End PyStr.

(* ================================================================== *)
(** ** [SistemaFinanceiro]                                             *)
(* ================================================================== *)

Module Financeiro.
Import Datetime Strptime PyStr.

Definition float := Float64.float.

(** The two kinds of account.  The class repeats every operation once
    for [contas_pagar] and once for [contas_receber]; the embedding
    writes each once over the kind and names both instances. *)
Inductive Tipo := Pagar | Receber.

(** One account, as the dictionary built by [cadastrar_conta_pagar] /
    [cadastrar_conta_receber].  [parceiro] is the key ["fornecedor"] of
    a payable and ["cliente"] of a receivable; [data_baixa] and
    [usuario_baixa] are ["data_pagamento"], ["usuario_pagamento"] or
    ["data_recebimento"], ["usuario_recebimento"].  [ativo = None] is a
    dictionary without the key, read through [conta.get("ativo", True)]. *)
Record Conta := mkConta {
  id : string;
  descricao : string;
  categoria : string;
  valor : float;
  data_vencimento : string;
  status : string;
  status_vencimento : string;
  parceiro : string;
  observacoes : string;
  data_cadastro : string;
  usuario_cadastro : string;
  data_baixa : option string;
  usuario_baixa : option string;
  ativo : option bool
}.

Record CategoriaInfo := mkCategoriaInfo {
  nome : string;
  tipo_categoria : string;
  cor : string
}.

(** The object state together with the two JSON files it writes
    ([None]: the file does not exist). *)
Record SistemaFinanceiro := mkSistema {
  contas_pagar : list Conta;
  contas_receber : list Conta;
  categorias_pagar : list (string * CategoriaInfo);
  categorias_receber : list (string * CategoriaInfo);
  arquivo_contas_pagar : option (list Conta);
  arquivo_contas_receber : option (list Conta)
}.

(** What the program reads from the clock. *)
Record Relogio := mkRelogio {
  hoje : date;             (* datetime.now().date() *)
  hoje_str : string;       (* time.strftime("%Y-%m-%d") *)
  agora_str : string       (* time.strftime("%Y-%m-%d %H:%M:%S") *)
}.

Definition contas (t : Tipo) (s : SistemaFinanceiro) : list Conta :=
  match t with Pagar => contas_pagar s | Receber => contas_receber s end.

Definition categorias (t : Tipo) (s : SistemaFinanceiro)
  : list (string * CategoriaInfo) :=
  match t with Pagar => categorias_pagar s | Receber => categorias_receber s end.

Definition arquivo (t : Tipo) (s : SistemaFinanceiro) : option (list Conta) :=
  match t with
  | Pagar => arquivo_contas_pagar s
  | Receber => arquivo_contas_receber s
  end.

Definition set_contas (t : Tipo) (l : list Conta) (s : SistemaFinanceiro)
  : SistemaFinanceiro :=
  match t with
  | Pagar =>
      mkSistema l (contas_receber s) (categorias_pagar s)
                (categorias_receber s) (arquivo_contas_pagar s)
                (arquivo_contas_receber s)
  | Receber =>
      mkSistema (contas_pagar s) l (categorias_pagar s)
                (categorias_receber s) (arquivo_contas_pagar s)
                (arquivo_contas_receber s)
  end.

(** [salvar_contas_pagar] / [salvar_contas_receber]: the file is
    rewritten from the list in memory. *)
Definition salvar_contas (t : Tipo) (s : SistemaFinanceiro)
  : SistemaFinanceiro :=
  match t with
  | Pagar =>
      mkSistema (contas_pagar s) (contas_receber s) (categorias_pagar s)
                (categorias_receber s) (Some (contas_pagar s))
                (arquivo_contas_receber s)
  | Receber =>
      mkSistema (contas_pagar s) (contas_receber s) (categorias_pagar s)
                (categorias_receber s) (arquivo_contas_pagar s)
                (Some (contas_receber s))
  end.

Definition prefixo (t : Tipo) : string :=
  match t with Pagar => "CP" | Receber => "CR" end.

(** The settled status: ["pago"] or ["recebido"]. *)
Definition status_baixado (t : Tipo) : string :=
  match t with Pagar => "pago" | Receber => "recebido" end.

(** [conta.get("ativo", True)]. *)
Definition conta_ativo (c : Conta) : bool :=
  match ativo c with
  | Some b => b
  | None => true
  end.

(** *** [inicializar_categorias_padrao] and [__init__] *)

Definition categorias_padrao_pagar : list (string * CategoriaInfo) :=
  [ ("aluguel", mkCategoriaInfo "Aluguel" "fixa" "🔴");
    ("internet", mkCategoriaInfo "Internet" "fixa" "🔴");
    ("energia", mkCategoriaInfo "Energia Elétrica" "variavel" "🟡");
    ("agua", mkCategoriaInfo "Água" "variavel" "🟡");
    ("fornecedor", mkCategoriaInfo "Fornecedor" "variavel" "🟠");
    ("imposto", mkCategoriaInfo "Imposto" "fixa" "🔴");
    ("salario", mkCategoriaInfo "Salário" "fixa" "🔴");
    ("manutencao", mkCategoriaInfo "Manutenção" "variavel" "🟠");
    ("marketing", mkCategoriaInfo "Marketing" "variavel" "🟢");
    ("outros", mkCategoriaInfo "Outros" "variavel" "⚪") ].

Definition categorias_padrao_receber : list (string * CategoriaInfo) :=
  [ ("venda", mkCategoriaInfo "Venda" "variavel" "🟢");
    ("servico", mkCategoriaInfo "Serviço" "variavel" "🟢");
    ("comissao", mkCategoriaInfo "Comissão" "variavel" "🟢");
    ("aluguel_recebido", mkCategoriaInfo "Aluguel Recebido" "fixa" "🟢");
    ("investimento", mkCategoriaInfo "Investimento" "variavel" "🟢");
    ("outros_recebimentos",
     mkCategoriaInfo "Outros Recebimentos" "variavel" "🟢") ].

(** [carregar_contas_pagar] / [carregar_contas_receber]: the list read
    from the file, the empty list when there is none. *)
Definition carregar_contas (arq : option (list Conta)) : list Conta :=
  match arq with
  | Some l => l
  | None => []
  end.

(** [__init__] on the two account files, the category file being absent
    or empty: the default categories are installed. *)
Definition iniciar (arq_pagar arq_receber : option (list Conta))
  : SistemaFinanceiro :=
  mkSistema (carregar_contas arq_pagar) (carregar_contas arq_receber)
            categorias_padrao_pagar categorias_padrao_receber
            arq_pagar arq_receber.

(** *** [gerar_id_conta] *)

(** The loop collecting [numeros]. *)
Fixpoint numeros_de (pre : string) (l : list Conta) : list Z :=
  match l with
  | [] => []
  | conta :: r =>
      if startswith pre (id conta) then
        match py_int (slice_from_2 (id conta)) with
        | Some numero => numero :: numeros_de pre r
        | None => numeros_de pre r
        end
      else numeros_de pre r
  end.

Definition proximo_numero (pre : string) (l : list Conta) : Z :=
  match numeros_de pre l with
  | [] => 1
  | n :: ns => py_max n ns + 1
  end.

Definition gerar_id_conta (t : Tipo) (s : SistemaFinanceiro) : string :=
  match contas t s with
  | [] => prefixo t ++ "001"
  | l => prefixo t ++ fmt_03d (proximo_numero (prefixo t) l)
  end.

(** *** [validar_data] and [calcular_status_vencimento] *)

Definition validar_data (data_str : string) : bool :=
  match strptime data_str with
  | Some _ => true
  | None => false
  end.

Definition calcular_status_vencimento (r : Relogio) (data_venc_str : string)
  : string :=
  match strptime data_venc_str with
  | Some data_venc =>
      if date_ltb data_venc (hoje r) then "atrasado"
      else if date_eqb data_venc (hoje r) then "vencendo_hoje"
      else if days_between data_venc (hoje r) <=? 7 then "vencendo_em_breve"
      else "no_prazo"
  | None => "data_invalida"
  end.

(** *** Registration *)

Inductive Erro :=
| DadosInvalidos             (* "Dados da conta inválidos!" *)
| CategoriaInvalida          (* "Categoria inválida!" *)
| DataVencimentoInvalida     (* "Data de vencimento inválida! ..." *)
| ContaJaBaixada             (* "Conta já foi paga!" / "... recebida!" *)
| DataBaixaInvalida          (* "Data de pagamento inválida!" / "... recebimento ..." *)
| ContaNaoEncontrada.        (* "Conta não encontrada!" *)

(** [k in d] for a dictionary kept as an association list. *)
Definition tem_chave {A} (k : string) (d : list (string * A)) : bool :=
  existsb (fun kv => String.eqb (fst kv) k) d.

(** The common body of [cadastrar_conta_pagar] and
    [cadastrar_conta_receber]; [parc] is the supplier or the client.
    Returns the new id, or the error printed before returning [None]. *)
Definition cadastrar_conta (t : Tipo) (r : Relogio)
    (parc descr categ : string) (v : float) (data_venc obs usuario : string)
    (s : SistemaFinanceiro) : (Erro + string) * SistemaFinanceiro :=
  if (match t with Pagar => false | Receber => negb (nonempty parc) end)
     || negb (nonempty descr) || negb (nonempty categ)
     || Float64.leb v Float64.zero
  then (inl DadosInvalidos, s)
  else if negb (tem_chave categ (categorias t s))
  then (inl CategoriaInvalida, s)
  else if negb (validar_data data_venc)
  then (inl DataVencimentoInvalida, s)
  else
    let conta_id := gerar_id_conta t s in
    let conta :=
      mkConta conta_id descr categ v data_venc "pendente"
              (calcular_status_vencimento r data_venc)
              parc obs (agora_str r) usuario None None (Some true) in
    (inr conta_id, salvar_contas t (set_contas t (contas t s ++ [conta]) s)).

Definition cadastrar_conta_pagar (r : Relogio)
    (descr categ : string) (v : float) (data_venc fornecedor obs usuario : string)
  := cadastrar_conta Pagar r fornecedor descr categ v data_venc obs usuario.

Definition cadastrar_conta_receber (r : Relogio)
    (cliente descr categ : string) (v : float) (data_venc obs usuario : string)
  := cadastrar_conta Receber r cliente descr categ v data_venc obs usuario.

(** *** Listing and search *)

Definition com_status_vencimento (sv : string) (c : Conta) : Conta :=
  mkConta (id c) (descricao c) (categoria c) (valor c) (data_vencimento c)
          (status c) sv (parceiro c) (observacoes c) (data_cadastro c)
          (usuario_cadastro c) (data_baixa c) (usuario_baixa c) (ativo c).

(** The update every active account receives while it is listed. *)
Definition atualizar (r : Relogio) (c : Conta) : Conta :=
  if conta_ativo c
  then com_status_vencimento
         (calcular_status_vencimento r (data_vencimento c)) c
  else c.

Definition passa_filtro (filtro : option string) (campo : string) : bool :=
  negb (truthy filtro && negb (String.eqb campo (match filtro with
                                                  | Some f => f
                                                  | None => EmptyString
                                                  end))).

Definition listar_contas (t : Tipo) (r : Relogio)
    (filtro_status filtro_categoria : option string) (s : SistemaFinanceiro)
  : list Conta * SistemaFinanceiro :=
  let atualizadas := map (atualizar r) (contas t s) in
  let contas_filtradas :=
    filter (fun c => conta_ativo c
                     && passa_filtro filtro_status (status c)
                     && passa_filtro filtro_categoria (categoria c))
           atualizadas in
  (sorted_by data_vencimento contas_filtradas,
   salvar_contas t (set_contas t atualizadas s)).

Definition listar_contas_pagar := listar_contas Pagar.
Definition listar_contas_receber := listar_contas Receber.

Section Busca.
(** [str.lower]. *)
Variable lower : string -> string.

Definition buscar_conta (t : Tipo) (termo : string) (s : SistemaFinanceiro)
  : list Conta :=
  let termo_lower := lower termo in
  filter (fun c => conta_ativo c
                   && (contains termo_lower (lower (id c))
                       || contains termo_lower (lower (descricao c))
                       || contains termo_lower (lower (parceiro c))))
         (contas t s).

Definition buscar_conta_pagar := buscar_conta Pagar.
Definition buscar_conta_receber := buscar_conta Receber.
End Busca.

(** *** Settlement and soft deletion *)

Inductive Retorno := Sucesso | Falha (e : Erro).

(** The [bool] the method returns. *)
Definition retorno_bool (x : Retorno) : bool :=
  match x with Sucesso => true | Falha _ => false end.

Definition baixar (t : Tipo) (data usuario : string) (c : Conta) : Conta :=
  mkConta (id c) (descricao c) (categoria c) (valor c) (data_vencimento c)
          (status_baixado t) (status_baixado t) (parceiro c) (observacoes c)
          (data_cadastro c) (usuario_cadastro c) (Some data) (Some usuario)
          (ativo c).

(** The loop of [registrar_pagamento] / [registrar_recebimento] over the
    accounts: [None] when it runs to the end, otherwise the value
    returned from inside the loop with the list as it then stands. *)
Fixpoint registrar_loop (t : Tipo) (r : Relogio) (conta_id : string)
    (data : option string) (usuario : string) (l : list Conta)
  : option (Retorno * list Conta) :=
  match l with
  | [] => None
  | conta :: resto =>
      if String.eqb (id conta) conta_id && conta_ativo conta then
        if String.eqb (status conta) (status_baixado t)
        then Some (Falha ContaJaBaixada, l)
        else
          let data' := match data with
                       | Some d => if nonempty d then d else hoje_str r
                       | None => hoje_str r
                       end in
          if negb (validar_data data')
          then Some (Falha DataBaixaInvalida, l)
          else Some (Sucesso, baixar t data' usuario conta :: resto)
      else
        match registrar_loop t r conta_id data usuario resto with
        | Some (x, resto') => Some (x, conta :: resto')
        | None => None
        end
  end.

Definition registrar_baixa (t : Tipo) (r : Relogio) (conta_id : string)
    (data : option string) (usuario : string) (s : SistemaFinanceiro)
  : Retorno * SistemaFinanceiro :=
  match registrar_loop t r conta_id data usuario (contas t s) with
  | Some (Sucesso, l') => (Sucesso, salvar_contas t (set_contas t l' s))
  | Some (Falha e, _) => (Falha e, s)
  | None => (Falha ContaNaoEncontrada, s)
  end.

Definition registrar_pagamento := registrar_baixa Pagar.
Definition registrar_recebimento := registrar_baixa Receber.

Definition desativar (c : Conta) : Conta :=
  mkConta (id c) (descricao c) (categoria c) (valor c) (data_vencimento c)
          (status c) (status_vencimento c) (parceiro c) (observacoes c)
          (data_cadastro c) (usuario_cadastro c) (data_baixa c)
          (usuario_baixa c) (Some false).

(** The loop of [excluir_conta_pagar] / [excluir_conta_receber]. *)
Fixpoint excluir_loop (conta_id : string) (l : list Conta)
  : option (list Conta) :=
  match l with
  | [] => None
  | conta :: resto =>
      if String.eqb (id conta) conta_id && conta_ativo conta
      then Some (desativar conta :: resto)
      else match excluir_loop conta_id resto with
           | Some resto' => Some (conta :: resto')
           | None => None
           end
  end.

Definition excluir_conta (t : Tipo) (conta_id usuario : string)
    (s : SistemaFinanceiro) : Retorno * SistemaFinanceiro :=
  match excluir_loop conta_id (contas t s) with
  | Some l' => (Sucesso, salvar_contas t (set_contas t l' s))
  | None => (Falha ContaNaoEncontrada, s)
  end.

Definition excluir_conta_pagar := excluir_conta Pagar.
Definition excluir_conta_receber := excluir_conta Receber.

(** *** [relatorio_financeiro] *)

Record Resumo := mkResumo {
  total_pagar : float;
  total_receber : float;
  total_pago : float;
  total_recebido : float;
  total_pagar_pendente : float;
  total_receber_pendente : float;
  total_pagar_atrasado : float;
  total_receber_atrasado : float;
  saldo : float;
  saldo_futuro : float
}.

(** The counts under the keys ["contas_pagar"] and ["contas_receber"]:
    ["total"], ["pendentes"], ["pagas"] or ["recebidas"], ["atrasadas"]. *)
Record Contagem := mkContagem {
  qtd_total : nat;
  qtd_pendentes : nat;
  qtd_baixadas : nat;
  qtd_atrasadas : nat
}.

(** One entry of ["categorias_pagar"] / ["categorias_receber"]:
    ["total"], ["pago"] or ["recebido"], ["pendente"]. *)
Record TotaisCategoria := mkTotaisCategoria {
  cat_total : float;
  cat_baixado : float;
  cat_pendente : float
}.

(** The report; ["data_relatorio"] is the clock's [agora_str]. *)
Record Relatorio := mkRelatorio {
  resumo : Resumo;
  rel_contas_pagar : Contagem;
  rel_contas_receber : Contagem;
  rel_categorias_pagar : list (string * TotaisCategoria);
  rel_categorias_receber : list (string * TotaisCategoria);
  atrasadas_pagar : list Conta;
  atrasadas_receber : list Conta;
  rel_data_inicio : option string;
  rel_data_fim : option string;
  data_relatorio : string
}.

Definition texto (o : option string) : string :=
  match o with Some x => x | None => EmptyString end.

(** The two [continue] tests on the due date, as text. *)
Definition no_periodo (data_inicio data_fim : option string) (c : Conta) : bool :=
  negb (truthy data_inicio && str_ltb (data_vencimento c) (texto data_inicio))
  && negb (truthy data_fim && str_ltb (texto data_fim) (data_vencimento c)).

(** [contas_pagar_filtradas] / [contas_receber_filtradas]: the whole
    list when no bound is given, else the active accounts in the period. *)
Definition filtrar_periodo (data_inicio data_fim : option string)
    (l : list Conta) : list Conta :=
  if truthy data_inicio || truthy data_fim
  then filter (fun c => conta_ativo c && no_periodo data_inicio data_fim c) l
  else l.

Definition tem_status (st : string) (c : Conta) : bool :=
  conta_ativo c && String.eqb (status c) st.

Definition atrasada (c : Conta) : bool :=
  conta_ativo c && String.eqb (status_vencimento c) "atrasado".

Definition zero_categoria : TotaisCategoria :=
  mkTotaisCategoria Float64.zero Float64.zero Float64.zero.

(** The three [+=] on the entry of one category. *)
Definition somar_na_categoria (baixada : bool) (v : float)
    (x : TotaisCategoria) : TotaisCategoria :=
  mkTotaisCategoria
    (Float64.add (cat_total x) v)
    (if baixada then Float64.add (cat_baixado x) v else cat_baixado x)
    (if baixada then cat_pendente x else Float64.add (cat_pendente x) v).

(** [d[cat] = f(d[cat])], the entry being created from [zero_categoria]
    at the end of the dictionary when the key is new. *)
Fixpoint atualizar_categoria (cat : string)
    (f : TotaisCategoria -> TotaisCategoria)
    (d : list (string * TotaisCategoria)) : list (string * TotaisCategoria) :=
  match d with
  | [] => [(cat, f zero_categoria)]
  | (k, x) :: r =>
      if String.eqb k cat then (k, f x) :: r
      else (k, x) :: atualizar_categoria cat f r
  end.

Definition passo_categoria (t : Tipo) (d : list (string * TotaisCategoria))
    (c : Conta) : list (string * TotaisCategoria) :=
  if conta_ativo c
  then atualizar_categoria (categoria c)
         (somar_na_categoria (String.eqb (status c) (status_baixado t))
                             (valor c)) d
  else d.

Definition analise_por_categoria (t : Tipo) (l : list Conta)
  : list (string * TotaisCategoria) :=
  fold_left (passo_categoria t) l [].

Section Relatorio.
(** The built-in [sum]; see [Float64.py_sum] and [Float64.py_sum_neumaier]. *)
Variable soma : list float -> float.

Definition soma_valores (p : Conta -> bool) (l : list Conta) : float :=
  soma (map valor (filter p l)).

Definition contagem (t : Tipo) (l : list Conta) : Contagem :=
  mkContagem
    (List.length l)
    (List.length (filter (tem_status "pendente") l))
    (List.length (filter (tem_status (status_baixado t)) l))
    (List.length (filter atrasada l)).

Definition relatorio_financeiro (r : Relogio)
    (data_inicio data_fim : option string) (s : SistemaFinanceiro)
  : Relatorio :=
  let contas_pagar_filtradas :=
    filtrar_periodo data_inicio data_fim (contas_pagar s) in
  let contas_receber_filtradas :=
    filtrar_periodo data_inicio data_fim (contas_receber s) in
  let total_pagar := soma_valores conta_ativo contas_pagar_filtradas in
  let total_receber := soma_valores conta_ativo contas_receber_filtradas in
  let total_pago := soma_valores (tem_status "pago") contas_pagar_filtradas in
  let total_recebido :=
    soma_valores (tem_status "recebido") contas_receber_filtradas in
  let total_pagar_pendente :=
    soma_valores (tem_status "pendente") contas_pagar_filtradas in
  let total_receber_pendente :=
    soma_valores (tem_status "pendente") contas_receber_filtradas in
  let contas_pagar_atrasadas := filter atrasada contas_pagar_filtradas in
  let contas_receber_atrasadas := filter atrasada contas_receber_filtradas in
  let total_pagar_atrasado := soma (map valor contas_pagar_atrasadas) in
  let total_receber_atrasado := soma (map valor contas_receber_atrasadas) in
  let saldo := Float64.sub total_recebido total_pago in
  let saldo_futuro := Float64.sub total_receber total_pagar in
  mkRelatorio
    (mkResumo total_pagar total_receber total_pago total_recebido
              total_pagar_pendente total_receber_pendente
              total_pagar_atrasado total_receber_atrasado saldo saldo_futuro)
    (contagem Pagar contas_pagar_filtradas)
    (contagem Receber contas_receber_filtradas)
    (analise_por_categoria Pagar contas_pagar_filtradas)
    (analise_por_categoria Receber contas_receber_filtradas)
    contas_pagar_atrasadas contas_receber_atrasadas
    data_inicio data_fim (agora_str r).

End Relatorio.

(** *** Cash flow *)

Inductive Excecao := ValueError | OverflowError | InvalidOperation.

Inductive ErroFluxo :=
| DataInvalida           (* {"erro": "Data inválida"} *)
| DataInicialMaior.      (* {"erro": "Data inicial maior que data final"} *)

(** A returned dictionary, the dictionary [{"erro": ...}], or an
    exception that leaves the method. *)
Inductive Resultado (A : Type) :=
| Ok (a : A)
| ErroDominio (e : ErroFluxo)
| Levanta (x : Excecao).
Arguments Ok {A} a.
Arguments ErroDominio {A} e.
Arguments Levanta {A} x.

(** The value under ["entradas"] or ["saidas"]. *)
Record Movimento := mkMovimento {
  transacoes : list Conta;
  total : float;
  quantidade : nat;
  por_categoria : list (string * float)   (* monthly flow only *)
}.

(** The presentation keys (["saldo_formatado"], ["mes_nome"]) are left
    out; the bounds of a monthly flow are kept as dates, of which the
    dictionary holds the [%Y-%m-%d] rendering. *)
Record FluxoDiario := mkFluxoDiario {
  fd_data : string;
  fd_entradas : Movimento;
  fd_saidas : Movimento;
  saldo_dia : float
}.

Record FluxoMensal := mkFluxoMensal {
  fm_ano : Z;
  fm_mes : Z;
  fm_data_inicio : date;
  fm_data_fim : date;
  fm_entradas : Movimento;
  fm_saidas : Movimento;
  saldo_mes : float
}.

Record FluxoPeriodo := mkFluxoPeriodo {
  fp_data_inicio : string;
  fp_data_fim : string;
  fp_entradas : Movimento;
  fp_saidas : Movimento;
  saldo_periodo : float
}.

Definition decimal := PyDecimal.decimal.

(** [Decimal(str(conta["valor"]))]. *)
Definition decimal_valor (c : Conta) : decimal :=
  PyDecimal.of_float_str (valor c).

Definition opt_str_eqb (a : option string) (b : string) : bool :=
  match a with
  | Some x => String.eqb x b
  | None => false
  end.

(** The test of the daily loops. *)
Definition baixada_no_dia (t : Tipo) (data : string) (c : Conta) : bool :=
  conta_ativo c && String.eqb (status c) (status_baixado t)
  && opt_str_eqb (data_baixa c) data.

(** One turn of a daily loop: the append and the [+=]; [None] when the
    addition raises. *)
Definition passo_dia (t : Tipo) (data : string)
    (acc : option (list Conta * decimal)) (c : Conta)
  : option (list Conta * decimal) :=
  match acc with
  | None => None
  | Some (trans, tot) =>
      if baixada_no_dia t data c then
        match PyDecimal.add tot (decimal_valor c) with
        | Some tot' => Some ((trans ++ [c])%list, tot')
        | None => None
        end
      else acc
  end.

Definition movimento_dia (t : Tipo) (data : string) (l : list Conta)
  : option (list Conta * decimal) :=
  fold_left (passo_dia t data) l (Some ([], PyDecimal.zero_00)).

Definition mk_movimento (trans : list Conta) (tot : decimal)
    (cats : list (string * float)) : Movimento :=
  mkMovimento trans (PyDecimal.to_float tot) (List.length trans) cats.

Definition fluxo_caixa_diario (r : Relogio) (data : option string)
    (s : SistemaFinanceiro) : Resultado FluxoDiario :=
  let data := match data with Some d => d | None => hoje_str r end in
  if negb (validar_data data) then ErroDominio DataInvalida
  else
    match movimento_dia Receber data (contas_receber s) with
    | None => Levanta InvalidOperation
    | Some (entradas, total_entradas) =>
        match movimento_dia Pagar data (contas_pagar s) with
        | None => Levanta InvalidOperation
        | Some (saidas, total_saidas) =>
            match PyDecimal.sub total_entradas total_saidas with
            | None => Levanta InvalidOperation
            | Some saldo_dia =>
                Ok (mkFluxoDiario data
                      (mk_movimento entradas total_entradas [])
                      (mk_movimento saidas total_saidas [])
                      (PyDecimal.to_float saldo_dia))
            end
        end
    end.

(** The test [data_inicio <= d <= data_fim] on the settlement date of an
    active, settled account; a date that does not parse ends the turn in
    the [except] branch. *)
Definition baixada_entre (t : Tipo) (ini fim : date) (c : Conta) : bool :=
  conta_ativo c && String.eqb (status c) (status_baixado t)
  && match data_baixa c with
     | Some txt =>
         match strptime txt with
         | Some d => date_leb ini d && date_leb d fim
         | None => false
         end
     | None => false
     end.

(** One turn of a monthly or period loop.  The [+=] stands inside the
    [try], after the append: when it raises, the account stays in the
    list and the total is left as it was. *)
Definition passo_periodo (t : Tipo) (ini fim : date)
    (acc : list Conta * decimal) (c : Conta) : list Conta * decimal :=
  let '(trans, tot) := acc in
  if baixada_entre t ini fim c then
    match PyDecimal.add tot (decimal_valor c) with
    | Some tot' => ((trans ++ [c])%list, tot')
    | None => ((trans ++ [c])%list, tot)
    end
  else acc.

Definition movimento_periodo (t : Tipo) (ini fim : date) (l : list Conta)
  : list Conta * decimal :=
  fold_left (passo_periodo t ini fim) l ([], PyDecimal.zero_00).

(** [d[cat] += v] on a dictionary of decimals, the entry being created
    as [Decimal('0.00')] when the key is new. *)
Fixpoint somar_decimal_categoria (cat : string) (v : decimal)
    (d : list (string * decimal)) : option (list (string * decimal)) :=
  match d with
  | [] => match PyDecimal.add PyDecimal.zero_00 v with
          | Some x => Some [(cat, x)]
          | None => None
          end
  | (k, x) :: r =>
      if String.eqb k cat then
        match PyDecimal.add x v with
        | Some x' => Some ((k, x') :: r)
        | None => None
        end
      else
        match somar_decimal_categoria cat v r with
        | Some r' => Some ((k, x) :: r')
        | None => None
        end
  end.

Definition resumo_por_categoria (l : list Conta)
  : option (list (string * decimal)) :=
  fold_left (fun acc c =>
               match acc with
               | Some d => somar_decimal_categoria (categoria c) (decimal_valor c) d
               | None => None
               end) l (Some []).

Definition em_float (d : list (string * decimal)) : list (string * float) :=
  map (fun kv => (fst kv, PyDecimal.to_float (snd kv))) d.

(** The first and the last day of the month. *)
Definition limites_do_mes (ano mes : Z) : Resultado (date * date) :=
  match new_date ano mes 1 with
  | None => Levanta ValueError
  | Some data_inicio =>
      match (if mes =? 12 then new_date (ano + 1) 1 1
             else new_date ano (mes + 1) 1) with
      | None => Levanta ValueError
      | Some seguinte =>
          match sub_days seguinte 1 with
          | None => Levanta OverflowError
          | Some data_fim => Ok (data_inicio, data_fim)
          end
      end
  end.

Definition fluxo_caixa_mensal (r : Relogio) (ano mes : option Z)
    (s : SistemaFinanceiro) : Resultado FluxoMensal :=
  let ano := match ano with Some a => a | None => year (hoje r) end in
  let mes := match mes with Some m => m | None => month (hoje r) end in
  match limites_do_mes ano mes with
  | Levanta x => Levanta x
  | ErroDominio e => ErroDominio e
  | Ok (data_inicio, data_fim) =>
      let '(entradas, total_entradas) :=
        movimento_periodo Receber data_inicio data_fim (contas_receber s) in
      let '(saidas, total_saidas) :=
        movimento_periodo Pagar data_inicio data_fim (contas_pagar s) in
      match PyDecimal.sub total_entradas total_saidas with
      | None => Levanta InvalidOperation
      | Some saldo_mes =>
          match resumo_por_categoria entradas with
          | None => Levanta InvalidOperation
          | Some categorias_entradas =>
              match resumo_por_categoria saidas with
              | None => Levanta InvalidOperation
              | Some categorias_saidas =>
                  Ok (mkFluxoMensal ano mes data_inicio data_fim
                        (mk_movimento entradas total_entradas
                                      (em_float categorias_entradas))
                        (mk_movimento saidas total_saidas
                                      (em_float categorias_saidas))
                        (PyDecimal.to_float saldo_mes))
              end
          end
      end
  end.

Definition fluxo_caixa_periodo (data_inicio data_fim : string)
    (s : SistemaFinanceiro) : Resultado FluxoPeriodo :=
  match strptime data_inicio, strptime data_fim with
  | Some data_ini, Some data_fim_obj =>
      if date_ltb data_fim_obj data_ini then ErroDominio DataInicialMaior
      else
        let '(entradas, total_entradas) :=
          movimento_periodo Receber data_ini data_fim_obj (contas_receber s) in
        let '(saidas, total_saidas) :=
          movimento_periodo Pagar data_ini data_fim_obj (contas_pagar s) in
        match PyDecimal.sub total_entradas total_saidas with
        | None => Levanta InvalidOperation
        | Some saldo_periodo =>
            Ok (mkFluxoPeriodo data_inicio data_fim
                  (mk_movimento entradas total_entradas [])
                  (mk_movimento saidas total_saidas [])
                  (PyDecimal.to_float saldo_periodo))
        end
  | _, _ => ErroDominio DataInvalida
  end.

End Financeiro.

(* ================================================================== *)
(** ** [obter_alertas_vencimento]                                      *)
(* ================================================================== *)

Module Alertas.
Import Datetime Strptime PyStr Financeiro.

(** The dictionary of alerts; an entry [{"tipo": ..., "conta": ...}] is
    the pair of the kind and the account. *)
Record Alertas := mkAlertas {
  vencendo_hoje : list (Tipo * Conta);
  vencendo_em_7_dias : list (Tipo * Conta);
  atrasadas : list (Tipo * Conta)
}.

(** One turn of a loop of [obter_alertas_vencimento]: inactive and
    settled accounts are skipped, and so is, through the [except]
    branch, an account whose due date does not parse. *)
Definition passo_alerta (t : Tipo) (r : Relogio) (al : Alertas) (conta : Conta)
  : Alertas :=
  if negb (conta_ativo conta) || String.eqb (status conta) (status_baixado t)
  then al
  else
    match strptime (data_vencimento conta) with
    | None => al
    | Some data_venc =>
        let dias_para_vencer := days_between data_venc (hoje r) in
        if dias_para_vencer =? 0 then
          mkAlertas (vencendo_hoje al ++ [(t, conta)])
                    (vencendo_em_7_dias al) (atrasadas al)
        else if dias_para_vencer <? 0 then
          mkAlertas (vencendo_hoje al) (vencendo_em_7_dias al)
                    (atrasadas al ++ [(t, conta)])
        else if dias_para_vencer <=? 7 then
          mkAlertas (vencendo_hoje al)
                    (vencendo_em_7_dias al ++ [(t, conta)]) (atrasadas al)
        else al
    end.

Definition obter_alertas_vencimento (r : Relogio) (s : SistemaFinanceiro)
  : Alertas :=
  fold_left (passo_alerta Receber r) (contas_receber s)
    (fold_left (passo_alerta Pagar r) (contas_pagar s)
       (mkAlertas [] [] [])).

End Alertas.

(* ================================================================== *)
(** ** [dados_para_grafico_fluxo_caixa]                                *)
(* ================================================================== *)

Module Grafico.
Import Datetime Strptime PyStr Financeiro.

(** The dictionary a flow method returned, told apart as the method
    does: by the key ["erro"], then ["data"], then ["mes_nome"]. *)
Inductive FluxoData :=
| DeErro (e : ErroFluxo)
| DoDia (f : FluxoDiario)
| DoMes (f : FluxoMensal)
| DoPeriodo (f : FluxoPeriodo).

(** A number of [transacoes_por_dia]: the [int] 0 an entry starts with,
    or the [float] it is once an amount has been added. *)
Inductive Numero := Zero | Flutuante (f : float).

(** [n += valor]. *)
Definition mais (n : Numero) (v : float) : Numero :=
  match n with
  | Zero => Flutuante (Float64.add Float64.zero v)
  | Flutuante f => Flutuante (Float64.add f v)
  end.

(** [a - b]. *)
Definition menos (a b : Numero) : Numero :=
  match a, b with
  | Zero, Zero => Zero
  | Zero, Flutuante g => Flutuante (Float64.sub Float64.zero g)
  | Flutuante f, Zero => Flutuante (Float64.sub f Float64.zero)
  | Flutuante f, Flutuante g => Flutuante (Float64.sub f g)
  end.

(** A value of [transacoes_por_dia]. *)
Record PorDia := mkPorDia {
  pd_entradas : Numero;
  pd_saidas : Numero
}.

(** The side of a flow a loop adds to. *)
Inductive Lado := Entradas | Saidas.

Definition somar_lado (lado : Lado) (v : float) (x : PorDia) : PorDia :=
  match lado with
  | Entradas => mkPorDia (mais (pd_entradas x) v) (pd_saidas x)
  | Saidas => mkPorDia (pd_entradas x) (mais (pd_saidas x) v)
  end.

(** A key of [transacoes_por_dia]: what
    [conta.get('data_recebimento', '')] / [conta.get('data_pagamento', '')]
    returns for an account, which holds the key: the text of the
    settlement date, or [None] when the account holds [None] there. *)
Definition Chave : Type := option string.

(** [k == data] on keys. *)
Definition chave_eqb (a b : Chave) : bool :=
  match a, b with
  | Some x, Some y => String.eqb x y
  | None, None => true
  | _, _ => false
  end.

(** One turn of a grouping loop: the entry of the day is created at the
    end of the dictionary when the key is new, and the amount is added
    on the side of the loop. *)
Fixpoint somar_no_dia (lado : Lado) (data : Chave) (v : float)
    (d : list (Chave * PorDia)) : list (Chave * PorDia) :=
  match d with
  | [] => [(data, somar_lado lado v (mkPorDia Zero Zero))]
  | (k, x) :: r =>
      if chave_eqb k data then (k, somar_lado lado v x) :: r
      else (k, x) :: somar_no_dia lado data v r
  end.

Definition agrupar (lado : Lado) (l : list Conta)
    (d : list (Chave * PorDia)) : list (Chave * PorDia) :=
  fold_left (fun d conta =>
               somar_no_dia lado (data_baixa conta) (valor conta) d)
            l d.

(** [d[k]], for a key of the dictionary. *)
Fixpoint obter (k : Chave) (d : list (Chave * PorDia)) : PorDia :=
  match d with
  | [] => mkPorDia Zero Zero
  | (k', x) :: r => if chave_eqb k' k then x else obter k r
  end.

(** The texts of a list of keys, when none of them is [None]. *)
Fixpoint textos (ks : list Chave) : option (list string) :=
  match ks with
  | [] => Some []
  | Some x :: r =>
      match textos r with
      | Some l => Some (x :: l)
      | None => None
      end
  | None :: _ => None
  end.

(** [sorted(transacoes_por_dia.keys())]; the result [None] is
    [TypeError], which the sort raises when it compares the key [None]
    with a text, as it does whenever [None] is one of two keys or
    more. *)
Definition ordenar_chaves (ks : list Chave) : option (list Chave) :=
  match textos ks with
  | Some l => Some (map Some (sorted_by (fun k => k) l))
  | None =>
      match ks with
      | [_] => Some ks
      | _ => None
      end
  end.

(** An element of ["transacoes_diarias"]. *)
Record Ponto := mkPonto {
  ponto_data : Chave;
  ponto_entradas : Numero;
  ponto_saidas : Numero;
  ponto_saldo : Numero
}.

(** The daily series; [None] when the sort of the keys raises. *)
Definition transacoes_diarias_de (entradas saidas : list Conta)
  : option (list Ponto) :=
  let transacoes_por_dia :=
    agrupar Saidas saidas (agrupar Entradas entradas []) in
  match ordenar_chaves (map fst transacoes_por_dia) with
  | Some datas =>
      Some (map (fun data =>
                   let x := obter data transacoes_por_dia in
                   mkPonto data (pd_entradas x) (pd_saidas x)
                           (menos (pd_entradas x) (pd_saidas x)))
                datas)
  | None => None
  end.

(** The returned dictionary, the title left out. *)
Record DadosGrafico := mkDadosGrafico {
  valores_entradas : float;
  valores_saidas : float;
  categorias_entradas : list (string * float);
  categorias_saidas : list (string * float);
  transacoes_diarias : list Ponto
}.

(** What a call gives: the dictionary [{"erro": ...}], the chart data,
    or the [TypeError] that leaves the method. *)
Inductive Saida :=
| DicionarioErro (e : ErroFluxo)
| Dados (g : DadosGrafico)
| LevantaTypeError.

Definition dados_para_grafico_fluxo_caixa (fluxo_data : FluxoData)
  : Saida :=
  match fluxo_data with
  | DeErro e => DicionarioErro e
  | DoDia f =>
      Dados (mkDadosGrafico (total (fd_entradas f)) (total (fd_saidas f))
                            [] [] [])
  | DoMes f =>
      match transacoes_diarias_de (transacoes (fm_entradas f))
                                  (transacoes (fm_saidas f)) with
      | Some diarias =>
          Dados (mkDadosGrafico
                   (total (fm_entradas f)) (total (fm_saidas f))
                   (por_categoria (fm_entradas f))
                   (por_categoria (fm_saidas f)) diarias)
      | None => LevantaTypeError
      end
  | DoPeriodo f =>
      Dados (mkDadosGrafico (total (fp_entradas f)) (total (fp_saidas f))
                            [] [] [])
  end.

End Grafico.

(* ================================================================== *)
(** * Notions used in the statements                                   *)
(* ================================================================== *)

Import Datetime Strptime PyStr Financeiro.

Definition days_in_year (y : Z) : Z := if _is_leap y then 366 else 365.

(** A date whose month and day are in range (any year). *)
Definition well_formed (d : date) : Prop :=
  1 <= month d <= 12 /\ 1 <= day d <= _days_in_month (year d) (month d).

Fixpoint all_digits (s : string) : bool :=
  match s with
  | EmptyString => true
  | String c r => is_digit c && all_digits r
  end.

(** The number a string of digits denotes, read from the left. *)
Fixpoint digits_value (acc : Z) (s : string) : Z :=
  match s with
  | EmptyString => acc
  | String c r => digits_value (10 * acc + digit_val c) r
  end.

(** The number [gerar_id_conta] reads in the id of an account: the value
    of [int(id[2:])] for an id that starts with the prefix. *)
Definition numero_do_id (pre : string) (c : Conta) : option Z :=
  if startswith pre (id c) then py_int (slice_from_2 (id c)) else None.

(** The float a decimal literal denotes: [0.1] is [lit 1 (-1)]. *)
Definition lit (c e : Z) : float := Float64.of_decimal c e.

(** A clock reading used in the examples: 10 March 2024. *)
Definition relogio_ex : Relogio :=
  mkRelogio (mkdate 2024 3 10) "2024-03-10" "2024-03-10 12:00:00".

(** The state after the listed registrations of payables
    [(descricao, categoria, valor, data_vencimento)], from no files. *)
Definition cadastrar_pagar_todas
    (l : list (string * string * float * string)) (s : SistemaFinanceiro)
  : SistemaFinanceiro :=
  fold_left
    (fun s x =>
       let '(descr, categ, v, venc) := x in
       snd (cadastrar_conta_pagar relogio_ex descr categ v venc "" ""
                                  "sistema" s))
    l s.

(** Two payables of 0.10 and 0.20. *)
Definition sistema_dez_vinte : SistemaFinanceiro :=
  cadastrar_pagar_todas
    [ ("Conta A", "aluguel", lit 1 (-1), "2024-03-05");
      ("Conta B", "internet", lit 2 (-1), "2024-03-06") ]
    (iniciar None None).

(** Three payables of 0.10, 0.20 and 0.70 in two categories. *)
Definition sistema_tres_contas : SistemaFinanceiro :=
  cadastrar_pagar_todas
    [ ("Conta A", "aluguel", lit 1 (-1), "2024-03-05");
      ("Conta B", "internet", lit 2 (-1), "2024-03-06");
      ("Conta C", "internet", lit 7 (-1), "2024-03-07") ]
    (iniciar None None).

(** One payable of 1500.00, registered. *)
Definition sistema_uma_conta : SistemaFinanceiro :=
  cadastrar_pagar_todas
    [ ("Conta A", "aluguel", lit 15000 (-1), "2024-03-05") ]
    (iniciar None None).

(** One payable, registered and then soft-deleted. *)
Definition sistema_uma_excluida : SistemaFinanceiro :=
  snd (excluir_conta_pagar "CP001" "sistema" sistema_uma_conta).

(** The sum over the categories of one of their subtotals. *)
Definition soma_categorias (soma : list float -> float)
    (campo : TotaisCategoria -> float) (d : list (string * TotaisCategoria))
  : float :=
  soma (map (fun kv => campo (snd kv)) d).

Definition date_eq_dec_b (a b : date) : bool :=
  (year a =? year b) && (month a =? month b) && (day a =? day b).

(** The month after [(y, m)]. *)
Definition mes_seguinte (y m : Z) : Z * Z :=
  if m =? 12 then (y + 1, 1) else (y, m + 1).

(** The day before the first day of the next month is the last day of
    the month. *)
Definition ultimo_dia_ok (y m : Z) : bool :=
  let '(y', m') := mes_seguinte y m in
  date_eq_dec_b (_ord2ymd (_ymd2ord y' m' 1 - 1))
                (mkdate y m (_days_in_month y m)).

Fixpoint todos_desde (fuel : nat) (k : Z) (p : Z -> bool) : bool :=
  match fuel with
  | O => true
  | S f => p k && todos_desde f (k + 1) p
  end.

(** Every amount of the two lists is a finite float. *)
Definition valores_finitos (s : SistemaFinanceiro) : bool :=
  forallb (fun c => Float64.is_finite (valor c))
          (contas_pagar s ++ contas_receber s).

Definition finito (d : decimal) : bool :=
  match d with
  | PyDecimal.DFin _ _ => true
  | _ => false
  end.

(** The accumulation [total += v] over decimals; [None] when an addition
    raises. *)
Definition acumular (l : list decimal) (tot : decimal) : option decimal :=
  fold_left
    (fun acc v =>
       match acc with
       | Some a => PyDecimal.add a v
       | None => None
       end)
    l (Some tot).

(** The accumulation [total += Decimal(str(v))] from [Decimal('0.00')],
    as the cash-flow methods carry it out. *)
Definition soma_decimal (l : list float) : option decimal :=
  acumular (map PyDecimal.of_float_str l) PyDecimal.zero_00.

(** The value of a finite decimal in units of [10^-K], for a decimal of
    at most [K] places. *)
Definition em_unidades (K : Z) (d : decimal) : Z :=
  match d with
  | PyDecimal.DFin c e => c * 10 ^ (e + K)
  | _ => 0
  end.

(** A finite decimal of at most [K] places. *)
Definition casas_ate (K : Z) (d : decimal) : bool :=
  match d with
  | PyDecimal.DFin _ e => - K <=? e
  | _ => false
  end.

Definition soma_unidades (K : Z) (l : list decimal) : Z :=
  fold_right (fun d a => em_unidades K d + a) 0 l.

Definition soma_abs (K : Z) (l : list decimal) : Z :=
  fold_right (fun d a => Z.abs (em_unidades K d) + a) 0 l.

(** The amounts are finite decimals of at most [K >= 2] places and the
    sum of their magnitudes is below [10^28] units of [10^-K]: no sum of
    some of them exceeds the 28 digits of the context. *)
Definition cabe_no_contexto (K : Z) (l : list decimal) : bool :=
  (2 <=? K) && forallb (casas_ate K) l
  && (soma_abs K l <? 10 ^ PyDecimal.context_prec).

(** The sum of finite decimals without the rounding of the context. *)
Definition add_sem_arredondar (a b : decimal) : decimal :=
  match a, b with
  | PyDecimal.DFin c1 e1, PyDecimal.DFin c2 e2 =>
      let '(c, e) := PyDecimal.add_exact c1 e1 c2 e2 in PyDecimal.DFin c e
  | _, _ => PyDecimal.DNaN
  end.

Definition soma_exata (l : list decimal) : decimal :=
  fold_left add_sem_arredondar l PyDecimal.zero_00.

(** The state after each listed receivable [(descricao, categoria,
    valor)] is registered and then received on 10 March 2024. *)
Definition cadastrar_e_receber (l : list (string * string * float))
    (s : SistemaFinanceiro) : SistemaFinanceiro :=
  fold_left
    (fun s x =>
       let '(descr, categ, v) := x in
       let '(res, s1) :=
         cadastrar_conta_receber relogio_ex "Cliente" descr categ v
                                 "2024-03-05" "" "sistema" s in
       match res with
       | inr novo =>
           snd (registrar_recebimento relogio_ex novo (Some "2024-03-10")
                                      "sistema" s1)
       | inl _ => s1
       end)
    l s.

(** Receivables of 0.10 and 0.20, received. *)
Definition sistema_dez_vinte_recebidas : SistemaFinanceiro :=
  cadastrar_e_receber
    [ ("Venda A", "venda", lit 1 (-1)); ("Venda B", "servico", lit 2 (-1)) ]
    (iniciar None None).

(** Receivables of 1e16, 1.0 and 1e-20, received. *)
Definition sistema_tres_recebidas : SistemaFinanceiro :=
  cadastrar_e_receber
    [ ("Venda A", "venda", lit 1 16); ("Venda B", "venda", lit 1 0);
      ("Venda C", "venda", lit 1 (-20)) ]
    (iniciar None None).

(** The account of [sistema_uma_excluida]. *)
Definition conta_excluida_ex : Conta :=
  mkConta "CP001" "Conta A" "aluguel" (lit 15000 (-1)) "2024-03-05"
          "pendente" "atrasado" "" "" "2024-03-10 12:00:00" "sistema"
          None None (Some false).

(** *** Runs of operations *)

(** A call of one of the methods that write to the object. *)
Inductive Operacao :=
| OpCadastrar (t : Tipo) (parc descr categ : string) (v : float)
              (data_venc obs usuario : string)
| OpListar (t : Tipo) (filtro_status filtro_categoria : option string)
| OpRegistrar (t : Tipo) (conta_id : string) (data : option string)
              (usuario : string)
| OpExcluir (t : Tipo) (conta_id usuario : string).

(** The state a call leaves, at the clock reading [r]. *)
Definition executar (r : Relogio) (op : Operacao) (s : SistemaFinanceiro)
  : SistemaFinanceiro :=
  match op with
  | OpCadastrar t parc descr categ v data_venc obs usuario =>
      snd (cadastrar_conta t r parc descr categ v data_venc obs usuario s)
  | OpListar t fs fc => snd (listar_contas t r fs fc s)
  | OpRegistrar t conta_id data usuario =>
      snd (registrar_baixa t r conta_id data usuario s)
  | OpExcluir t conta_id usuario => snd (excluir_conta t conta_id usuario s)
  end.

(** The state a run of calls leaves, each at its clock reading. *)
Definition executar_todas (ops : list (Relogio * Operacao))
    (s : SistemaFinanceiro) : SistemaFinanceiro :=
  fold_left (fun s x => executar (fst x) (snd x) s) ops s.

(** The id of the [k]-th account registered of a kind. *)
Definition id_de_ordem (t : Tipo) (k : nat) : string :=
  prefixo t ++ fmt_03d (Z.of_nat k).

(** The ids of a list are those of the registrations 1, 2, ... in order. *)
Definition ids_em_sequencia (t : Tipo) (l : list Conta) : Prop :=
  map id l = map (id_de_ordem t) (seq 1 (List.length l)).

(** What every registered account satisfies: a pending account has no
    settlement data, a settled one has a settlement date that is a date
    and a settling user; the due date is a date; the amount is not
    [<= 0]; description and category are not empty, the category is one
    of the defaults, and a receivable has a client; the due status is
    one of the four of a date or the settled status; the key ["ativo"]
    is present. *)
Definition conta_bem_formada (t : Tipo) (c : Conta) : Prop :=
  ((status c = "pendente" /\ data_baixa c = None /\ usuario_baixa c = None)
   \/ (status c = status_baixado t
       /\ exists d u, data_baixa c = Some d /\ validar_data d = true
                      /\ usuario_baixa c = Some u))
  /\ validar_data (data_vencimento c) = true
  /\ Float64.leb (valor c) Float64.zero = false
  /\ nonempty (descricao c) = true
  /\ tem_chave (categoria c)
       (match t with
        | Pagar => categorias_padrao_pagar
        | Receber => categorias_padrao_receber
        end) = true
  /\ (t = Receber -> nonempty (parceiro c) = true)
  /\ In (status_vencimento c)
       ["atrasado"; "vencendo_hoje"; "vencendo_em_breve"; "no_prazo";
        status_baixado t]%string
  /\ exists b, ativo c = Some b.

(** What no operation changes in an account: the attributes given at
    registration stay, a settlement stays, an inactive account stays
    inactive. *)
Definition conta_preservada (t : Tipo) (c c' : Conta) : Prop :=
  id c' = id c /\ descricao c' = descricao c /\ categoria c' = categoria c
  /\ valor c' = valor c /\ data_vencimento c' = data_vencimento c
  /\ parceiro c' = parceiro c /\ observacoes c' = observacoes c
  /\ data_cadastro c' = data_cadastro c
  /\ usuario_cadastro c' = usuario_cadastro c
  /\ (status c = status_baixado t ->
      status c' = status_baixado t /\ data_baixa c' = data_baixa c
      /\ usuario_baixa c' = usuario_baixa c)
  /\ (conta_ativo c = false -> conta_ativo c' = false).

(** The other kind of account. *)
Definition outro (t : Tipo) : Tipo :=
  match t with Pagar => Receber | Receber => Pagar end.

(** The settlement date a call of [registrar_pagamento] /
    [registrar_recebimento] uses: the one given, or today's when none
    or an empty one is given. *)
Definition data_efetiva (r : Relogio) (data : option string) : string :=
  match data with
  | Some d => if nonempty d then d else hoje_str r
  | None => hoje_str r
  end.

(** The account is active and bears the id. *)
Definition portadora (conta_id : string) (c : Conta) : bool :=
  String.eqb (id c) conta_id && conta_ativo c.

(** The checks of a registration all pass. *)
Definition cadastro_aceito (t : Tipo) (parc descr categ : string) (v : float)
    (data_venc : string) (s : SistemaFinanceiro) : bool :=
  (match t with Pagar => true | Receber => nonempty parc end)
  && nonempty descr && nonempty categ
  && negb (Float64.leb v Float64.zero)
  && tem_chave categ (categorias t s)
  && validar_data data_venc.

(** The account a registration appends. *)
Definition conta_nova (t : Tipo) (r : Relogio) (parc descr categ : string)
    (v : float) (data_venc obs usuario : string) (s : SistemaFinanceiro)
  : Conta :=
  mkConta (gerar_id_conta t s) descr categ v data_venc "pendente"
          (calcular_status_vencimento r data_venc) parc obs (agora_str r)
          usuario None None (Some true).

(** What one operation, at the clock reading [r], can make of an
    account: leave it, refresh its due status, settle it when it is not
    settled, or deactivate it. *)
Definition conta_apos (t : Tipo) (r : Relogio) (c c' : Conta) : Prop :=
  c' = c
  \/ c' = atualizar r c
  \/ (exists d u, c' = baixar t d u c /\ status c <> status_baixado t
                  /\ validar_data d = true)
  \/ c' = desativar c.


(** The keys of a list do not decrease, compared as text. *)
Fixpoint ordenada_por {A} (key : A -> string) (l : list A) : bool :=
  match l with
  | [] => true
  | x :: r =>
      match r with
      | [] => true
      | y :: _ => negb (str_ltb (key y) (key x))
      end && ordenada_por key r
  end.

(** The elements of a list under one key, in the order of the list. *)
Definition com_chave {A} (key : A -> string) (k : string) (l : list A)
  : list A :=
  filter (fun x => String.eqb (key x) k) l.

(** The active accounts of a kind that are not settled, paired with the
    kind, whose due date has the due status [st] on the day of [r]. *)
Definition a_vencer (r : Relogio) (st : string) (t : Tipo)
    (s : SistemaFinanceiro) : list (Tipo * Conta) :=
  map (pair t)
    (filter (fun c => conta_ativo c
                      && negb (String.eqb (status c) (status_baixado t))
                      && String.eqb
                           (calcular_status_vencimento r (data_vencimento c))
                           st)
            (contas t s)).

(** The transactions a daily flow lists for a kind: the inflows for the
    receivables, the outflows for the payables. *)
Definition transacoes_do_dia (t : Tipo) (fd : FluxoDiario) : list Conta :=
  transacoes (match t with
              | Pagar => fd_saidas fd
              | Receber => fd_entradas fd
              end).

(** The settlement date of the account is the text [data]. *)
Definition baixa_em (data : string) (c : Conta) : bool :=
  opt_str_eqb (data_baixa c) data.

(** The counts a report gives for a kind. *)
Definition contagem_de (t : Tipo) (rel : Relatorio) : Contagem :=
  match t with
  | Pagar => rel_contas_pagar rel
  | Receber => rel_contas_receber rel
  end.

(** The category analysis a report gives for a kind. *)
Definition categorias_de (t : Tipo) (rel : Relatorio)
  : list (string * TotaisCategoria) :=
  match t with
  | Pagar => rel_categorias_pagar rel
  | Receber => rel_categorias_receber rel
  end.

(** The range of a C [int], outside which the [datetime] constructor
    fails on the conversion of its argument. *)
Definition cabe_em_int (n : Z) : Prop := - 2 ^ 31 <= n < 2 ^ 31.

(** The month exists in the calendar of [datetime] and so does the
    first day of the next one. *)
Definition mes_representavel (ano mes : Z) : Prop :=
  1 <= ano <= 9999 /\ 1 <= mes <= 12 /\ (ano < 9999 \/ mes < 12).


(** The overdue accounts a report lists for a kind. *)
Definition atrasadas_de (t : Tipo) (rel : Relatorio) : list Conta :=
  match t with
  | Pagar => atrasadas_pagar rel
  | Receber => atrasadas_receber rel
  end.

(** One payable, registered and then paid on 10 March 2024. *)
Definition sistema_uma_paga : SistemaFinanceiro :=
  snd (registrar_pagamento relogio_ex "CP001" (Some "2024-03-10") "sistema"
                           sistema_uma_conta).

(** The account of [sistema_uma_conta]. *)
Definition conta_a_ex : Conta :=
  mkConta "CP001" "Conta A" "aluguel" (lit 15000 (-1)) "2024-03-05"
          "pendente" "atrasado" "" "" "2024-03-10 12:00:00" "sistema"
          None None (Some true).

(** The texts of a list increase strictly. *)
Fixpoint crescente (l : list string) : bool :=
  match l with
  | [] => true
  | x :: r =>
      match r with
      | [] => true
      | y :: _ => str_ltb x y
      end && crescente r
  end.

(** Every active, settled account whose settlement date reads as the
    day [dia] has it written as the text [data]. *)
Definition baixas_escritas_como (data : string) (dia : date)
    (s : SistemaFinanceiro) : Prop :=
  forall t c txt,
    In c (contas t s) -> conta_ativo c = true ->
    status c = status_baixado t -> data_baixa c = Some txt ->
    strptime txt = Some dia -> txt = data.


(** A movement without transactions. *)
Definition movimento_vazio : Movimento :=
  mkMovimento [] Float64.zero 0 [].

(** The flow of March 2024 of [sistema_dez_vinte_recebidas]. *)
Definition fluxo_mensal_ex : FluxoMensal :=
  match fluxo_caixa_mensal relogio_ex (Some 2024) (Some 3)
                           sistema_dez_vinte_recebidas with
  | Ok fm => fm
  | _ => mkFluxoMensal 2024 3 (mkdate 2024 3 1) (mkdate 2024 3 31)
                       movimento_vazio movimento_vazio Float64.zero
  end.

(** A daily and a period flow without transactions. *)
Definition fluxo_diario_ex : FluxoDiario :=
  mkFluxoDiario "2024-03-10" movimento_vazio movimento_vazio Float64.zero.

Definition fluxo_periodo_ex : FluxoPeriodo :=
  mkFluxoPeriodo "2024-03-01" "2024-03-31" movimento_vazio movimento_vazio
                 Float64.zero.

(* ================================================================== *)
(** * Properties                                                       *)
(* ================================================================== *)

(** ** Calendar: the order of dates is the order of their ordinals *)

Lemma days_before_year_succ (y : Z) :
  _days_before_year (y + 1) = _days_before_year y + days_in_year y.
Proof.
  unfold _days_before_year, days_in_year, _is_leap.
  replace (y + 1 - 1) with y by lia.
  destruct (y mod 4 =? 0) eqn:E4; destruct (y mod 100 =? 0) eqn:E100;
    destruct (y mod 400 =? 0) eqn:E400; cbn [andb orb negb];
    rewrite ?Z.eqb_eq, ?Z.eqb_neq in *;
    Z.div_mod_to_equations; lia.
Qed.

Lemma days_in_year_pos (y : Z) : 365 <= days_in_year y <= 366.
Proof. unfold days_in_year; destruct (_is_leap y); lia. Qed.

Lemma days_before_year_mono (y1 y2 : Z) :
  y1 < y2 -> _days_before_year y1 + days_in_year y1 <= _days_before_year y2.
Proof.
  intros H. rewrite <- days_before_year_succ.
  assert (G : forall n, 0 <= n -> _days_before_year (y1 + 1) <= _days_before_year (y1 + 1 + n)).
  { apply natlike_ind.
    - rewrite Z.add_0_r; lia.
    - intros n Hn IH. replace (y1 + 1 + Z.succ n) with ((y1 + 1 + n) + 1) by lia.
      rewrite (days_before_year_succ (y1 + 1 + n)).
      pose proof (days_in_year_pos (y1 + 1 + n)); lia. }
  specialize (G (y2 - (y1 + 1))).
  replace (y1 + 1 + (y2 - (y1 + 1))) with y2 in G by lia.
  apply G; lia.
Qed.

Lemma month_cases (m : Z) :
  1 <= m <= 12 ->
  m = 1 \/ m = 2 \/ m = 3 \/ m = 4 \/ m = 5 \/ m = 6 \/ m = 7 \/ m = 8
  \/ m = 9 \/ m = 10 \/ m = 11 \/ m = 12.
Proof. lia. Qed.

Ltac each_month H :=
  apply month_cases in H;
  repeat (destruct H as [H | H]); subst.

Lemma days_before_month_next (y m1 m2 : Z) :
  1 <= m1 <= 12 -> 1 <= m2 <= 12 -> m1 < m2 ->
  _days_before_month y m1 + _days_in_month y m1 <= _days_before_month y m2.
Proof.
  intros H1 H2 Hlt. unfold _days_before_month, _days_in_month.
  destruct (_is_leap y); each_month H1; each_month H2;
    cbn; try lia.
Qed.

Lemma days_before_month_end (y m : Z) :
  1 <= m <= 12 ->
  0 <= _days_before_month y m /\
  _days_before_month y m + _days_in_month y m <= days_in_year y.
Proof.
  intros H. unfold _days_before_month, _days_in_month, days_in_year.
  destruct (_is_leap y); each_month H; cbn; lia.
Qed.

Lemma valid_well_formed (d : date) : valid d -> well_formed d.
Proof.
  unfold valid, new_date, well_formed. intros H.
  destruct ((MINYEAR <=? year d) && (year d <=? MAXYEAR) && (1 <=? month d)
            && (month d <=? 12) && (1 <=? day d)
            && (day d <=? _days_in_month (year d) (month d))) eqn:E;
    [| discriminate].
  repeat (apply andb_prop in E; destruct E as [E ?]).
  rewrite ?Z.leb_le in *. lia.
Qed.

Lemma new_date_well_formed (y m d : Z) (x : date) :
  new_date y m d = Some x -> x = mkdate y m d /\ well_formed x /\ 1 <= y <= 9999.
Proof.
  unfold new_date, well_formed, MINYEAR, MAXYEAR.
  destruct ((1 <=? y) && (y <=? 9999) && (1 <=? m) && (m <=? 12) && (1 <=? d)
            && (d <=? _days_in_month y m)) eqn:E; [| discriminate].
  intros [= <-]. cbn [year month day].
  repeat (apply andb_prop in E; destruct E as [E ?]).
  rewrite ?Z.leb_le in *. split; [reflexivity | lia].
Qed.

Lemma date_cmp_toordinal (a b : date) :
  well_formed a -> well_formed b ->
  date_cmp a b = (toordinal a ?= toordinal b).
Proof.
  destruct a as [ya ma da], b as [yb mb db].
  unfold well_formed, date_cmp, toordinal, _ymd2ord; cbn [year month day].
  intros [Hma Hda] [Hmb Hdb].
  pose proof (days_before_month_end ya ma Hma) as Ea.
  pose proof (days_before_month_end yb mb Hmb) as Eb.
  destruct (Z.compare_spec ya yb) as [-> | Hy | Hy].
  - destruct (Z.compare_spec ma mb) as [-> | Hm | Hm].
    + destruct (Z.compare_spec da db); symmetry;
        [apply Z.compare_eq_iff | apply Z.compare_lt_iff | apply Z.compare_gt_iff]; lia.
    + pose proof (days_before_month_next yb ma mb Hma Hmb Hm).
      symmetry; apply Z.compare_lt_iff; lia.
    + pose proof (days_before_month_next yb mb ma Hmb Hma Hm).
      symmetry; apply Z.compare_gt_iff; lia.
  - pose proof (days_before_year_mono ya yb Hy).
    symmetry; apply Z.compare_lt_iff; lia.
  - pose proof (days_before_year_mono yb ya Hy).
    symmetry; apply Z.compare_gt_iff; lia.
Qed.

Lemma strptime_well_formed (s : string) (d : date) :
  strptime s = Some d -> well_formed d.
Proof.
  unfold strptime. destruct (regex_match s) as [[[[y m] dd] r] |]; [| discriminate].
  destruct r; [| discriminate].
  intros H. apply new_date_well_formed in H. tauto.
Qed.

Lemma date_cmp_eq (a b : date) : date_cmp a b = Eq -> a = b.
Proof.
  destruct a as [ya ma da], b as [yb mb db].
  unfold date_cmp; cbn [year month day].
  destruct (Z.compare_spec ya yb); try discriminate.
  destruct (Z.compare_spec ma mb); try discriminate.
  destruct (Z.compare_spec da db); try discriminate.
  intros _; subst; reflexivity.
Qed.

(** ** C4: the due-status resolver *)

(** C4.  [calcular_status_vencimento] returns one of its five statuses
    for every text.  A text that is no date gives ["data_invalida"].
    For a date, with [n] the whole days from the reference date to the
    due date: ["atrasado"] when [n < 0], which is when the due date is
    before the reference date; ["vencendo_hoje"] when [n = 0], which is
    when the two dates are equal; ["vencendo_em_breve"] when
    [0 < n <= 7]; ["no_prazo"] when [n > 7]. *)
Theorem calcular_status_vencimento_total (r : Relogio) (s : string) :
  valid (hoje r) ->
  In (calcular_status_vencimento r s)
     ["atrasado"; "vencendo_hoje"; "vencendo_em_breve"; "no_prazo";
      "data_invalida"]%string
  /\ match strptime s with
     | None => calcular_status_vencimento r s = "data_invalida"%string
     | Some due =>
         let n := days_between due (hoje r) in
         (n < 0 <-> date_ltb due (hoje r) = true)
         /\ (n = 0 <-> due = hoje r)
         /\ (n < 0 -> calcular_status_vencimento r s = "atrasado"%string)
         /\ (n = 0 -> calcular_status_vencimento r s = "vencendo_hoje"%string)
         /\ (0 < n <= 7 ->
             calcular_status_vencimento r s = "vencendo_em_breve"%string)
         /\ (7 < n -> calcular_status_vencimento r s = "no_prazo"%string)
     end.
Proof.
  intros Hhoje. apply valid_well_formed in Hhoje.
  unfold calcular_status_vencimento.
  destruct (strptime s) as [due |] eqn:Es.
  2: { split; [cbn; tauto | reflexivity]. }
  pose proof (strptime_well_formed _ _ Es) as Hdue.
  pose proof (date_cmp_toordinal due (hoje r) Hdue Hhoje) as Hc.
  assert (Heq : toordinal due = toordinal (hoje r) -> due = hoje r).
  { intros E. apply date_cmp_eq. rewrite Hc. now apply Z.compare_eq_iff. }
  unfold date_ltb, date_eqb, days_between. cbv zeta. rewrite Hc.
  destruct (Z.compare_spec (toordinal due) (toordinal (hoje r)))
    as [He | Hl | Hg].
  - split; [cbn; tauto |].
    repeat split; intros; try lia; try discriminate; try reflexivity.
    now apply Heq.
  - split; [cbn; tauto |].
    repeat split; intros; try lia; try reflexivity;
      try (match goal with H : due = _ |- _ => rewrite H in Hl; lia end).
  - destruct (toordinal due - toordinal (hoje r) <=? 7) eqn:E7;
      [apply Z.leb_le in E7 | apply Z.leb_gt in E7];
      (split; [cbn; tauto |]);
      repeat split; intros; try lia; try discriminate; try reflexivity;
        try (match goal with H : due = _ |- _ => rewrite H in Hg; lia end).
Qed.

(** ** Text: reading back a formatted number *)

Lemma is_digit_cases (c : ascii) :
  is_digit c = true ->
  c = "0"%char \/ c = "1"%char \/ c = "2"%char \/ c = "3"%char
  \/ c = "4"%char \/ c = "5"%char \/ c = "6"%char \/ c = "7"%char
  \/ c = "8"%char \/ c = "9"%char.
Proof.
  destruct c as [[] [] [] [] [] [] [] []]; cbv; intros H;
    try discriminate; tauto.
Qed.

Lemma digit_char_spec (d : Z) :
  0 <= d <= 9 -> is_digit (digit_char d) = true /\ digit_val (digit_char d) = d.
Proof.
  intros H.
  assert (C : d = 0 \/ d = 1 \/ d = 2 \/ d = 3 \/ d = 4 \/ d = 5 \/ d = 6
              \/ d = 7 \/ d = 8 \/ d = 9) by lia.
  repeat (destruct C as [C | C]); subst; split; reflexivity.
Qed.

Lemma all_digits_app (a b : string) :
  all_digits (a ++ b) = all_digits a && all_digits b.
Proof.
  induction a as [| c a IH]; cbn; [reflexivity |].
  rewrite IH. now rewrite andb_assoc.
Qed.

Lemma digits_value_app (a b : string) (acc : Z) :
  digits_value acc (a ++ b) = digits_value (digits_value acc a) b.
Proof.
  revert acc; induction a as [| c a IH]; intros acc; cbn; [reflexivity |].
  apply IH.
Qed.

Lemma append_assoc (a b c : string) : (a ++ b) ++ c = a ++ (b ++ c).
Proof. induction a as [| x a IH]; cbn; [reflexivity | now rewrite IH]. Qed.

Lemma append_nil_r (a : string) : a ++ "" = a.
Proof. induction a as [| x a IH]; cbn; [reflexivity | now rewrite IH]. Qed.

Lemma digits_fuel_S (f : nat) (n : Z) (acc : string) :
  digits_fuel (S f) n acc =
  if n <? 10 then String (digit_char (n mod 10)) acc
  else digits_fuel f (n / 10) (String (digit_char (n mod 10)) acc).
Proof. reflexivity. Qed.

Lemma digits_fuel_spec (f : nat) :
  forall n acc, 0 <= n < 2 ^ Z.of_nat (S f) ->
  exists ds, digits_fuel (S f) n acc = ds ++ acc
             /\ ds <> EmptyString
             /\ all_digits ds = true
             /\ digits_value 0 ds = n.
Proof.
  induction f as [| f IH]; intros n acc Hn.
  - assert (n < 10) by (change (2 ^ Z.of_nat 1) with 2 in Hn; lia).
    rewrite digits_fuel_S. apply Z.ltb_lt in H as Hb. rewrite Hb.
    rewrite Z.mod_small by lia.
    destruct (digit_char_spec n ltac:(lia)) as [Hd Hv].
    exists (String (digit_char n) EmptyString).
    repeat split; [discriminate | cbn; now rewrite Hd | cbn; lia].
  - rewrite digits_fuel_S.
    assert (Hm : 0 <= n mod 10 <= 9) by (pose proof (Z.mod_pos_bound n 10); lia).
    destruct (digit_char_spec (n mod 10) Hm) as [Hd Hv].
    destruct (n <? 10) eqn:E.
    + apply Z.ltb_lt in E. rewrite Z.mod_small in * by lia.
      exists (String (digit_char n) EmptyString).
      repeat split; [discriminate | cbn; now rewrite Hd | cbn; lia].
    + apply Z.ltb_ge in E.
      assert (Hq : 0 <= n / 10 < 2 ^ Z.of_nat (S f)).
      { split; [apply Z.div_pos; lia |].
        apply Z.div_lt_upper_bound; [lia |].
        replace (Z.of_nat (S (S f))) with (Z.of_nat (S f) + 1) in Hn by lia.
        rewrite Z.pow_add_r in Hn by lia. lia. }
      destruct (IH (n / 10) (String (digit_char (n mod 10)) acc) Hq)
        as (ds & E1 & Hne & Hall & Hval).
      exists (ds ++ String (digit_char (n mod 10)) EmptyString).
      rewrite E1. repeat split.
      * now rewrite append_assoc.
      * destruct ds; [contradiction | discriminate].
      * rewrite all_digits_app, Hall. cbn. now rewrite Hd.
      * rewrite digits_value_app, Hval. cbn [digits_value]. rewrite Hv.
        pose proof (Z.div_mod n 10 ltac:(lia)). lia.
Qed.

Lemma str_nat_spec (n : Z) :
  0 <= n ->
  str_nat n <> EmptyString /\ all_digits (str_nat n) = true
  /\ digits_value 0 (str_nat n) = n.
Proof.
  intros Hn. unfold str_nat.
  assert (B : 0 <= n < 2 ^ Z.of_nat (S (Z.to_nat (Z.log2 n)))).
  { split; [assumption |].
    rewrite Nat2Z.inj_succ, Z2Nat.id by apply Z.log2_nonneg.
    destruct (Z.eq_dec n 0) as [-> | Hz]; [cbn; lia |].
    apply Z.log2_spec; lia. }
  destruct (digits_fuel_spec _ n EmptyString B) as (ds & E & Hne & Hall & Hval).
  rewrite E. 
  rewrite append_nil_r. auto.
Qed.

Lemma zeros_spec (k : nat) (s : string) :
  all_digits s = true ->
  all_digits (zeros k s) = true /\ digits_value 0 (zeros k s) = digits_value 0 s.
Proof.
  intros H. induction k as [| k [IH1 IH2]]; cbn; [auto |].
  split; [assumption |]. exact IH2.
Qed.

Lemma zeros_nonempty (k : nat) (s : string) :
  s <> EmptyString -> zeros k s <> EmptyString.
Proof. destruct k; cbn; [auto | discriminate]. Qed.

Lemma scan_digits_all (s : string) :
  all_digits s = true ->
  forall acc, scan_digits false acc s = Some (digits_value acc s, EmptyString).
Proof.
  induction s as [| c s IH]; cbn; intros H acc; [reflexivity |].
  apply andb_prop in H as [Hc Hs]. rewrite Hc. now apply IH.
Qed.

(** A non-empty string of digits is read by [int] as its value. *)
Lemma py_int_digits (s : string) :
  s <> EmptyString -> all_digits s = true ->
  py_int s = Some (digits_value 0 s).
Proof.
  intros Hne Hall. destruct s as [| c s]; [contradiction |].
  cbn in Hall. apply andb_prop in Hall as [Hc Hs].
  pose proof (scan_digits_all (String c s)) as Hscan.
  cbn [all_digits] in Hscan. rewrite Hc, Hs in Hscan.
  specialize (Hscan eq_refl 0).
  unfold py_int.
  apply is_digit_cases in Hc as C.
  repeat (destruct C as [C | C]); subst c;
    cbn [lstrip is_space]; 
    (change (lstrip (String _ s)) with (String _ s) || idtac);
    unfold scan_number; rewrite ?Hc; cbn in Hscan |- *; rewrite Hscan; reflexivity.
Qed.

Lemma zfill_spec (w : nat) (s : string) :
  s <> EmptyString -> all_digits s = true ->
  zfill w s <> EmptyString /\ all_digits (zfill w s) = true
  /\ digits_value 0 (zfill w s) = digits_value 0 s.
Proof.
  intros Hne Hall. unfold zfill.
  destruct (zeros_spec (w - String.length s) s Hall) as [H1 H2].
  auto using zeros_nonempty.
Qed.

(** [int(f"{n:03d}") == n]. *)
Lemma py_int_fmt_03d (n : Z) : py_int (fmt_03d n) = Some n.
Proof.
  unfold fmt_03d. destruct (n <? 0) eqn:E.
  - apply Z.ltb_lt in E.
    destruct (str_nat_spec (- n) ltac:(lia)) as (Hne & Hall & Hval).
    destruct (zfill_spec 2 _ Hne Hall) as (Hne' & Hall' & Hval').
    pose proof (py_int_digits _ Hne' Hall') as P.
    rewrite Hval', Hval in P.
    unfold py_int in *. cbn [lstrip is_space].
    change (is_space "-") with false. cbv iota.
    destruct (zfill 2 (str_nat (- n))) as [| c z] eqn:Ez; [contradiction |].
    cbn [all_digits] in Hall'. apply andb_prop in Hall' as [Hc _].
    assert (L : lstrip (String c z) = String c z).
    { apply is_digit_cases in Hc.
      repeat (destruct Hc as [Hc | Hc]); subst c; reflexivity. }
    rewrite L in P.
    assert (P' : match scan_number (String c z) with
                 | Some (n0, rest) =>
                     match lstrip rest with
                     | EmptyString => Some n0
                     | String _ _ => None
                     end
                 | None => None
                 end = Some (- n)).
    { apply is_digit_cases in Hc.
      repeat (destruct Hc as [Hc | Hc]); subst c; exact P. }
    destruct (scan_number (String c z)) as [[n0 rest] |]; [| discriminate].
    destruct (lstrip rest); [| discriminate].
    injection P' as ->. f_equal. lia.
  - apply Z.ltb_ge in E.
    destruct (str_nat_spec n E) as (Hne & Hall & Hval).
    destruct (zfill_spec 3 _ Hne Hall) as (Hne' & Hall' & Hval').
    rewrite (py_int_digits _ Hne' Hall'). congruence.
Qed.

(** ** C8: identifiers *)

Lemma numeros_de_In (pre : string) (l : list Conta) (k : Z) :
  In k (numeros_de pre l) <-> exists c, In c l /\ numero_do_id pre c = Some k.
Proof.
  unfold numero_do_id. induction l as [| c l IH]; cbn.
  - split; [tauto | intros (c & [] & _)].
  - destruct (startswith pre (id c)) eqn:Ep.
    + destruct (py_int (slice_from_2 (id c))) as [n |] eqn:Ei.
      * cbn. rewrite IH. split.
        -- intros [<- | (c' & Hc' & E)].
           ++ exists c. rewrite Ep. auto.
           ++ exists c'. auto.
        -- intros (c' & [<- | Hc'] & E).
           ++ rewrite Ep in E. left. congruence.
           ++ right. exists c'. auto.
      * rewrite IH. split.
        -- intros (c' & Hc' & E). exists c'. auto.
        -- intros (c' & [<- | Hc'] & E).
           ++ rewrite Ep in E. congruence.
           ++ exists c'. auto.
    + rewrite IH. split.
      * intros (c' & Hc' & E). exists c'. auto.
      * intros (c' & [<- | Hc'] & E).
        -- rewrite Ep in E. discriminate.
        -- exists c'. auto.
Qed.

Lemma py_max_ge (l : list Z) :
  forall x, x <= py_max x l /\ forall k, In k l -> k <= py_max x l.
Proof.
  unfold py_max. induction l as [| y l IH]; cbn; intros x.
  - split; [lia | tauto].
  - destruct (IH (Z.max x y)) as [H1 H2]. split; [lia |].
    intros k [<- | Hk]; [lia | auto].
Qed.

Lemma proximo_numero_gt (pre : string) (l : list Conta) (c : Conta) (k : Z) :
  In c l -> numero_do_id pre c = Some k -> k < proximo_numero pre l.
Proof.
  intros Hc Hk.
  assert (Hin : In k (numeros_de pre l)) by (apply numeros_de_In; eauto).
  unfold proximo_numero.
  destruct (numeros_de pre l) as [| n ns]; [contradiction |].
  destruct (py_max_ge ns n) as [H1 H2].
  destruct Hin as [<- | Hin]; [lia |]. specialize (H2 _ Hin). lia.
Qed.

Lemma proximo_numero_first (pre : string) (l : list Conta) :
  (forall c, In c l -> numero_do_id pre c = None) -> proximo_numero pre l = 1.
Proof.
  intros H. unfold proximo_numero.
  destruct (numeros_de pre l) as [| n ns] eqn:E; [reflexivity |].
  assert (Hin : In n (numeros_de pre l)) by (rewrite E; now left).
  apply numeros_de_In in Hin as (c & Hc & Hn).
  rewrite (H c Hc) in Hn. discriminate.
Qed.

Lemma gerar_id_conta_eq (t : Tipo) (s : SistemaFinanceiro) :
  gerar_id_conta t s
  = prefixo t ++ fmt_03d (proximo_numero (prefixo t) (contas t s)).
Proof.
  unfold gerar_id_conta. destruct (contas t s); reflexivity.
Qed.

Lemma numero_do_id_prefixo (t : Tipo) (x : string) (c : Conta) :
  id c = prefixo t ++ x -> numero_do_id (prefixo t) c = py_int x.
Proof.
  unfold numero_do_id. intros ->.
  destruct t; cbn [prefixo]; unfold startswith; cbn; 
    destruct x; reflexivity.
Qed.

Lemma cadastrar_conta_ok (t : Tipo) (r : Relogio)
    (parc descr categ : string) (v : float) (data_venc obs usuario : string)
    (s s' : SistemaFinanceiro) (novo : string) :
  cadastrar_conta t r parc descr categ v data_venc obs usuario s
  = (inr novo, s') ->
  novo = gerar_id_conta t s
  /\ s' = salvar_contas t
            (set_contas t
               (contas t s ++
                [mkConta novo descr categ v data_venc "pendente"
                   (calcular_status_vencimento r data_venc) parc obs
                   (agora_str r) usuario None None (Some true)]) s).
Proof.
  unfold cadastrar_conta.
  destruct (_ || _ || _ || _); [discriminate |].
  destruct (negb (tem_chave _ _)); [discriminate |].
  destruct (negb (validar_data _)); [discriminate |].
  intros [= <- <-]. auto.
Qed.

Lemma contas_salvar_set (t : Tipo) (l : list Conta) (s : SistemaFinanceiro) :
  contas t (salvar_contas t (set_contas t l s)) = l
  /\ arquivo t (salvar_contas t (set_contas t l s)) = Some l.
Proof. destruct t; split; reflexivity. Qed.

Lemma cadastrar_conta_numero (t : Tipo) (r : Relogio)
    (parc descr categ : string) (v : float) (data_venc obs usuario : string)
    (s s' : SistemaFinanceiro) (novo : string) :
  cadastrar_conta t r parc descr categ v data_venc obs usuario s
  = (inr novo, s') ->
  exists (n : Z) (conta : Conta),
    novo = prefixo t ++ fmt_03d n
    /\ contas t s' = (contas t s ++ [conta])%list
    /\ id conta = novo
    /\ numero_do_id (prefixo t) conta = Some n
    /\ (forall c k, In c (contas t s) ->
                    numero_do_id (prefixo t) c = Some k -> k < n)
    /\ ((forall c, In c (contas t s) -> numero_do_id (prefixo t) c = None) ->
        n = 1)
    /\ (forall c, In c (contas t s) -> id c <> novo).
Proof.
  intros H. apply cadastrar_conta_ok in H as [Hid ->].
  rewrite gerar_id_conta_eq in Hid.
  set (n := proximo_numero (prefixo t) (contas t s)) in *.
  eexists n, _. split; [exact Hid |].
  split; [apply contas_salvar_set |].
  split; [reflexivity |].
  assert (Hn : forall c, id c = novo -> numero_do_id (prefixo t) c = Some n).
  { intros c Hc. rewrite (numero_do_id_prefixo t (fmt_03d n)) by congruence.
    apply py_int_fmt_03d. }
  split; [apply Hn; reflexivity |].
  split; [intros c k Hc Hk; exact (proximo_numero_gt _ _ c k Hc Hk) |].
  split; [apply proximo_numero_first |].
  intros c Hc E. specialize (Hn c E).
  pose proof (proximo_numero_gt _ _ c n Hc Hn). fold n in H. lia.
Qed.






(** ** C9 and C10: operations on the id of a soft-deleted account *)

Lemma excluir_loop_inativa (conta_id : string) (l : list Conta) :
  (forall c, In c l -> id c = conta_id -> conta_ativo c = false) ->
  excluir_loop conta_id l = None.
Proof.
  induction l as [| c l IH]; cbn; intros H; [reflexivity |].
  destruct (String.eqb (id c) conta_id) eqn:E.
  - apply String.eqb_eq in E. rewrite (H c (or_introl eq_refl) E). cbn.
    rewrite IH; [reflexivity | auto].
  - cbn. rewrite IH; [reflexivity | auto].
Qed.

Lemma registrar_loop_inativa (t : Tipo) (r : Relogio) (conta_id : string)
    (data : option string) (usuario : string) (l : list Conta) :
  (forall c, In c l -> id c = conta_id -> conta_ativo c = false) ->
  registrar_loop t r conta_id data usuario l = None.
Proof.
  induction l as [| c l IH]; cbn; intros H; [reflexivity |].
  destruct (String.eqb (id c) conta_id) eqn:E.
  - apply String.eqb_eq in E. rewrite (H c (or_introl eq_refl) E). cbn.
    rewrite IH; [reflexivity | auto].
  - cbn. rewrite IH; [reflexivity | auto].
Qed.

(** C9, amended.  When every account bearing the id is inactive, which
    is the state a first soft deletion leaves behind, [excluir_conta_pagar] /
    [excluir_conta_receber] return [False] with the message of an
    unknown account, and neither the lists nor the files change. *)
Theorem excluir_conta_inativa_falha (t : Tipo) (conta_id usuario : string)
    (s : SistemaFinanceiro) :
  (forall c, In c (contas t s) -> id c = conta_id -> conta_ativo c = false) ->
  excluir_conta t conta_id usuario s = (Falha ContaNaoEncontrada, s)
  /\ retorno_bool (fst (excluir_conta t conta_id usuario s)) = false.
Proof.
  intros H. unfold excluir_conta.
  rewrite (excluir_loop_inativa _ _ H). split; reflexivity.
Qed.

(** C9 as stated fails: on the account of [sistema_uma_excluida], which
    is inactive, [excluir_conta_pagar] does not return [True]. *)
Lemma excluir_conta_pagar_repetida_falha :
  In conta_excluida_ex (contas_pagar sistema_uma_excluida)
  /\ conta_ativo conta_excluida_ex = false
  /\ retorno_bool
       (fst (excluir_conta_pagar (id conta_excluida_ex) "sistema"
               sistema_uma_excluida)) <> true
  /\ excluir_conta_pagar (id conta_excluida_ex) "sistema" sistema_uma_excluida
     = (Falha ContaNaoEncontrada, sistema_uma_excluida).
Proof.
  split; [vm_compute; left; reflexivity |].
  split; [reflexivity |].
  split; [vm_compute; discriminate | vm_compute; reflexivity].
Qed.



(** ** C7: a period that ends before it starts *)

(** C7.  For two texts that are dates, the first after the second,
    [fluxo_caixa_periodo] returns the dictionary
    [{"erro": "Data inicial maior que data final"}]: no exception, and
    no flow with empty lists.  The method has no write to the object or
    to an account, so its model returns the result alone. *)
Theorem fluxo_caixa_periodo_invertido (data_inicio data_fim : string)
    (s : SistemaFinanceiro) (ini fim : date) :
  strptime data_inicio = Some ini -> strptime data_fim = Some fim ->
  toordinal fim < toordinal ini ->
  fluxo_caixa_periodo data_inicio data_fim s = ErroDominio DataInicialMaior
  /\ (forall x, fluxo_caixa_periodo data_inicio data_fim s <> Levanta x)
  /\ (forall f, fluxo_caixa_periodo data_inicio data_fim s <> Ok f).
Proof.
  intros Hi Hf Hlt.
  assert (E : fluxo_caixa_periodo data_inicio data_fim s
              = ErroDominio DataInicialMaior).
  { unfold fluxo_caixa_periodo. rewrite Hi, Hf.
    unfold date_ltb.
    rewrite (date_cmp_toordinal fim ini
               (strptime_well_formed _ _ Hf) (strptime_well_formed _ _ Hi)).
    apply Z.compare_lt_iff in Hlt. now rewrite Hlt. }
  rewrite E. repeat split; intros; discriminate.
Qed.

(** ** Soft-deleted accounts in listings, searches and files *)

Lemma insert_by_In {A} (key : A -> string) (x y : A) (l : list A) :
  In y (insert_by key x l) <-> y = x \/ In y l.
Proof.
  induction l as [| z l IH]; cbn.
  - intuition congruence.
  - destruct (str_ltb (key z) (key x)); cbn; rewrite ?IH; intuition congruence.
Qed.

Lemma sorted_by_In {A} (key : A -> string) (y : A) (l : list A) :
  In y (sorted_by key l) <-> In y l.
Proof.
  unfold sorted_by. induction l as [| x l IH]; cbn; [tauto |].
  rewrite insert_by_In, IH. intuition congruence.
Qed.

(** Every account a listing returns is active. *)
Lemma listar_contas_so_ativas (t : Tipo) (r : Relogio)
    (filtro_status filtro_categoria : option string) (s : SistemaFinanceiro)
    (c : Conta) :
  In c (fst (listar_contas t r filtro_status filtro_categoria s)) ->
  conta_ativo c = true.
Proof.
  unfold listar_contas. cbn [fst]. rewrite sorted_by_In, filter_In.
  intros [_ H]. apply andb_prop in H as [H _]. now apply andb_prop in H.
Qed.

(** Every account a search returns is active, whatever [str.lower] is. *)
Lemma buscar_conta_so_ativas (lower : string -> string) (t : Tipo)
    (termo : string) (s : SistemaFinanceiro) (c : Conta) :
  In c (buscar_conta lower t termo s) -> conta_ativo c = true.
Proof.
  unfold buscar_conta. rewrite filter_In. intros [_ H].
  now apply andb_prop in H.
Qed.

(** A listing keeps every account in the list and writes the list to the
    file; the inactive ones are untouched. *)
Lemma listar_contas_mantem_inativas (t : Tipo) (r : Relogio)
    (filtro_status filtro_categoria : option string) (s : SistemaFinanceiro)
    (c : Conta) :
  In c (contas t s) -> conta_ativo c = false ->
  let s' := snd (listar_contas t r filtro_status filtro_categoria s) in
  In c (contas t s') /\ arquivo t s' = Some (contas t s').
Proof.
  intros Hc Ha. unfold listar_contas. cbn [snd].
  destruct (contas_salvar_set t (map (atualizar r) (contas t s)) s)
    as [-> ->].
  split; [| reflexivity].
  apply in_map_iff. exists c. split; [| assumption].
  unfold atualizar. now rewrite Ha.
Qed.

Lemma excluir_loop_In (conta_id : string) (l l' : list Conta) :
  excluir_loop conta_id l = Some l' ->
  exists a c b, l = (a ++ c :: b)%list /\ l' = (a ++ desativar c :: b)%list
                /\ id c = conta_id /\ conta_ativo c = true.
Proof.
  revert l'. induction l as [| x l IH]; cbn; intros l' H; [discriminate |].
  destruct (String.eqb (id x) conta_id && conta_ativo x) eqn:E.
  - injection H as <-. apply andb_prop in E as [E1 E2].
    apply String.eqb_eq in E1. exists [], x, l. auto.
  - destruct (excluir_loop conta_id l) as [r |]; [| discriminate].
    injection H as <-.
    destruct (IH r eq_refl) as (a & c & b & -> & -> & H1 & H2).
    exists (x :: a), c, b. auto.
Qed.

(** A soft deletion that succeeds leaves the account, now inactive, in
    the list in memory and in the file, and the listing and the report
    over a bounded period without it. *)
Lemma excluir_conta_mantem_registro (t : Tipo) (conta_id usuario : string)
    (s s' : SistemaFinanceiro) :
  excluir_conta t conta_id usuario s = (Sucesso, s') ->
  exists c,
    In c (contas t s) /\ id c = conta_id /\ conta_ativo c = true
    /\ In (desativar c) (contas t s')
    /\ arquivo t s' = Some (contas t s')
    /\ List.length (contas t s') = List.length (contas t s).
Proof.
  unfold excluir_conta.
  destruct (excluir_loop conta_id (contas t s)) as [l' |] eqn:E;
    [| discriminate].
  intros [= <-].
  destruct (contas_salvar_set t l' s) as [-> ->].
  destruct (excluir_loop_In _ _ _ E) as (a & c & b & E1 & -> & H1 & H2).
  exists c. rewrite E1.
  repeat split; try assumption; try reflexivity.
  - apply in_or_app. right. now left.
  - apply in_or_app. right. now left.
  - rewrite !length_app. reflexivity.
Qed.

(** With a bound on the period, the accounts the report counts and adds
    are active ones. *)
Lemma filtrar_periodo_so_ativas (data_inicio data_fim : option string)
    (l : list Conta) (c : Conta) :
  truthy data_inicio || truthy data_fim = true ->
  In c (filtrar_periodo data_inicio data_fim l) -> conta_ativo c = true.
Proof.
  unfold filtrar_periodo. intros ->. rewrite filter_In. intros [_ H].
  now apply andb_prop in H.
Qed.

(** ** C1, C2, C3: the report of [relatorio_financeiro] *)

(** C1, at two payables of 0.10 and 0.20.  Under either algorithm of the
    built-in [sum], the report gives 0.30000000000000004 as the total to
    pay and as the pending total, and its negation as the projected
    balance; this float is not 0.3.  The accumulation in [Decimal] that
    the cash-flow methods use gives 0.3 on the same amounts. *)
Theorem relatorio_soma_em_binario :
  map valor (contas_pagar sistema_dez_vinte) = [lit 1 (-1); lit 2 (-1)]
  /\ (forall soma,
        soma = Float64.py_sum \/ soma = Float64.py_sum_neumaier ->
        let rel := relatorio_financeiro soma relogio_ex None None
                                        sistema_dez_vinte in
        total_pagar (resumo rel) = lit 30000000000000004 (-17)
        /\ total_pagar_pendente (resumo rel) = lit 30000000000000004 (-17)
        /\ saldo_futuro (resumo rel) = lit (-30000000000000004) (-17))
  /\ Float64.eqb (lit 30000000000000004 (-17)) (lit 3 (-1)) = false
  /\ option_map PyDecimal.to_float (soma_decimal [lit 1 (-1); lit 2 (-1)])
     = Some (lit 3 (-1)).
Proof.
  split; [vm_compute; reflexivity |].
  split; [intros soma [-> | ->]; vm_compute; repeat split |].
  split; vm_compute; reflexivity.
Qed.

(** C2, at one payable that was registered and then soft-deleted.  The
    account stays in the list in memory and in the file, inactive; the
    listing leaves it out; the report over a bounded period counts no
    payable; the report without bounds counts one under
    ["contas_pagar"]["total"]. *)
Theorem relatorio_conta_excluida_na_contagem :
  (exists c, contas_pagar sistema_uma_excluida = [c]
             /\ arquivo_contas_pagar sistema_uma_excluida = Some [c]
             /\ id c = "CP001" /\ ativo c = Some false)
  /\ fst (listar_contas_pagar relogio_ex None None sistema_uma_excluida) = []
  /\ qtd_total
       (rel_contas_pagar
          (relatorio_financeiro Float64.py_sum relogio_ex
             (Some "2024-01-01") None sistema_uma_excluida)) = 0%nat
  /\ qtd_total
       (rel_contas_pagar
          (relatorio_financeiro Float64.py_sum relogio_ex None None
             sistema_uma_excluida)) = 1%nat.
Proof.
  split; [eexists; repeat split; vm_compute; reflexivity |].
  repeat split; vm_compute; reflexivity.
Qed.

(** C3, at three payables: 0.10 under [aluguel], 0.20 and 0.70 under
    [internet].  Under either algorithm of the built-in [sum] the total
    to pay is 1.0, while the subtotals of the two categories are 0.1 and
    0.8999999999999999 and add up to 0.9999999999999999. *)
Theorem relatorio_categorias_nao_somam_o_total :
  map (fun c => (categoria c, valor c)) (contas_pagar sistema_tres_contas)
  = [("aluguel", lit 1 (-1)); ("internet", lit 2 (-1));
     ("internet", lit 7 (-1))]
  /\ (forall soma,
        soma = Float64.py_sum \/ soma = Float64.py_sum_neumaier ->
        let rel := relatorio_financeiro soma relogio_ex None None
                                        sistema_tres_contas in
        total_pagar (resumo rel) = lit 1 0
        /\ map (fun kv => (fst kv, cat_total (snd kv)))
               (rel_categorias_pagar rel)
           = [("aluguel", lit 1 (-1));
              ("internet", lit 8999999999999999 (-16))]
        /\ soma_categorias soma cat_total (rel_categorias_pagar rel)
           = lit 9999999999999999 (-16)
        /\ total_pagar_pendente (resumo rel) = lit 1 0
        /\ soma_categorias soma cat_pendente (rel_categorias_pagar rel)
           = lit 9999999999999999 (-16))
  /\ Float64.eqb (lit 9999999999999999 (-16)) (lit 1 0) = false.
Proof.
  split; [vm_compute; reflexivity |].
  split; [intros soma [-> | ->]; vm_compute; repeat split |].
  vm_compute; reflexivity.
Qed.

(** ** C6: the bounds of a month *)

Lemma todos_desde_spec (fuel : nat) (p : Z -> bool) :
  forall k, todos_desde fuel k p = true ->
  forall z, k <= z < k + Z.of_nat fuel -> p z = true.
Proof.
  induction fuel as [| f IH]; cbn [todos_desde]; intros k H z Hz; [lia |].
  apply andb_prop in H as [H1 H2].
  destruct (Z.eq_dec z k) as [-> | Hne]; [assumption |].
  apply (IH (k + 1)); [assumption | lia].
Qed.

Lemma date_eq_dec_b_eq (a b : date) : date_eq_dec_b a b = true -> a = b.
Proof.
  destruct a, b; unfold date_eq_dec_b; cbn [year month day]; intros H.
  repeat (apply andb_prop in H as [H ?]).
  rewrite Z.eqb_eq in *. congruence.
Qed.

Lemma is_leap_periodo (y k : Z) : _is_leap (y + 400 * k) = _is_leap y.
Proof.
  unfold _is_leap.
  replace (y + 400 * k) with (y + (100 * k) * 4) at 1 by lia.
  replace (y + 400 * k) with (y + (4 * k) * 100) at 1 by lia.
  replace (y + 400 * k) with (y + k * 400) by lia.
  now rewrite !Z_mod_plus_full.
Qed.

Lemma days_before_year_periodo (y k : Z) :
  _days_before_year (y + 400 * k) = _days_before_year y + _DI400Y * k.
Proof.
  unfold _days_before_year, _DI400Y. cbv zeta.
  replace (y + 400 * k - 1) with (y - 1 + 400 * k) by lia.
  replace ((y - 1 + 400 * k) / 4) with ((y - 1) / 4 + 100 * k).
  2: { replace (400 * k) with ((100 * k) * 4) by lia.
       now rewrite Z_div_plus_full by lia. }
  replace ((y - 1 + 400 * k) / 100) with ((y - 1) / 100 + 4 * k).
  2: { replace (400 * k) with ((4 * k) * 100) by lia.
       now rewrite Z_div_plus_full by lia. }
  replace ((y - 1 + 400 * k) / 400) with ((y - 1) / 400 + k).
  2: { replace (400 * k) with (k * 400) by lia.
       now rewrite Z_div_plus_full by lia. }
  lia.
Qed.

Lemma ymd2ord_periodo (y m d k : Z) :
  _ymd2ord (y + 400 * k) m d = _ymd2ord y m d + _DI400Y * k.
Proof.
  unfold _ymd2ord, _days_before_month.
  rewrite days_before_year_periodo, is_leap_periodo. lia.
Qed.

Lemma days_in_month_periodo (y m k : Z) :
  _days_in_month (y + 400 * k) m = _days_in_month y m.
Proof. unfold _days_in_month. now rewrite is_leap_periodo. Qed.

Lemma ord2ymd_periodo (n k : Z) :
  _ord2ymd (n + _DI400Y * k)
  = mkdate (year (_ord2ymd n) + 400 * k) (month (_ord2ymd n))
           (day (_ord2ymd n)).
Proof.
  unfold _ord2ymd.
  replace (n + _DI400Y * k - 1) with (n - 1 + k * _DI400Y) by lia.
  rewrite Z_div_plus_full, Z_mod_plus_full by (unfold _DI400Y; lia).
  cbv zeta.
  set (a := (n - 1) / _DI400Y).
  set (b := (n - 1) mod _DI400Y).
  destruct ((b mod _DI100Y mod _DI4Y / 365 =? 4) || (b / _DI100Y =? 4)).
  - cbn [year month day]. f_equal. lia.
  - match goal with
    | |- context [if ?c then _ else _] => destruct c
    end; cbn [year month day]; f_equal; lia.
Qed.

Lemma date_eq_dec_b_periodo (x : date) (y m d k : Z) :
  date_eq_dec_b (mkdate (year x + 400 * k) (month x) (day x))
                (mkdate (y + 400 * k) m d)
  = date_eq_dec_b x (mkdate y m d).
Proof.
  destruct x as [a b c]. unfold date_eq_dec_b. cbn [year month day].
  f_equal. f_equal.
  destruct (Z.eqb_spec a y); [apply Z.eqb_eq | apply Z.eqb_neq]; lia.
Qed.

Lemma ultimo_dia_ok_periodo (y m k : Z) :
  ultimo_dia_ok (y + 400 * k) m = ultimo_dia_ok y m.
Proof.
  unfold ultimo_dia_ok, mes_seguinte.
  destruct (m =? 12).
  - replace (y + 400 * k + 1) with (y + 1 + 400 * k) by lia.
    rewrite ymd2ord_periodo, days_in_month_periodo.
    replace (_ymd2ord (y + 1) 1 1 + _DI400Y * k - 1)
      with (_ymd2ord (y + 1) 1 1 - 1 + _DI400Y * k) by lia.
    rewrite ord2ymd_periodo.
    generalize (_ord2ymd (_ymd2ord (y + 1) 1 1 - 1)).
    generalize (_days_in_month y 12). intros d x.
    apply date_eq_dec_b_periodo.
  - rewrite ymd2ord_periodo, days_in_month_periodo.
    replace (_ymd2ord y (m + 1) 1 + _DI400Y * k - 1)
      with (_ymd2ord y (m + 1) 1 - 1 + _DI400Y * k) by lia.
    rewrite ord2ymd_periodo.
    generalize (_ord2ymd (_ymd2ord y (m + 1) 1 - 1)).
    generalize (_days_in_month y m). intros d x.
    apply date_eq_dec_b_periodo.
Qed.

(** The months of one period of 400 years, by evaluation. *)
Lemma ultimo_dia_ok_400 :
  todos_desde 400 1 (fun y => todos_desde 12 1 (fun m => ultimo_dia_ok y m))
  = true.
Proof. vm_cast_no_check (eq_refl true). Qed.

Lemma ultimo_dia_do_mes (y m : Z) :
  1 <= m <= 12 ->
  let '(y', m') := mes_seguinte y m in
  _ord2ymd (_ymd2ord y' m' 1 - 1) = mkdate y m (_days_in_month y m).
Proof.
  intros Hm.
  assert (H : ultimo_dia_ok y m = true).
  { set (y0 := (y - 1) mod 400 + 1).
    replace y with (y0 + 400 * ((y - 1) / 400))
      by (unfold y0; pose proof (Z.div_mod (y - 1) 400 ltac:(lia)); lia).
    rewrite ultimo_dia_ok_periodo.
    pose proof (Z.mod_pos_bound (y - 1) 400 ltac:(lia)).
    pose proof (todos_desde_spec _ _ _ ultimo_dia_ok_400 y0
                  ltac:(unfold y0; lia)) as H1.
    cbv beta in H1.
    exact (todos_desde_spec _ _ _ H1 m ltac:(lia)). }
  unfold ultimo_dia_ok in H. destruct (mes_seguinte y m) as [y' m'].
  now apply date_eq_dec_b_eq.
Qed.

Lemma days_in_month_bounds (y m : Z) :
  1 <= m <= 12 -> 28 <= _days_in_month y m <= 31.
Proof.
  intros H. unfold _days_in_month.
  destruct (_is_leap y); each_month H; cbn; lia.
Qed.

Lemma new_date_ok (y m d : Z) :
  1 <= y <= 9999 -> 1 <= m <= 12 -> 1 <= d <= _days_in_month y m ->
  new_date y m d = Some (mkdate y m d).
Proof.
  intros Hy Hm Hd. unfold new_date, MINYEAR, MAXYEAR.
  repeat match goal with
         | |- context [?a <=? ?b] =>
             replace (a <=? b) with true by (symmetry; apply Z.leb_le; lia)
         end.
  reflexivity.
Qed.

Lemma toordinal_lt (a b : date) :
  well_formed a -> well_formed b -> date_cmp a b = Lt ->
  toordinal a < toordinal b.
Proof.
  intros Ha Hb H. rewrite (date_cmp_toordinal a b Ha Hb) in H.
  now apply Z.compare_lt_iff.
Qed.

Lemma primeiro_dia_ordinal (y m : Z) :
  1 <= y <= 9999 -> 1 <= m <= 12 -> y <> 1 \/ m <> 1 ->
  1 < _ymd2ord y m 1 <= _MAXORDINAL.
Proof.
  intros Hy Hm Hne.
  pose proof (days_in_month_bounds y m Hm) as Hb.
  assert (W : well_formed (mkdate y m 1))
    by (unfold well_formed; cbn [year month day]; lia).
  assert (W1 : well_formed (mkdate 1 1 1)) by (unfold well_formed; cbn; lia).
  assert (W9 : well_formed (mkdate 9999 12 31))
    by (unfold well_formed; cbn; lia).
  pose proof (toordinal_lt (mkdate 1 1 1) (mkdate y m 1) W1 W) as L1.
  pose proof (toordinal_lt (mkdate y m 1) (mkdate 9999 12 31) W W9) as L2.
  unfold toordinal, date_cmp in L1, L2. cbn [year month day] in L1, L2.
  change (_ymd2ord 1 1 1) with 1 in L1.
  change (_ymd2ord 9999 12 31) with _MAXORDINAL in L2.
  split.
  - apply L1.
    destruct (Z.compare_spec 1 y); [| reflexivity | lia].
    destruct (Z.compare_spec 1 m); [lia | reflexivity | lia].
  - apply Z.lt_le_incl, L2.
    destruct (Z.compare_spec y 9999); [| reflexivity | lia].
    destruct (Z.compare_spec m 12); [reflexivity | reflexivity | lia].
Qed.

Lemma sub_days_primeiro (y m : Z) :
  1 <= y <= 9999 -> 1 <= m <= 12 -> y <> 1 \/ m <> 1 ->
  sub_days (mkdate y m 1) 1 = Some (_ord2ymd (_ymd2ord y m 1 - 1)).
Proof.
  intros Hy Hm Hne. pose proof (primeiro_dia_ordinal y m Hy Hm Hne) as [B1 B2].
  unfold sub_days, toordinal. cbn [year month day].
  replace (0 <? _ymd2ord y m 1 - 1) with true
    by (symmetry; apply Z.ltb_lt; lia).
  replace (_ymd2ord y m 1 - 1 <=? _MAXORDINAL) with true
    by (symmetry; apply Z.leb_le; lia).
  reflexivity.
Qed.

Lemma limites_do_mes_ok (ano mes : Z) :
  1 <= ano <= 9999 -> 1 <= mes <= 12 -> ano < 9999 \/ mes < 12 ->
  limites_do_mes ano mes
  = Ok (mkdate ano mes 1, mkdate ano mes (_days_in_month ano mes)).
Proof.
  intros Ha Hm Hne. unfold limites_do_mes.
  pose proof (days_in_month_bounds ano mes Hm) as Hb.
  rewrite (new_date_ok ano mes 1) by lia.
  pose proof (ultimo_dia_do_mes ano mes Hm) as U.
  unfold mes_seguinte in U.
  destruct (mes =? 12) eqn:E12.
  - apply Z.eqb_eq in E12.
    pose proof (days_in_month_bounds (ano + 1) 1 ltac:(lia)).
    rewrite (new_date_ok (ano + 1) 1 1) by lia.
    rewrite sub_days_primeiro by lia. now rewrite U.
  - apply Z.eqb_neq in E12.
    pose proof (days_in_month_bounds ano (mes + 1) ltac:(lia)).
    rewrite (new_date_ok ano (mes + 1) 1) by lia.
    rewrite sub_days_primeiro by lia. now rewrite U.
Qed.

(** ** Decimal accumulation never raises on finite amounts *)

Lemma decimal_valor_finito (c : Conta) :
  Float64.is_finite (valor c) = true -> finito (decimal_valor c) = true.
Proof.
  unfold decimal_valor, PyDecimal.of_float_str.
  destruct (valor c) as [? | ? | | sg m e]; cbn [Float64.is_finite finito];
    try discriminate; auto.
  intros _. destruct (PyDecimal.ratio m e) as [num den].
  destruct (PyDecimal.shortest 17 (S754_finite false m e) num den
              (PyDecimal.floor_log10 num den) 1) as [cc k].
  reflexivity.
Qed.

Lemma add_finito (a b : decimal) :
  finito a = true -> finito b = true ->
  exists d, PyDecimal.add a b = Some d /\ finito d = true.
Proof.
  destruct a as [c1 e1 | |], b as [c2 e2 | |]; try discriminate.
  intros _ _. unfold PyDecimal.add.
  destruct (PyDecimal.add_exact c1 e1 c2 e2) as [c e].
  eexists; split; [reflexivity |].
  unfold PyDecimal.fix_prec.
  destruct (_ <=? _); [reflexivity |].
  destruct (_ =? _); reflexivity.
Qed.

Lemma sub_finito (a b : decimal) :
  finito a = true -> finito b = true ->
  exists d, PyDecimal.sub a b = Some d /\ finito d = true.
Proof.
  intros Ha Hb. unfold PyDecimal.sub. apply add_finito; [assumption |].
  destruct b; try discriminate; reflexivity.
Qed.

(** ** The loops of the monthly and period flows *)

Lemma movimento_periodo_acc (t : Tipo) (ini fim : date) (l : list Conta) :
  forall trans tot,
    fst (fold_left (passo_periodo t ini fim) l (trans, tot))
    = (trans ++ filter (baixada_entre t ini fim) l)%list.
Proof.
  induction l as [| c l IH]; intros trans tot; cbn [fold_left filter].
  - now rewrite app_nil_r.
  - unfold passo_periodo at 2.
    destruct (baixada_entre t ini fim c).
    + destruct (PyDecimal.add tot (decimal_valor c));
        rewrite IH, <- app_assoc; reflexivity.
    + apply IH.
Qed.

Lemma movimento_periodo_transacoes (t : Tipo) (ini fim : date)
    (l : list Conta) :
  fst (movimento_periodo t ini fim l) = filter (baixada_entre t ini fim) l.
Proof. unfold movimento_periodo. now rewrite movimento_periodo_acc. Qed.

Lemma movimento_periodo_finito (t : Tipo) (ini fim : date) (l : list Conta) :
  forallb (fun c => Float64.is_finite (valor c)) l = true ->
  forall trans tot, finito tot = true ->
    finito (snd (fold_left (passo_periodo t ini fim) l (trans, tot))) = true.
Proof.
  induction l as [| c l IH]; cbn [fold_left forallb]; intros H trans tot Ht;
    [assumption |].
  apply andb_prop in H as [Hc Hl].
  unfold passo_periodo at 2.
  destruct (baixada_entre t ini fim c); [| now apply IH].
  destruct (add_finito tot (decimal_valor c) Ht (decimal_valor_finito c Hc))
    as (d & -> & Hd).
  now apply IH.
Qed.

Lemma somar_decimal_categoria_finito (cat : string) (v : decimal)
    (d : list (string * decimal)) :
  finito v = true -> forallb (fun kv => finito (snd kv)) d = true ->
  exists d', somar_decimal_categoria cat v d = Some d'
             /\ forallb (fun kv => finito (snd kv)) d' = true.
Proof.
  intros Hv. induction d as [| [k x] d IH];
    cbn [somar_decimal_categoria forallb snd]; intros H.
  - destruct (add_finito PyDecimal.zero_00 v eq_refl Hv) as (y & -> & Hy).
    eexists; split; [reflexivity |]. cbn [forallb snd]. now rewrite Hy.
  - apply andb_prop in H as [Hx Hd].
    destruct (String.eqb k cat).
    + destruct (add_finito x v Hx Hv) as (y & -> & Hy).
      eexists; split; [reflexivity |]. cbn [forallb snd]. now rewrite Hy, Hd.
    + destruct (IH Hd) as (d' & -> & Hd').
      eexists; split; [reflexivity |]. cbn [forallb snd]. now rewrite Hx, Hd'.
Qed.

Lemma resumo_por_categoria_finito (l : list Conta) :
  forallb (fun c => Float64.is_finite (valor c)) l = true ->
  exists d, resumo_por_categoria l = Some d.
Proof.
  unfold resumo_por_categoria.
  assert (G : forall d0, forallb (fun kv => finito (snd kv)) d0 = true ->
              forallb (fun c => Float64.is_finite (valor c)) l = true ->
              exists d,
                fold_left
                  (fun acc c =>
                     match acc with
                     | Some d => somar_decimal_categoria (categoria c)
                                   (decimal_valor c) d
                     | None => None
                     end) l (Some d0) = Some d).
  { induction l as [| c l IH]; cbn [fold_left forallb]; intros d0 H0 H.
    - eauto.
    - apply andb_prop in H as [Hc Hl].
      destruct (somar_decimal_categoria_finito (categoria c) (decimal_valor c)
                  d0 (decimal_valor_finito c Hc) H0) as (d' & -> & Hd').
      now apply IH. }
  apply G. reflexivity.
Qed.

Lemma forallb_filter {A} (p q : A -> bool) (l : list A) :
  forallb p l = true -> forallb p (filter q l) = true.
Proof.
  induction l as [| x l IH]; cbn; [auto |]. intros H.
  apply andb_prop in H as [Hx Hl]. destruct (q x); cbn; [rewrite Hx |]; auto.
Qed.

Lemma valores_finitos_split (s : SistemaFinanceiro) :
  valores_finitos s = true ->
  forallb (fun c => Float64.is_finite (valor c)) (contas_pagar s) = true
  /\ forallb (fun c => Float64.is_finite (valor c)) (contas_receber s) = true.
Proof.
  unfold valores_finitos. rewrite forallb_app. apply andb_prop.
Qed.

Lemma baixada_entre_spec (t : Tipo) (ini fim : date) (c : Conta) :
  baixada_entre t ini fim c = true <->
  conta_ativo c = true /\ status c = status_baixado t
  /\ exists txt d, data_baixa c = Some txt /\ strptime txt = Some d
                   /\ date_leb ini d = true /\ date_leb d fim = true.
Proof.
  unfold baixada_entre. split.
  - intros H. apply andb_prop in H as [H H3]. apply andb_prop in H as [H1 H2].
    apply String.eqb_eq in H2.
    destruct (data_baixa c) as [txt |]; [| discriminate].
    destruct (strptime txt) as [d |] eqn:E; [| discriminate].
    apply andb_prop in H3 as [H3 H4]. eauto 10.
  - intros (H1 & H2 & txt & d & H3 & H4 & H5 & H6).
    rewrite H1, H2, String.eqb_refl, H3, H4, H5, H6. reflexivity.
Qed.

Lemma entre_limites_do_mes (ano mes : Z) (d : date) :
  well_formed d ->
  date_leb (mkdate ano mes 1) d
  && date_leb d (mkdate ano mes (_days_in_month ano mes)) = true
  <-> year d = ano /\ month d = mes.
Proof.
  destruct d as [y m dd]. unfold well_formed, date_leb, date_cmp.
  cbn [year month day]. intros [Hm Hd].
  rewrite andb_true_iff.
  destruct (Z.compare_spec ano y); destruct (Z.compare_spec y ano);
    destruct (Z.compare_spec mes m); destruct (Z.compare_spec m mes);
    destruct (Z.compare_spec 1 dd);
    destruct (Z.compare_spec dd (_days_in_month ano mes));
    try lia; subst;
    try (split; [intros [? ?]; discriminate | intros [? ?]; lia]);
    try (split; [intros _; split; reflexivity | intros _; split; reflexivity]);
    try (split; [intros [? ?]; discriminate | intros [? ?]; subst; lia]).
Qed.

Lemma baixada_no_mes (t : Tipo) (ano mes : Z) (c : Conta) :
  baixada_entre t (mkdate ano mes 1) (mkdate ano mes (_days_in_month ano mes)) c
  = true
  <-> conta_ativo c = true /\ status c = status_baixado t
      /\ exists txt d, data_baixa c = Some txt /\ strptime txt = Some d
                       /\ year d = ano /\ month d = mes.
Proof.
  rewrite baixada_entre_spec. split.
  - intros (H1 & H2 & txt & d & H3 & H4 & H5 & H6).
    repeat (split; [assumption |]). exists txt, d.
    repeat (split; [assumption |]).
    apply entre_limites_do_mes; [eapply strptime_well_formed; eauto |].
    now rewrite H5, H6.
  - intros (H1 & H2 & txt & d & H3 & H4 & H5).
    repeat (split; [assumption |]). exists txt, d.
    repeat (split; [assumption |]).
    apply entre_limites_do_mes in H5; [| eapply strptime_well_formed; eauto].
    now apply andb_prop in H5.
Qed.

(** C6, amended.  For every year from 1 to 9999 and every month from 1
    to 12, December 9999 apart, and amounts that are finite numbers:
    [fluxo_caixa_mensal] computes as bounds the first day of the month
    and its last day (29 February in a leap year such as 2024, 31
    December through 1 January of the next year less one day), and its
    two lists hold the active accounts of the settled status whose
    settlement date parses to a date of that year and month, and no
    other. *)
Theorem fluxo_caixa_mensal_limites (r : Relogio) (s : SistemaFinanceiro)
    (ano mes : Z) :
  1 <= ano <= 9999 -> 1 <= mes <= 12 -> ano < 9999 \/ mes < 12 ->
  valores_finitos s = true ->
  let primeiro := mkdate ano mes 1 in
  let ultimo := mkdate ano mes (_days_in_month ano mes) in
  limites_do_mes ano mes = Ok (primeiro, ultimo)
  /\ limites_do_mes 2024 2 = Ok (mkdate 2024 2 1, mkdate 2024 2 29)
  /\ limites_do_mes 2023 12 = Ok (mkdate 2023 12 1, mkdate 2023 12 31)
  /\ exists fm,
       fluxo_caixa_mensal r (Some ano) (Some mes) s = Ok fm
       /\ fm_data_inicio fm = primeiro
       /\ fm_data_fim fm = ultimo
       /\ transacoes (fm_entradas fm)
          = filter (baixada_entre Receber primeiro ultimo) (contas_receber s)
       /\ transacoes (fm_saidas fm)
          = filter (baixada_entre Pagar primeiro ultimo) (contas_pagar s)
       /\ (forall c,
             In c (transacoes (fm_entradas fm)) <->
             In c (contas_receber s) /\ conta_ativo c = true
             /\ status c = "recebido"
             /\ exists txt d, data_baixa c = Some txt /\ strptime txt = Some d
                              /\ year d = ano /\ month d = mes)
       /\ (forall c,
             In c (transacoes (fm_saidas fm)) <->
             In c (contas_pagar s) /\ conta_ativo c = true
             /\ status c = "pago"
             /\ exists txt d, data_baixa c = Some txt /\ strptime txt = Some d
                              /\ year d = ano /\ month d = mes).
Proof.
  intros Ha Hm Hne Hfin primeiro ultimo.
  pose proof (limites_do_mes_ok ano mes Ha Hm Hne) as L.
  fold primeiro ultimo in L.
  split; [exact L |].
  split; [vm_compute; reflexivity |].
  split; [vm_compute; reflexivity |].
  destruct (valores_finitos_split s Hfin) as [Fp Fr].
  unfold fluxo_caixa_mensal. rewrite L.
  pose proof (movimento_periodo_transacoes Receber primeiro ultimo
                (contas_receber s)) as Te.
  pose proof (movimento_periodo_transacoes Pagar primeiro ultimo
                (contas_pagar s)) as Ts.
  assert (Fe : finito (snd (movimento_periodo Receber primeiro ultimo
                              (contas_receber s))) = true)
    by (unfold movimento_periodo; now apply movimento_periodo_finito).
  assert (Fs : finito (snd (movimento_periodo Pagar primeiro ultimo
                              (contas_pagar s))) = true)
    by (unfold movimento_periodo; now apply movimento_periodo_finito).
  destruct (movimento_periodo Receber primeiro ultimo (contas_receber s))
    as [entradas total_entradas].
  destruct (movimento_periodo Pagar primeiro ultimo (contas_pagar s))
    as [saidas total_saidas].
  cbn [fst snd] in *.
  destruct (sub_finito _ _ Fe Fs) as (saldo & -> & _).
  destruct (resumo_por_categoria_finito entradas) as (ce & ->).
  { rewrite Te. now apply forallb_filter. }
  destruct (resumo_por_categoria_finito saidas) as (cs & ->).
  { rewrite Ts. now apply forallb_filter. }
  eexists. split; [reflexivity |].
  cbn [fm_data_inicio fm_data_fim fm_entradas fm_saidas mk_movimento
       transacoes].
  repeat (split; [reflexivity || assumption |]).
  split; intros c; [rewrite Te | rewrite Ts];
    rewrite filter_In; unfold primeiro, ultimo;
    rewrite baixada_no_mes; reflexivity.
Qed.

(** C6 as stated fails in December 9999: the first day of the next
    month is 1 January 10000, which [datetime] refuses. *)
Lemma fluxo_caixa_mensal_dezembro_9999 :
  fluxo_caixa_mensal relogio_ex (Some 9999) (Some 12) (iniciar None None)
  = Levanta ValueError.
Proof. vm_compute. reflexivity. Qed.

(** ** C5: the daily cash flow *)

Lemma ndigits_fuel_le (fuel : nat) :
  forall n k, 0 <= n < 10 ^ k -> 1 <= k -> PyDecimal.ndigits_fuel fuel n <= k.
Proof.
  induction fuel as [| f IH]; intros n k Hn Hk; cbn [PyDecimal.ndigits_fuel];
    [lia |].
  destruct (n <? 10) eqn:E; [lia |]. apply Z.ltb_ge in E.
  assert (k <> 1) by (intros ->; change (10 ^ 1) with 10 in Hn; lia).
  assert (P : 10 ^ k = 10 * 10 ^ (k - 1)).
  { replace k with (1 + (k - 1)) at 1 by lia.
    rewrite Z.pow_add_r by lia. reflexivity. }
  assert (PyDecimal.ndigits_fuel f (n / 10) <= k - 1); [| lia].
  apply IH; [| lia].
  split; [apply Z.div_pos; lia |].
  apply Z.div_lt_upper_bound; lia.
Qed.

Lemma fix_prec_id (c e : Z) :
  Z.abs c < 10 ^ PyDecimal.context_prec ->
  PyDecimal.fix_prec c e = PyDecimal.DFin c e.
Proof.
  intros H. unfold PyDecimal.fix_prec, PyDecimal.ndigits.
  pose proof (ndigits_fuel_le (S (Z.to_nat (Z.log2 (Z.abs c)))) (Z.abs c)
                PyDecimal.context_prec ltac:(lia)
                ltac:(unfold PyDecimal.context_prec; lia)) as L.
  apply Z.leb_le in L. now rewrite L.
Qed.

Lemma pow10_pos (k : Z) : 0 <= k -> 1 <= 10 ^ k.
Proof. intros H. pose proof (Z.pow_pos_nonneg 10 k ltac:(lia) H). lia. Qed.

Lemma add_exact_unidades (K c1 e1 c2 e2 : Z) :
  - K <= e1 -> - K <= e2 ->
  let '(c, e) := PyDecimal.add_exact c1 e1 c2 e2 in
  - K <= e /\ c * 10 ^ (e + K) = c1 * 10 ^ (e1 + K) + c2 * 10 ^ (e2 + K).
Proof.
  intros H1 H2. unfold PyDecimal.add_exact.
  set (m := Z.min e1 e2). split; [lia |].
  rewrite Z.mul_add_distr_r, <- !Z.mul_assoc, <- !Z.pow_add_r by lia.
  f_equal; f_equal; f_equal; lia.
Qed.

Lemma abs_le_scaled (c p : Z) : 1 <= p -> Z.abs c <= Z.abs (c * p).
Proof. intros H. rewrite Z.abs_mul. rewrite (Z.abs_eq p) by lia. nia. Qed.

Lemma acumular_cons (v : decimal) (l : list decimal) (tot : decimal) :
  acumular (v :: l) tot
  = match PyDecimal.add tot v with
    | Some t' => acumular l t'
    | None => None
    end.
Proof.
  unfold acumular. cbn [fold_left].
  destruct (PyDecimal.add tot v); [reflexivity |].
  induction l; cbn; auto.
Qed.

Lemma acumular_exato (K : Z) (l : list decimal) :
  forall C0 E0,
    - K <= E0 -> forallb (casas_ate K) l = true ->
    Z.abs (C0 * 10 ^ (E0 + K)) + soma_abs K l < 10 ^ PyDecimal.context_prec ->
    exists C E,
      acumular l (PyDecimal.DFin C0 E0) = Some (PyDecimal.DFin C E)
      /\ - K <= E
      /\ C * 10 ^ (E + K) = C0 * 10 ^ (E0 + K) + soma_unidades K l.
Proof.
  induction l as [| v l IH]; intros C0 E0 HE Hl Hb.
  - exists C0, E0. unfold acumular, soma_unidades. cbn [fold_left fold_right].
    split; [reflexivity | split; [assumption | lia]].
  - cbn [forallb] in Hl. apply andb_prop in Hl as [Hv Hl].
    destruct v as [c e | |]; try discriminate.
    cbn [casas_ate] in Hv. apply Z.leb_le in Hv.
    unfold soma_abs in Hb. cbn [fold_right em_unidades] in Hb.
    fold (soma_abs K l) in Hb.
    rewrite acumular_cons. cbn [PyDecimal.add].
    pose proof (add_exact_unidades K C0 E0 c e HE Hv) as A.
    destruct (PyDecimal.add_exact C0 E0 c e) as [C1 E1].
    destruct A as [A1 A2].
    assert (Hpos : 0 <= soma_abs K l).
    { clear. unfold soma_abs. induction l; cbn [fold_right]; lia. }
    rewrite fix_prec_id.
    2: { pose proof (abs_le_scaled C1 (10 ^ (E1 + K))
                       (pow10_pos (E1 + K) ltac:(lia))). lia. }
    destruct (IH C1 E1 A1 Hl ltac:(lia)) as (C & E & G1 & G2 & G3).
    exists C, E. split; [assumption |]. split; [assumption |].
    unfold soma_unidades. cbn [fold_right em_unidades].
    fold (soma_unidades K l). lia.
Qed.

Lemma soma_unidades_abs (K : Z) (l : list decimal) :
  Z.abs (soma_unidades K l) <= soma_abs K l.
Proof.
  unfold soma_unidades, soma_abs. induction l; cbn [fold_right]; lia.
Qed.

Lemma soma_abs_app (K : Z) (a b : list decimal) :
  soma_abs K (a ++ b) = soma_abs K a + soma_abs K b.
Proof.
  unfold soma_abs. induction a; cbn [fold_right app]; lia.
Qed.

Lemma passo_dia_None (t : Tipo) (data : string) (l : list Conta) :
  fold_left (passo_dia t data) l None = None.
Proof. induction l; cbn; auto. Qed.

Lemma movimento_dia_acc (t : Tipo) (data : string) (l : list Conta) :
  forall trans tot,
    fold_left (passo_dia t data) l (Some (trans, tot))
    = match acumular (map decimal_valor (filter (baixada_no_dia t data) l))
                     tot with
      | Some tot' =>
          Some ((trans ++ filter (baixada_no_dia t data) l)%list, tot')
      | None => None
      end.
Proof.
  induction l as [| c l IH]; intros trans tot; cbn [fold_left filter map].
  - cbn. now rewrite app_nil_r.
  - unfold passo_dia at 2.
    destruct (baixada_no_dia t data c).
    + cbn [map]. rewrite acumular_cons.
      destruct (PyDecimal.add tot (decimal_valor c)) as [tot' |].
      * rewrite IH. destruct (acumular _ tot'); [| reflexivity].
        now rewrite <- app_assoc.
      * apply passo_dia_None.
    + apply IH.
Qed.

Lemma baixada_no_dia_spec (t : Tipo) (data : string) (c : Conta) :
  baixada_no_dia t data c = true <->
  conta_ativo c = true /\ status c = status_baixado t
  /\ data_baixa c = Some data.
Proof.
  unfold baixada_no_dia, opt_str_eqb. split.
  - intros H. apply andb_prop in H as [H H3]. apply andb_prop in H as [H1 H2].
    apply String.eqb_eq in H2.
    destruct (data_baixa c) as [x |]; [| discriminate].
    apply String.eqb_eq in H3. subst. auto.
  - intros (H1 & H2 & H3). rewrite H1, H2, H3, !String.eqb_refl. reflexivity.
Qed.

Lemma date_leb_mesmo_dia (a b : date) :
  date_leb a b && date_leb b a = true <-> b = a.
Proof.
  split.
  - intros H. apply andb_prop in H as [H1 H2].
    symmetry. apply date_cmp_eq.
    unfold date_leb, date_cmp in *.
    destruct a as [ya ma da], b as [yb mb db]. cbn [year month day] in *.
    rewrite (Z.compare_antisym ya yb), (Z.compare_antisym ma mb),
      (Z.compare_antisym da db) in H2.
    destruct (ya ?= yb); cbn [CompOpp] in *; try discriminate.
    destruct (ma ?= mb); cbn [CompOpp] in *; try discriminate.
    destruct (da ?= db); cbn [CompOpp] in *; try discriminate.
    reflexivity.
  - intros ->. unfold date_leb, date_cmp. now rewrite !Z.compare_refl.
Qed.

Lemma baixada_no_dia_data (t : Tipo) (dia : date) (c : Conta) :
  baixada_entre t dia dia c = true <->
  conta_ativo c = true /\ status c = status_baixado t
  /\ exists txt, data_baixa c = Some txt /\ strptime txt = Some dia.
Proof.
  rewrite baixada_entre_spec. split.
  - intros (H1 & H2 & txt & d & H3 & H4 & H5 & H6).
    assert (E : d = dia) by (apply date_leb_mesmo_dia; now rewrite H5, H6).
    subst d. eauto.
  - intros (H1 & H2 & txt & H3 & H4).
    repeat (split; [assumption |]). exists txt, dia.
    repeat (split; [assumption |]).
    apply andb_prop. now apply date_leb_mesmo_dia.
Qed.

Lemma baixadas_do_dia (t : Tipo) (data : string) (dia : date)
    (s : SistemaFinanceiro) :
  strptime data = Some dia -> baixas_escritas_como data dia s ->
  filter (baixada_no_dia t data) (contas t s)
  = filter (baixada_entre t dia dia) (contas t s).
Proof.
  intros Hd Hw. apply filter_ext_in. intros c Hc.
  destruct (baixada_entre t dia dia c) eqn:E.
  - apply baixada_no_dia_data in E as (H1 & H2 & txt & H3 & H4).
    apply baixada_no_dia_spec. repeat (split; [assumption |]).
    now rewrite (Hw t c txt Hc H1 H2 H3 H4) in H3.
  - destruct (baixada_no_dia t data c) eqn:E'; [| reflexivity].
    apply baixada_no_dia_spec in E' as (H1 & H2 & H3).
    rewrite <- E. symmetry. apply baixada_no_dia_data. eauto.
Qed.

(** C5, amended.  For a text [data] that is a date, in a store where
    every active, settled account whose settlement date reads as that
    day has it written as the text [data], and when the accounts
    settled on that day have amounts that print as decimals of at most
    [K] places whose magnitudes add up to less than [10^28] units of
    [10^-K]: [fluxo_caixa_diario] returns a flow whose inflows are the
    active receivables of status ["recebido"] whose settlement date is
    that day, in the order of the list, and whose outflows are the
    active payables of status ["pago"] whose payment date is that day;
    each total is the float of a decimal whose value is the sum of the
    amounts as printed, and the balance is the float of a decimal whose
    value is the inflow sum less the outflow sum. *)
Theorem fluxo_caixa_diario_exato (r : Relogio) (s : SistemaFinanceiro)
    (data : string) (dia : date) (K : Z) :
  strptime data = Some dia ->
  baixas_escritas_como data dia s ->
  let entradas := filter (baixada_entre Receber dia dia) (contas_receber s) in
  let saidas := filter (baixada_entre Pagar dia dia) (contas_pagar s) in
  cabe_no_contexto K (map decimal_valor (entradas ++ saidas)) = true ->
  exists fd total_entradas total_saidas saldo,
    fluxo_caixa_diario r (Some data) s = Ok fd
    /\ fd_data fd = data
    /\ transacoes (fd_entradas fd) = entradas
    /\ transacoes (fd_saidas fd) = saidas
    /\ (forall c, In c entradas <->
                  In c (contas_receber s) /\ conta_ativo c = true
                  /\ status c = "recebido"
                  /\ exists txt, data_baixa c = Some txt
                                 /\ strptime txt = Some dia)
    /\ (forall c, In c saidas <->
                  In c (contas_pagar s) /\ conta_ativo c = true
                  /\ status c = "pago"
                  /\ exists txt, data_baixa c = Some txt
                                 /\ strptime txt = Some dia)
    /\ quantidade (fd_entradas fd) = List.length entradas
    /\ quantidade (fd_saidas fd) = List.length saidas
    /\ total (fd_entradas fd) = PyDecimal.to_float total_entradas
    /\ total (fd_saidas fd) = PyDecimal.to_float total_saidas
    /\ saldo_dia fd = PyDecimal.to_float saldo
    /\ casas_ate K total_entradas = true
    /\ casas_ate K total_saidas = true
    /\ casas_ate K saldo = true
    /\ em_unidades K total_entradas
       = soma_unidades K (map decimal_valor entradas)
    /\ em_unidades K total_saidas
       = soma_unidades K (map decimal_valor saidas)
    /\ em_unidades K saldo
       = em_unidades K total_entradas - em_unidades K total_saidas.
Proof.
  intros Hd Hw entradas saidas Hc.
  assert (Hv : validar_data data = true)
    by (unfold validar_data; now rewrite Hd).
  assert (Fe : filter (baixada_no_dia Receber data) (contas_receber s)
               = entradas)
    by apply (baixadas_do_dia Receber data dia s Hd Hw).
  assert (Fs : filter (baixada_no_dia Pagar data) (contas_pagar s)
               = saidas)
    by apply (baixadas_do_dia Pagar data dia s Hd Hw).
  unfold cabe_no_contexto in Hc.
  apply andb_prop in Hc as [Hc Hb]. apply andb_prop in Hc as [HK Hall].
  apply Z.leb_le in HK. apply Z.ltb_lt in Hb.
  rewrite map_app in Hall, Hb. rewrite forallb_app in Hall.
  apply andb_prop in Hall as [He Hs]. rewrite soma_abs_app in Hb.
  set (le := map decimal_valor entradas) in *.
  set (ls := map decimal_valor saidas) in *.
  assert (Pe : 0 <= soma_abs K le)
    by (pose proof (soma_unidades_abs K le); lia).
  assert (Ps : 0 <= soma_abs K ls)
    by (pose proof (soma_unidades_abs K ls); lia).
  destruct (acumular_exato K le 0 (-2) ltac:(lia) He
              ltac:(rewrite Z.mul_0_l; cbn [Z.abs]; lia))
    as (Ce & Ee & Ae & Be & Ve).
  destruct (acumular_exato K ls 0 (-2) ltac:(lia) Hs
              ltac:(rewrite Z.mul_0_l; cbn [Z.abs]; lia))
    as (Cs & Es & As & Bs & Vs).
  rewrite Z.mul_0_l, Z.add_0_l in Ve, Vs.
  pose proof (soma_unidades_abs K le) as Me.
  pose proof (soma_unidades_abs K ls) as Ms.
  destruct (acumular_exato K [PyDecimal.DFin (- Cs) Es] Ce Ee Be)
    as (Cb & Eb & Ab & Bb & Vb).
  { cbn [forallb casas_ate]. apply Z.leb_le in Bs. now rewrite Bs. }
  { unfold soma_abs. cbn [fold_right em_unidades].
    rewrite Z.mul_opp_l, Z.abs_opp. lia. }
  unfold soma_unidades in Vb. cbn [fold_right em_unidades] in Vb.
  rewrite acumular_cons in Ab.
  exists (mkFluxoDiario data
            (mk_movimento entradas (PyDecimal.DFin Ce Ee) [])
            (mk_movimento saidas (PyDecimal.DFin Cs Es) [])
            (PyDecimal.to_float (PyDecimal.DFin Cb Eb))),
    (PyDecimal.DFin Ce Ee), (PyDecimal.DFin Cs Es), (PyDecimal.DFin Cb Eb).
  split.
  { unfold fluxo_caixa_diario. rewrite Hv. cbn [negb].
    unfold movimento_dia. rewrite !movimento_dia_acc.
    rewrite Fe, Fs. fold le ls.
    change PyDecimal.zero_00 with (PyDecimal.DFin 0 (-2)).
    rewrite Ae, As. cbn [app].
    unfold PyDecimal.sub. cbn [PyDecimal.neg].
    destruct (PyDecimal.add (PyDecimal.DFin Ce Ee) (PyDecimal.DFin (- Cs) Es))
      as [b |]; [| discriminate].
    unfold acumular in Ab. cbn [fold_left] in Ab. injection Ab as ->.
    reflexivity. }
  cbn [fd_data fd_entradas fd_saidas saldo_dia mk_movimento transacoes
       quantidade total casas_ate em_unidades].
  apply Z.leb_le in Be as Be', Bs as Bs', Bb as Bb'.
  split; [reflexivity |]. split; [reflexivity |]. split; [reflexivity |].
  split.
  { intros c. unfold entradas.
    rewrite filter_In, (baixada_no_dia_data Receber dia c). reflexivity. }
  split.
  { intros c. unfold saidas.
    rewrite filter_In, (baixada_no_dia_data Pagar dia c). reflexivity. }
  split; [reflexivity |]. split; [reflexivity |].
  split; [reflexivity |]. split; [reflexivity |]. split; [reflexivity |].
  split; [exact Be' |]. split; [exact Bs' |]. split; [exact Bb' |].
  split; [exact Ve |]. split; [exact Vs |].
  rewrite Vb. rewrite Z.mul_opp_l. lia.
Qed.

(** The spec's example: 0.10 and 0.20 received on one day total 0.30. *)
Lemma fluxo_caixa_diario_dez_vinte :
  exists fd,
    fluxo_caixa_diario relogio_ex (Some "2024-03-10")
                       sistema_dez_vinte_recebidas = Ok fd
    /\ map valor (transacoes (fd_entradas fd)) = [lit 1 (-1); lit 2 (-1)]
    /\ total (fd_entradas fd) = lit 3 (-1)
    /\ saldo_dia fd = lit 3 (-1).
Proof.
  eexists. split; [vm_compute; reflexivity |].
  repeat split; vm_compute; reflexivity.
Qed.

(** C5 as stated fails at receivables of 1e16, 1.0 and 1e-20 received on
    one day: the accumulation is rounded to the 28 digits of the context
    at the third addition, and the total returned is 1e16, while the sum
    of the three amounts converts to 1.0000000000000002e16. *)
Lemma fluxo_caixa_diario_arredonda :
  exists fd,
    fluxo_caixa_diario relogio_ex (Some "2024-03-10") sistema_tres_recebidas
    = Ok fd
    /\ map valor (transacoes (fd_entradas fd))
       = [lit 1 16; lit 1 0; lit 1 (-20)]
    /\ total (fd_entradas fd) = lit 1 16
    /\ PyDecimal.to_float
         (soma_exata (map decimal_valor (transacoes (fd_entradas fd))))
       = lit 10000000000000002 0
    /\ Float64.eqb (total (fd_entradas fd))
         (PyDecimal.to_float
            (soma_exata (map decimal_valor (transacoes (fd_entradas fd)))))
       = false.
Proof.
  eexists. split; [vm_compute; reflexivity |].
  repeat split; vm_compute; reflexivity.
Qed.

(** Where a settlement date is written otherwise than the date asked
    for, the loops of [fluxo_caixa_diario], which compare the texts,
    leave the account out, and those of [fluxo_caixa_periodo], which
    compare the dates read, take it: a payable settled with the text
    ["2024-3-10"] is no outflow of the day ["2024-03-10"], and is one of
    the period from that day to that day. *)
Lemma fluxo_caixa_diario_datas_por_texto :
  let s := snd (registrar_pagamento relogio_ex "CP001" (Some "2024-3-10")
                  "sistema" sistema_uma_conta) in
  fst (registrar_pagamento relogio_ex "CP001" (Some "2024-3-10") "sistema"
         sistema_uma_conta) = Sucesso
  /\ strptime "2024-3-10" = strptime "2024-03-10"
  /\ (exists fd,
        fluxo_caixa_diario relogio_ex (Some "2024-03-10") s = Ok fd
        /\ transacoes (fd_saidas fd) = [])
  /\ (exists fp,
        fluxo_caixa_periodo "2024-03-10" "2024-03-10" s = Ok fp
        /\ map id (transacoes (fp_saidas fp)) = ["CP001"]).
Proof.
  cbv zeta. split; [vm_compute; reflexivity |].
  split; [vm_compute; reflexivity |].
  split; eexists; (split; [vm_compute; reflexivity |]);
    vm_compute; reflexivity.
Qed.

(** ** Instances of the theorems at the example states *)

Lemma calcular_status_vencimento_total_witness :
  (valid (hoje relogio_ex)) /\
  In (calcular_status_vencimento relogio_ex "2024-03-05")
     ["atrasado"; "vencendo_hoje"; "vencendo_em_breve"; "no_prazo";
      "data_invalida"]%string
  /\ match strptime "2024-03-05" with
     | None => calcular_status_vencimento relogio_ex "2024-03-05" =
         "data_invalida"%string
     | Some due =>
         let n := days_between due (hoje relogio_ex) in
         (n < 0 <-> date_ltb due (hoje relogio_ex) = true)
         /\ (n = 0 <-> due = hoje relogio_ex)
         /\ (n < 0 -> calcular_status_vencimento relogio_ex "2024-03-05" =
             "atrasado"%string)
         /\ (n = 0 -> calcular_status_vencimento relogio_ex "2024-03-05" =
             "vencendo_hoje"%string)
         /\ (0 < n <= 7 ->
             calcular_status_vencimento relogio_ex "2024-03-05" =
                 "vencendo_em_breve"%string)
         /\ (7 < n -> calcular_status_vencimento relogio_ex "2024-03-05" =
             "no_prazo"%string)
     end.
Proof.
  split; [vm_compute; reflexivity |].
  apply (calcular_status_vencimento_total relogio_ex "2024-03-05").
  vm_compute; reflexivity.
Defined.

Lemma fluxo_caixa_periodo_invertido_witness :
  (strptime "2024-03-10" = Some (mkdate 2024 3 10)) /\
  (strptime "2024-03-01" = Some (mkdate 2024 3 1)) /\
  (toordinal (mkdate 2024 3 1) < toordinal (mkdate 2024 3 10)) /\
  fluxo_caixa_periodo "2024-03-10" "2024-03-01" (iniciar None None) =
      ErroDominio DataInicialMaior
  /\ (forall x, fluxo_caixa_periodo "2024-03-10" "2024-03-01" (iniciar None
      None) <> Levanta x)
  /\ (forall f, fluxo_caixa_periodo "2024-03-10" "2024-03-01" (iniciar None
      None) <> Ok f).
Proof.
  split; [vm_compute; reflexivity |].
  split; [vm_compute; reflexivity |].
  split; [vm_compute; reflexivity |].
  apply (fluxo_caixa_periodo_invertido "2024-03-10" "2024-03-01"
           (iniciar None None) (mkdate 2024 3 10) (mkdate 2024 3 1));
    vm_compute; reflexivity.
Defined.


Lemma excluir_conta_inativa_falha_witness :
  ((forall c, In c (contas Pagar sistema_uma_excluida) -> id c = "CP001" ->
      conta_ativo c = false)) /\
  excluir_conta Pagar "CP001" "sistema" sistema_uma_excluida = (Falha
      ContaNaoEncontrada, sistema_uma_excluida)
  /\ retorno_bool (fst (excluir_conta Pagar "CP001" "sistema"
      sistema_uma_excluida)) = false.
Proof.
  assert (H : forall c, In c (contas Pagar sistema_uma_excluida) ->
                        id c = "CP001" -> conta_ativo c = false).
  { intros c Hc _. vm_compute in Hc. destruct Hc as [<- | []]. reflexivity. }
  split; [exact H |].
  exact (excluir_conta_inativa_falha Pagar "CP001" "sistema"
           sistema_uma_excluida H).
Defined.


Lemma fluxo_caixa_mensal_limites_witness :
  (1 <= 2024 <= 9999) /\
  (1 <= 3 <= 12) /\
  (2024 < 9999 \/ 3 < 12) /\
  (valores_finitos sistema_dez_vinte_recebidas = true) /\
  let primeiro := mkdate 2024 3 1 in
  let ultimo := mkdate 2024 3 (_days_in_month 2024 3) in
  limites_do_mes 2024 3 = Ok (primeiro, ultimo)
  /\ limites_do_mes 2024 2 = Ok (mkdate 2024 2 1, mkdate 2024 2 29)
  /\ limites_do_mes 2023 12 = Ok (mkdate 2023 12 1, mkdate 2023 12 31)
  /\ exists fm,
       fluxo_caixa_mensal relogio_ex (Some 2024) (Some 3)
           sistema_dez_vinte_recebidas = Ok fm
       /\ fm_data_inicio fm = primeiro
       /\ fm_data_fim fm = ultimo
       /\ transacoes (fm_entradas fm)
          = filter (baixada_entre Receber primeiro ultimo) (contas_receber
              sistema_dez_vinte_recebidas)
       /\ transacoes (fm_saidas fm)
          = filter (baixada_entre Pagar primeiro ultimo) (contas_pagar
              sistema_dez_vinte_recebidas)
       /\ (forall c,
             In c (transacoes (fm_entradas fm)) <->
             In c (contas_receber sistema_dez_vinte_recebidas) /\ conta_ativo
                 c = true
             /\ status c = "recebido"
             /\ exists txt d, data_baixa c = Some txt /\ strptime txt = Some d
                              /\ year d = 2024 /\ month d = 3)
       /\ (forall c,
             In c (transacoes (fm_saidas fm)) <->
             In c (contas_pagar sistema_dez_vinte_recebidas) /\ conta_ativo c
                 = true
             /\ status c = "pago"
             /\ exists txt d, data_baixa c = Some txt /\ strptime txt = Some d
                              /\ year d = 2024 /\ month d = 3).
Proof.
  split; [lia |]. split; [lia |]. split; [left; lia |].
  split; [vm_compute; reflexivity |].
  apply (fluxo_caixa_mensal_limites relogio_ex sistema_dez_vinte_recebidas
           2024 3); [lia | lia | left; lia | vm_compute; reflexivity].
Defined.

Lemma fluxo_caixa_diario_exato_witness :
  (strptime "2024-03-10" = Some (mkdate 2024 3 10)) /\
  (baixas_escritas_como "2024-03-10" (mkdate 2024 3 10)
      sistema_dez_vinte_recebidas) /\
  let entradas := filter (baixada_entre Receber (mkdate 2024 3 10) (mkdate
      2024 3 10)) (contas_receber sistema_dez_vinte_recebidas) in
  let saidas := filter (baixada_entre Pagar (mkdate 2024 3 10) (mkdate 2024 3
      10)) (contas_pagar sistema_dez_vinte_recebidas) in
  (cabe_no_contexto 2 (map decimal_valor (entradas ++ saidas)) = true) /\
  exists fd total_entradas total_saidas saldo,
    fluxo_caixa_diario relogio_ex (Some "2024-03-10")
        sistema_dez_vinte_recebidas = Ok fd
    /\ fd_data fd = "2024-03-10"
    /\ transacoes (fd_entradas fd) = entradas
    /\ transacoes (fd_saidas fd) = saidas
    /\ (forall c, In c entradas <->
                  In c (contas_receber sistema_dez_vinte_recebidas) /\
                      conta_ativo c = true
                  /\ status c = "recebido"
                  /\ exists txt, data_baixa c = Some txt
                                 /\ strptime txt = Some (mkdate 2024 3 10))
    /\ (forall c, In c saidas <->
                  In c (contas_pagar sistema_dez_vinte_recebidas) /\
                      conta_ativo c = true
                  /\ status c = "pago"
                  /\ exists txt, data_baixa c = Some txt
                                 /\ strptime txt = Some (mkdate 2024 3 10))
    /\ quantidade (fd_entradas fd) = List.length entradas
    /\ quantidade (fd_saidas fd) = List.length saidas
    /\ total (fd_entradas fd) = PyDecimal.to_float total_entradas
    /\ total (fd_saidas fd) = PyDecimal.to_float total_saidas
    /\ saldo_dia fd = PyDecimal.to_float saldo
    /\ casas_ate 2 total_entradas = true
    /\ casas_ate 2 total_saidas = true
    /\ casas_ate 2 saldo = true
    /\ em_unidades 2 total_entradas
       = soma_unidades 2 (map decimal_valor entradas)
    /\ em_unidades 2 total_saidas
       = soma_unidades 2 (map decimal_valor saidas)
    /\ em_unidades 2 saldo
       = em_unidades 2 total_entradas - em_unidades 2 total_saidas.
Proof.
  assert (W : baixas_escritas_como "2024-03-10" (mkdate 2024 3 10)
                sistema_dez_vinte_recebidas).
  { intros t c txt Hc _ _ Hb _. destruct t; vm_compute in Hc.
    - destruct Hc.
    - destruct Hc as [<- | [<- | []]]; vm_compute in Hb;
        injection Hb as <-; reflexivity. }
  split; [vm_compute; reflexivity |].
  split; [exact W |].
  cbv zeta. split; [vm_compute; reflexivity |].
  apply (fluxo_caixa_diario_exato relogio_ex sistema_dez_vinte_recebidas
           "2024-03-10" (mkdate 2024 3 10) 2);
    [vm_compute; reflexivity | exact W | vm_compute; reflexivity].
Defined.

(** * Further properties of the operations *)

(** ** What an operation does to the two lists *)

Lemma Tipo_eq_dec (a b : Tipo) : {a = b} + {a <> b}.
Proof. decide equality. Defined.

Lemma salvar_set_outro (t : Tipo) (l : list Conta) (s : SistemaFinanceiro) :
  contas (outro t) (salvar_contas t (set_contas t l s)) = contas (outro t) s
  /\ arquivo (outro t) (salvar_contas t (set_contas t l s))
     = arquivo (outro t) s
  /\ categorias_pagar (salvar_contas t (set_contas t l s)) = categorias_pagar s
  /\ categorias_receber (salvar_contas t (set_contas t l s))
     = categorias_receber s.
Proof. destruct t; repeat split. Qed.

(** The loop of a settlement, by the first active account bearing the id. *)
Lemma registrar_loop_resultado (t : Tipo) (r : Relogio) (conta_id : string)
    (data : option string) (usuario : string) (l : list Conta) :
  match registrar_loop t r conta_id data usuario l with
  | None => forall c, In c l -> portadora conta_id c = false
  | Some (x, l') =>
      exists a c b,
        l = (a ++ c :: b)%list
        /\ (forall c0, In c0 a -> portadora conta_id c0 = false)
        /\ portadora conta_id c = true
        /\ ((x = Falha ContaJaBaixada /\ l' = l
             /\ status c = status_baixado t)
            \/ (x = Falha DataBaixaInvalida /\ l' = l
                /\ status c <> status_baixado t
                /\ validar_data (data_efetiva r data) = false)
            \/ (x = Sucesso
                /\ l' = (a ++ baixar t (data_efetiva r data) usuario c :: b)%list
                /\ status c <> status_baixado t
                /\ validar_data (data_efetiva r data) = true))
  end.
Proof.
  induction l as [| c l IH]; cbn [registrar_loop]; [intros c [] |].
  fold (portadora conta_id c). fold (data_efetiva r data).
  destruct (portadora conta_id c) eqn:Ep.
  - destruct (String.eqb (status c) (status_baixado t)) eqn:Es.
    + apply String.eqb_eq in Es. exists [], c, l.
      repeat split; [intros c0 [] | assumption | left; auto].
    + apply String.eqb_neq in Es.
      destruct (validar_data (data_efetiva r data)) eqn:Ev; cbn [negb];
        exists [], c, l;
        (repeat split; [intros c0 [] | assumption |]); auto 10.
  - destruct (registrar_loop t r conta_id data usuario l) as [[x l'] |].
    + destruct IH as (a & c1 & b & -> & Ha & Hc & Hx).
      exists (c :: a), c1, b. split; [reflexivity |].
      split; [intros c0 [<- | H0]; auto |]. split; [assumption |].
      destruct Hx as [(-> & -> & H) | [(-> & -> & H) | (-> & -> & H)]];
        auto 10.
    + intros c0 [<- | H0]; auto.
Qed.

Lemma excluir_loop_resultado (conta_id : string) (l : list Conta) :
  match excluir_loop conta_id l with
  | None => forall c, In c l -> portadora conta_id c = false
  | Some l' =>
      exists a c b,
        l = (a ++ c :: b)%list
        /\ (forall c0, In c0 a -> portadora conta_id c0 = false)
        /\ portadora conta_id c = true
        /\ l' = (a ++ desativar c :: b)%list
  end.
Proof.
  induction l as [| c l IH]; cbn [excluir_loop]; [intros c [] |].
  fold (portadora conta_id c).
  destruct (portadora conta_id c) eqn:Ep.
  - exists [], c, l. repeat split; [intros c0 [] | assumption].
  - destruct (excluir_loop conta_id l) as [l' |].
    + destruct IH as (a & c1 & b & -> & Ha & Hc & ->).
      exists (c :: a), c1, b. repeat split; try assumption.
      intros c0 [<- | H0]; auto.
    + intros c0 [<- | H0]; auto.
Qed.

Lemma portadora_spec (conta_id : string) (c : Conta) :
  portadora conta_id c = true <-> id c = conta_id /\ conta_ativo c = true.
Proof.
  unfold portadora. rewrite andb_true_iff, String.eqb_eq. reflexivity.
Qed.

(** ** No operation removes an account or rewrites what it records *)

Lemma cadastrar_conta_forma (t : Tipo) (r : Relogio)
    (parc descr categ : string) (v : float) (data_venc obs usuario : string)
    (s : SistemaFinanceiro) :
  if cadastro_aceito t parc descr categ v data_venc s
  then cadastrar_conta t r parc descr categ v data_venc obs usuario s
       = (inr (gerar_id_conta t s),
          salvar_contas t
            (set_contas t
               (contas t s ++
                [conta_nova t r parc descr categ v data_venc obs usuario s])
               s))
  else exists e,
      cadastrar_conta t r parc descr categ v data_venc obs usuario s
      = (inl e, s).
Proof.
  unfold cadastro_aceito, cadastrar_conta, conta_nova.
  destruct t; destruct (nonempty parc); destruct (nonempty descr);
    destruct (nonempty categ); destruct (Float64.leb v Float64.zero);
    cbn [andb orb negb]; eauto;
    destruct (tem_chave categ _); cbn [andb orb negb]; eauto;
    destruct (validar_data data_venc); cbn [andb orb negb]; eauto.
Qed.

Lemma conta_apos_preservada (t : Tipo) (r : Relogio) (c c' : Conta) :
  conta_apos t r c c' -> conta_preservada t c c'.
Proof.
  unfold conta_apos, conta_preservada, atualizar.
  intros [-> | [-> | [(d & u & -> & Hs & _) | ->]]].
  - repeat split; auto.
  - destruct (conta_ativo c) eqn:Ea; cbn; repeat split; auto; congruence.
  - cbn. repeat split; auto; contradiction.
  - cbn. repeat split; auto.
Qed.

Lemma Forall2_apos_refl (t : Tipo) (r : Relogio) (l : list Conta) :
  Forall2 (conta_apos t r) l l.
Proof. induction l; constructor; auto. now left. Qed.

Lemma Forall2_apos_meio (t : Tipo) (r : Relogio) (a b : list Conta)
    (c c' : Conta) :
  conta_apos t r c c' ->
  Forall2 (conta_apos t r) (a ++ c :: b) (a ++ c' :: b).
Proof.
  intros H. apply Forall2_app; [apply Forall2_apos_refl |].
  constructor; [assumption | apply Forall2_apos_refl].
Qed.

Lemma contas_outro_tipo (t0 t : Tipo) (l : list Conta)
    (s : SistemaFinanceiro) :
  t0 <> t -> contas t (salvar_contas t0 (set_contas t0 l s)) = contas t s.
Proof. intros H. destruct t0, t; try contradiction; reflexivity. Qed.

(** What an operation does to the list of the kind [t]: the accounts
    stay in place, each left, refreshed, settled or deactivated, and a
    registration of the kind that passes its checks appends one. *)
Lemma executar_lista (r : Relogio) (op : Operacao) (s : SistemaFinanceiro)
    (t : Tipo) :
  exists mantidas novas,
    contas t (executar r op s) = (mantidas ++ novas)%list
    /\ Forall2 (conta_apos t r) (contas t s) mantidas
    /\ (novas = []
        \/ exists parc descr categ v dv obs u,
             op = OpCadastrar t parc descr categ v dv obs u
             /\ cadastro_aceito t parc descr categ v dv s = true
             /\ mantidas = contas t s
             /\ novas = [conta_nova t r parc descr categ v dv obs u s]).
Proof.
  assert (Same : forall l, l = contas t s ->
            exists mantidas novas,
              l = (mantidas ++ novas)%list
              /\ Forall2 (conta_apos t r) (contas t s) mantidas
              /\ (novas = []
                  \/ exists parc descr categ v dv obs u,
                       op = OpCadastrar t parc descr categ v dv obs u
                       /\ cadastro_aceito t parc descr categ v dv s = true
                       /\ mantidas = contas t s
                       /\ novas
                          = [conta_nova t r parc descr categ v dv obs u s])).
  { intros l ->. exists (contas t s), []. rewrite app_nil_r.
    split; [reflexivity | split; [apply Forall2_apos_refl | now left]]. }
  assert (Map : forall l, Forall2 (conta_apos t r) (contas t s) l ->
            exists mantidas novas,
              l = (mantidas ++ novas)%list
              /\ Forall2 (conta_apos t r) (contas t s) mantidas
              /\ (novas = []
                  \/ exists parc descr categ v dv obs u,
                       op = OpCadastrar t parc descr categ v dv obs u
                       /\ cadastro_aceito t parc descr categ v dv s = true
                       /\ mantidas = contas t s
                       /\ novas
                          = [conta_nova t r parc descr categ v dv obs u s])).
  { intros l H. exists l, []. rewrite app_nil_r.
    split; [reflexivity | split; [assumption | now left]]. }
  destruct op as [t0 parc descr categ v dv obs u | t0 fs fc
                 | t0 cid data u | t0 cid u]; cbn [executar].
  - (* cadastrar *)
    pose proof (cadastrar_conta_forma t0 r parc descr categ v dv obs u s) as F.
    destruct (cadastro_aceito t0 parc descr categ v dv s) eqn:Ea.
    + rewrite F. cbn [snd].
      destruct (Tipo_eq_dec t0 t) as [-> | Hne].
      * destruct (contas_salvar_set t
                    (contas t s ++
                     [conta_nova t r parc descr categ v dv obs u s]) s)
          as [-> _].
        eexists _, _. split; [reflexivity |].
        split; [apply Forall2_apos_refl |].
        right. exists parc, descr, categ, v, dv, obs, u. auto.
      * rewrite contas_outro_tipo by assumption. apply Same; reflexivity.
    + destruct F as (e & ->). apply Same; reflexivity.
  - (* listar *)
    unfold listar_contas. cbn [snd].
    destruct (Tipo_eq_dec t0 t) as [-> | Hne].
    + destruct (contas_salvar_set t (map (atualizar r) (contas t s)) s)
        as [-> _].
      apply Map. clear. induction (contas t s) as [| c l IH]; cbn;
        constructor; auto.
      right; left. reflexivity.
    + rewrite contas_outro_tipo by assumption. apply Same; reflexivity.
  - (* registrar *)
    unfold registrar_baixa.
    pose proof (registrar_loop_resultado t0 r cid data u (contas t0 s)) as R.
    destruct (registrar_loop t0 r cid data u (contas t0 s)) as [[x l'] |];
      [| apply Same; reflexivity].
    destruct x; [| apply Same; reflexivity]. cbn [snd].
    destruct (Tipo_eq_dec t0 t) as [-> | Hne].
    + destruct (contas_salvar_set t l' s) as [-> _].
      destruct R as (a & c & b & E & _ & _ & Hx).
      destruct Hx as [(H & _) | [(H & _) | (_ & El & Hs & Hv)]];
        try discriminate.
      rewrite El. apply Map. rewrite E. apply Forall2_apos_meio.
      right; right; left. eauto.
    + rewrite contas_outro_tipo by assumption. apply Same; reflexivity.
  - (* excluir *)
    unfold excluir_conta.
    pose proof (excluir_loop_resultado cid (contas t0 s)) as R.
    destruct (excluir_loop cid (contas t0 s)) as [l' |];
      [| apply Same; reflexivity].
    cbn [snd].
    destruct (Tipo_eq_dec t0 t) as [-> | Hne].
    + destruct (contas_salvar_set t l' s) as [-> _].
      destruct R as (a & c & b & E & _ & _ & ->).
      apply Map. rewrite E. apply Forall2_apos_meio.
      right; right; right. reflexivity.
    + rewrite contas_outro_tipo by assumption. apply Same; reflexivity.
Qed.
Lemma conta_preservada_trans (t : Tipo) (a b c : Conta) :
  conta_preservada t a b -> conta_preservada t b c -> conta_preservada t a c.
Proof.
  unfold conta_preservada.
  intros (A1 & A2 & A3 & A4 & A5 & A6 & A7 & A8 & A9 & A10 & A11)
         (B1 & B2 & B3 & B4 & B5 & B6 & B7 & B8 & B9 & B10 & B11).
  repeat split; try congruence; intros;
    try (match goal with
         | H : status a = _ |- _ =>
             destruct (A10 H) as (H1 & H2 & H3);
             destruct (B10 H1) as (G1 & G2 & G3)
         end; congruence);
    auto.
Qed.

Lemma Forall2_refl_preservada (t : Tipo) (l : list Conta) :
  Forall2 (conta_preservada t) l l.
Proof.
  induction l; constructor; auto.
  repeat split; auto.
Qed.

Lemma Forall2_apos_preservada (t : Tipo) (r : Relogio) (l l' : list Conta) :
  Forall2 (conta_apos t r) l l' -> Forall2 (conta_preservada t) l l'.
Proof.
  induction 1; constructor; eauto using conta_apos_preservada.
Qed.

Lemma Forall2_preservada_trans (t : Tipo) (l1 l2 l3 : list Conta) :
  Forall2 (conta_preservada t) l1 l2 -> Forall2 (conta_preservada t) l2 l3 ->
  Forall2 (conta_preservada t) l1 l3.
Proof.
  intros H. revert l3. induction H as [| a b l1 l2 Hab H IH]; intros l3 H3.
  - inversion H3. constructor.
  - inversion H3 as [| b' c l2' l3' Hbc H' E1 E2]; subst.
    constructor; [eauto using conta_preservada_trans | auto].
Qed.

(** X1.  Over any run of registrations, listings, settlements and soft
    deletions, the list of each kind only grows at its end: every
    account of the start is still there, in place, with the same id,
    description, category, amount, due date, partner, notes and
    registration data; an account that was settled is still settled,
    with the same settlement date and user; an account that was
    inactive is still inactive. *)
Theorem nenhuma_operacao_apaga_ou_reescreve
    (ops : list (Relogio * Operacao)) (s : SistemaFinanceiro) (t : Tipo) :
  exists mantidas novas,
    contas t (executar_todas ops s) = (mantidas ++ novas)%list
    /\ Forall2 (conta_preservada t) (contas t s) mantidas.
Proof.
  unfold executar_todas. revert s.
  induction ops as [| [r op] ops IH]; intros s; cbn [fold_left fst snd].
  - exists (contas t s), []. rewrite app_nil_r.
    split; [reflexivity | apply Forall2_refl_preservada].
  - destruct (IH (executar r op s)) as (m2 & n2 & E2 & F2).
    destruct (executar_lista r op s t) as (m1 & n1 & E1 & F1 & _).
    rewrite E1 in F2.
    apply Forall2_app_inv_l in F2 as (m2a & m2b & Fa & Fb & ->).
    exists m2a, (m2b ++ n2)%list. rewrite E2, <- app_assoc.
    split; [reflexivity |].
    eapply Forall2_preservada_trans; eauto using Forall2_apos_preservada.
Qed.
(** ** States reached from a start of the program *)

Lemma executar_forma (r : Relogio) (op : Operacao) (s : SistemaFinanceiro) :
  executar r op s = s
  \/ exists t l, executar r op s = salvar_contas t (set_contas t l s).
Proof.
  destruct op as [t0 parc descr categ v dv obs u | t0 fs fc
                 | t0 cid data u | t0 cid u]; cbn [executar].
  - pose proof (cadastrar_conta_forma t0 r parc descr categ v dv obs u s) as F.
    destruct (cadastro_aceito t0 parc descr categ v dv s).
    + rewrite F. right. cbn [snd]. eauto.
    + destruct F as (e & ->). now left.
  - right. unfold listar_contas. cbn [snd]. eauto.
  - unfold registrar_baixa.
    destruct (registrar_loop t0 r cid data u (contas t0 s)) as [[[] l'] |];
      cbn [snd]; eauto.
  - unfold excluir_conta.
    destruct (excluir_loop cid (contas t0 s)); cbn [snd]; eauto.
Qed.

Lemma executar_todas_inv (P : SistemaFinanceiro -> Prop) :
  (forall r op s, P s -> P (executar r op s)) ->
  forall ops s, P s -> P (executar_todas ops s).
Proof.
  intros Step. unfold executar_todas.
  induction ops as [| [r op] ops IH]; cbn [fold_left fst snd]; auto.
Qed.



(** *** Ids in sequence *)

Lemma prefixo_inj (t : Tipo) (a b : string) :
  prefixo t ++ a = prefixo t ++ b -> a = b.
Proof. destruct t; cbn; congruence. Qed.

Lemma id_de_ordem_inj (t : Tipo) (j k : nat) :
  id_de_ordem t j = id_de_ordem t k -> j = k.
Proof.
  unfold id_de_ordem. intros H. apply prefixo_inj in H.
  apply (f_equal py_int) in H. rewrite !py_int_fmt_03d in H.
  injection H as H. lia.
Qed.

Lemma numeros_de_ordem (t : Tipo) (l : list Conta) :
  forall ks, map id l = map (id_de_ordem t) ks ->
             numeros_de (prefixo t) l = map Z.of_nat ks.
Proof.
  induction l as [| c l IH]; intros [| k ks] H; try discriminate;
    [reflexivity |].
  cbn [map] in H. injection H as Hc Hl.
  cbn [numeros_de map].
  assert (E : startswith (prefixo t) (id c) = true
              /\ slice_from_2 (id c) = fmt_03d (Z.of_nat k)).
  { rewrite Hc. unfold id_de_ordem, startswith.
    destruct t; cbn; split; try reflexivity;
      destruct (fmt_03d (Z.of_nat k)); reflexivity. }
  destruct E as [-> ->]. rewrite py_int_fmt_03d, (IH ks Hl). reflexivity.
Qed.

Lemma py_max_seq (k : nat) :
  forall a, py_max (Z.of_nat a) (map Z.of_nat (seq (S a) k))
            = Z.of_nat (a + k).
Proof.
  unfold py_max.
  induction k as [| k IH]; intros a; cbn [seq map fold_left].
  - f_equal. lia.
  - replace (Z.max (Z.of_nat a) (Z.of_nat (S a))) with (Z.of_nat (S a))
      by lia.
    rewrite IH. f_equal. lia.
Qed.

Lemma proximo_numero_seq (t : Tipo) (l : list Conta) :
  ids_em_sequencia t l ->
  proximo_numero (prefixo t) l = Z.of_nat (S (List.length l)).
Proof.
  unfold ids_em_sequencia, proximo_numero. intros H.
  rewrite (numeros_de_ordem t l _ H).
  destruct (List.length l) as [| n]; [reflexivity |].
  cbn [seq map]. rewrite (py_max_seq n 1). lia.
Qed.

Lemma gerar_id_conta_seq (t : Tipo) (s : SistemaFinanceiro) :
  ids_em_sequencia t (contas t s) ->
  gerar_id_conta t s = id_de_ordem t (S (List.length (contas t s))).
Proof.
  intros H. rewrite gerar_id_conta_eq, (proximo_numero_seq t _ H).
  reflexivity.
Qed.

Lemma Forall2_apos_ids (t : Tipo) (r : Relogio) (l l' : list Conta) :
  Forall2 (conta_apos t r) l l' -> map id l' = map id l.
Proof.
  induction 1 as [| c c' l l' H _ IH]; [reflexivity |].
  cbn [map]. rewrite IH. f_equal.
  apply conta_apos_preservada in H. apply H.
Qed.

Lemma ids_em_sequencia_executar (r : Relogio) (op : Operacao)
    (s : SistemaFinanceiro) (t : Tipo) :
  ids_em_sequencia t (contas t s) ->
  ids_em_sequencia t (contas t (executar r op s)).
Proof.
  intros H.
  destruct (executar_lista r op s t) as (m & n & E & F & N).
  pose proof (Forall2_apos_ids t r _ _ F) as Hid.
  assert (Hlen : List.length m = List.length (contas t s)).
  { apply (f_equal (@List.length _)) in Hid. now rewrite !length_map in Hid. }
  unfold ids_em_sequencia in *. rewrite E.
  destruct N as [-> | (parc & descr & categ & v & dv & obs & u
                       & _ & _ & -> & ->)].
  - rewrite app_nil_r, Hid, Hlen. exact H.
  - rewrite map_app, length_app, H. cbn [map List.length id conta_nova].
    rewrite (gerar_id_conta_seq t s H).
    rewrite Nat.add_1_r, seq_S, map_app. reflexivity.
Qed.

Lemma ids_em_sequencia_run (ops : list (Relogio * Operacao)) (t : Tipo) :
  ids_em_sequencia t (contas t (executar_todas ops (iniciar None None))).
Proof.
  apply (executar_todas_inv (fun s => ids_em_sequencia t (contas t s))).
  - intros r op s. apply ids_em_sequencia_executar.
  - destruct t; reflexivity.
Qed.

Lemma NoDup_map_inj {A B} (f : A -> B) (l : list A) :
  (forall x y, f x = f y -> x = y) -> NoDup l -> NoDup (map f l).
Proof.
  intros Inj. induction 1 as [| x l Hx _ IH]; cbn [map]; constructor; auto.
  intros H. apply in_map_iff in H as (y & E & Hy).
  apply Inj in E. now subst.
Qed.

(** X3.  From a start without files, after any run of operations, the
    ids of each kind are, in the order of the list, the prefix of the
    kind followed by 1, 2, 3, ... printed on three digits at least, one
    per account, soft-deleted accounts included; so no two accounts of
    a kind share an id. *)
Theorem ids_em_sequencia_desde_o_inicio (ops : list (Relogio * Operacao))
    (t : Tipo) :
  let l := contas t (executar_todas ops (iniciar None None)) in
  map id l
  = map (fun k => prefixo t ++ fmt_03d (Z.of_nat k)) (seq 1 (List.length l))
  /\ NoDup (map id l).
Proof.
  cbv zeta. pose proof (ids_em_sequencia_run ops t) as H.
  split; [exact H |].
  rewrite H. apply NoDup_map_inj; [| apply seq_NoDup].
  intros j k. apply id_de_ordem_inj.
Qed.

(** *** Well-formed accounts *)

Lemma calcular_status_vencimento_data (r : Relogio) (data : string) :
  validar_data data = true ->
  In (calcular_status_vencimento r data)
     ["atrasado"; "vencendo_hoje"; "vencendo_em_breve"; "no_prazo"]%string.
Proof.
  unfold validar_data, calcular_status_vencimento.
  destruct (strptime data) as [d |]; [intros _ | discriminate].
  destruct (date_ltb d (hoje r)); [cbn; tauto |].
  destruct (date_eqb d (hoje r)); [cbn; tauto |].
  destruct (_ <=? 7); cbn; tauto.
Qed.

Lemma conta_apos_bem_formada (t : Tipo) (r : Relogio) (c c' : Conta) :
  conta_bem_formada t c -> conta_apos t r c c' -> conta_bem_formada t c'.
Proof.
  intros (B1 & B2 & B3 & B4 & B5 & B6 & B7 & B8).
  intros [-> | [-> | [(d & u & -> & Hs & Hd) | ->]]].
  - repeat split; assumption.
  - unfold atualizar. destruct (conta_ativo c);
      [| repeat split; assumption].
    unfold conta_bem_formada, com_status_vencimento.
    cbn [status data_baixa usuario_baixa data_vencimento valor descricao
         categoria parceiro status_vencimento ativo].
    repeat (split; [assumption |]). split; [| assumption].
    pose proof (calcular_status_vencimento_data r _ B2) as H.
    cbn [In] in *. tauto.
  - unfold conta_bem_formada, baixar.
    cbn [status data_baixa usuario_baixa data_vencimento valor descricao
         categoria parceiro status_vencimento ativo].
    split; [right; split; [reflexivity | eauto] |].
    repeat (split; [assumption |]). split; [| assumption].
    cbn [In]. tauto.
  - unfold conta_bem_formada, desativar.
    cbn [status data_baixa usuario_baixa data_vencimento valor descricao
         categoria parceiro status_vencimento ativo].
    repeat (split; [assumption |]). eauto.
Qed.

Lemma conta_nova_bem_formada (t : Tipo) (r : Relogio)
    (parc descr categ : string) (v : float) (dv obs u : string)
    (s : SistemaFinanceiro) :
  categorias_pagar s = categorias_padrao_pagar ->
  categorias_receber s = categorias_padrao_receber ->
  cadastro_aceito t parc descr categ v dv s = true ->
  conta_bem_formada t (conta_nova t r parc descr categ v dv obs u s).
Proof.
  intros Kp Kr H. unfold cadastro_aceito in H.
  repeat (apply andb_prop in H as [H ?]).
  unfold conta_bem_formada, conta_nova.
  cbn [status data_baixa usuario_baixa data_vencimento valor descricao
       categoria parceiro status_vencimento ativo].
  split; [left; auto |]. split; [assumption |].
  split; [now apply negb_true_iff |]. split; [assumption |].
  split; [destruct t; cbn [categorias] in *; congruence |].
  split; [intros ->; assumption |].
  split; [| eauto].
  pose proof (calcular_status_vencimento_data r dv ltac:(assumption)) as G.
  cbn [In] in *. tauto.
Qed.

Lemma categorias_executar (r : Relogio) (op : Operacao)
    (s : SistemaFinanceiro) :
  categorias_pagar (executar r op s) = categorias_pagar s
  /\ categorias_receber (executar r op s) = categorias_receber s.
Proof.
  destruct (executar_forma r op s) as [-> | (t & l & ->)]; [auto |].
  destruct t; auto.
Qed.

Lemma Forall2_apos_bem_formada (t : Tipo) (r : Relogio) (l l' : list Conta) :
  Forall2 (conta_apos t r) l l' ->
  Forall (conta_bem_formada t) l -> Forall (conta_bem_formada t) l'.
Proof.
  induction 1 as [| c c' l l' H _ IH]; intros F; [constructor |].
  inversion F; subst. constructor; eauto using conta_apos_bem_formada.
Qed.

(** X4.  From a start without files, after any run of operations, every
    account of either list is well formed: pending without settlement
    data, or settled with a settlement date that is a date and a
    settling user; with a due date that is a date, an amount that is
    not [<= 0], a description, a default category of its kind, a client
    when it is a receivable, a due status that is never
    ["data_invalida"], and the key ["ativo"]. *)
Theorem contas_bem_formadas (ops : list (Relogio * Operacao)) (t : Tipo) :
  Forall (conta_bem_formada t)
         (contas t (executar_todas ops (iniciar None None))).
Proof.
  apply (executar_todas_inv
           (fun s => categorias_pagar s = categorias_padrao_pagar
                     /\ categorias_receber s = categorias_padrao_receber
                     /\ Forall (conta_bem_formada t) (contas t s))).
  - intros r op s (Kp & Kr & F).
    destruct (categorias_executar r op s) as [-> ->].
    split; [assumption |]. split; [assumption |].
    destruct (executar_lista r op s t) as (m & n & E & F2 & N).
    rewrite E. apply Forall_app. split.
    + eapply Forall2_apos_bem_formada; eauto.
    + destruct N as [-> | (parc & descr & categ & v & dv & obs & u
                           & _ & Ha & _ & ->)]; constructor; [| constructor].
      now apply conta_nova_bem_formada.
  - split; [reflexivity |]. split; [reflexivity |].
    destruct t; constructor.
Qed.
(** ** What a settlement and a soft deletion change *)

Lemma registrar_loop_app (t : Tipo) (r : Relogio) (conta_id : string)
    (data : option string) (usuario : string) (a l : list Conta) :
  (forall c0, In c0 a -> portadora conta_id c0 = false) ->
  registrar_loop t r conta_id data usuario (a ++ l)
  = match registrar_loop t r conta_id data usuario l with
    | Some (x, l') => Some (x, (a ++ l')%list)
    | None => None
    end.
Proof.
  induction a as [| c a IH]; intros H.
  - cbn [app]. destruct (registrar_loop _ _ _ _ _ l) as [[x l'] |]; reflexivity.
  - cbn [app registrar_loop]. fold (portadora conta_id c).
    rewrite (H c (or_introl eq_refl)).
    rewrite IH by (intros c0 H0; apply H; now right).
    destruct (registrar_loop _ _ _ _ _ l) as [[x l'] |]; reflexivity.
Qed.

Lemma nao_portadora (conta_id : string) (c : Conta) :
  portadora conta_id c = false <-> (id c = conta_id -> conta_ativo c = false).
Proof.
  unfold portadora. destruct (String.eqb_spec (id c) conta_id) as [E | E];
    cbn [andb]; split; auto; congruence.
Qed.

Lemma nao_portadoras (conta_id : string) (l : list Conta) :
  (forall c, In c l -> portadora conta_id c = false)
  <-> (forall c, In c l -> id c = conta_id -> conta_ativo c = false).
Proof.
  split; intros H c Hc; apply nao_portadora; auto.
Qed.

Lemma registrar_baixa_forma (t : Tipo) (r : Relogio) (conta_id : string)
    (data : option string) (usuario : string) (s s' : SistemaFinanceiro) :
  registrar_baixa t r conta_id data usuario s = (Sucesso, s') ->
  exists a c b,
    contas t s = (a ++ c :: b)%list
    /\ (forall c0, In c0 a -> portadora conta_id c0 = false)
    /\ portadora conta_id c = true
    /\ status c <> status_baixado t
    /\ validar_data (data_efetiva r data) = true
    /\ s' = salvar_contas t
              (set_contas t
                 (a ++ baixar t (data_efetiva r data) usuario c :: b)%list s).
Proof.
  unfold registrar_baixa.
  pose proof (registrar_loop_resultado t r conta_id data usuario (contas t s))
    as R.
  destruct (registrar_loop t r conta_id data usuario (contas t s))
    as [[x l'] |]; [| discriminate].
  destruct x; [| discriminate]. intros [= <-].
  destruct R as (a & c & b & E & Ha & Hc & Hx).
  destruct Hx as [(H & _) | [(H & _) | (_ & El & Hs & Hv)]];
    try discriminate.
  exists a, c, b. rewrite El. auto 10.
Qed.

(** X5.  A settlement that succeeds settles the first active account
    bearing the id, which was not settled: it gets the settled status,
    the settlement date (the one given, or today's) which is a date, and
    the user; every other account, the other list and the other file
    are as before, and the file of the kind holds the new list.  In
    the state the call leaves, a further settlement of that id fails as
    already settled, whatever the date, and changes nothing. *)
Theorem registrar_baixa_efeito (t : Tipo) (r : Relogio) (conta_id : string)
    (data : option string) (usuario : string) (s s' : SistemaFinanceiro) :
  registrar_baixa t r conta_id data usuario s = (Sucesso, s') ->
  exists antes c depois,
    contas t s = (antes ++ c :: depois)%list
    /\ (forall c0, In c0 antes -> id c0 = conta_id -> conta_ativo c0 = false)
    /\ id c = conta_id /\ conta_ativo c = true
    /\ status c <> status_baixado t
    /\ validar_data (data_efetiva r data) = true
    /\ contas t s'
       = (antes ++ baixar t (data_efetiva r data) usuario c :: depois)%list
    /\ arquivo t s' = Some (contas t s')
    /\ contas (outro t) s' = contas (outro t) s
    /\ arquivo (outro t) s' = arquivo (outro t) s
    /\ (forall r2 data2 usuario2,
          registrar_baixa t r2 conta_id data2 usuario2 s'
          = (Falha ContaJaBaixada, s')).
Proof.
  intros H.
  destruct (registrar_baixa_forma _ _ _ _ _ _ _ H)
    as (a & c & b & E & Ha & Hp & Hs & Hv & ->).
  pose proof Hp as Hc. apply portadora_spec in Hc as [Hid Hat].
  set (l' := (a ++ baixar t (data_efetiva r data) usuario c :: b)%list).
  destruct (contas_salvar_set t l' s) as [C1 C2].
  destruct (salvar_set_outro t l' s) as (O1 & O2 & _).
  exists a, c, b. rewrite C1, C2, O1, O2.
  split; [assumption |]. split; [now apply nao_portadoras |].
  repeat (split; [assumption || reflexivity |]).
  intros r2 data2 usuario2. unfold registrar_baixa. rewrite C1. unfold l'.
  rewrite registrar_loop_app by assumption.
  cbn [registrar_loop].
  change (String.eqb (id (baixar t (data_efetiva r data) usuario c)) conta_id
          && conta_ativo (baixar t (data_efetiva r data) usuario c))
    with (portadora conta_id c).
  rewrite Hp. cbn [status baixar]. rewrite String.eqb_refl.
  reflexivity.
Qed.

Lemma filter_ativo_meio (a b : list Conta) (c : Conta) :
  conta_ativo c = true ->
  List.length (filter conta_ativo (a ++ c :: b))
  = S (List.length (filter conta_ativo (a ++ desativar c :: b))).
Proof.
  intros H. rewrite !filter_app, !length_app. cbn [filter].
  rewrite H. cbn [conta_ativo desativar ativo List.length]. lia.
Qed.

Lemma NoDup_ids_meio (a b : list Conta) (c : Conta) :
  NoDup (map id (a ++ c :: b)) ->
  forall c0, In c0 a \/ In c0 b -> id c0 <> id c.
Proof.
  rewrite map_app. cbn [map]. intros H c0 Hc0 E.
  apply NoDup_remove_2 in H. apply H. rewrite <- E.
  apply in_or_app. destruct Hc0; [left | right]; now apply in_map.
Qed.

(** X6.  A soft deletion that succeeds deactivates the first active
    account bearing the id and nothing else: the list keeps its
    accounts in place, one fewer is active, the other list and the
    other file are as before, and the file of the kind holds the new
    list.  When the ids of the list are distinct, no active account
    bears the id afterwards, and a further deletion and a settlement of
    that id both fail as an unknown account and change nothing. *)
Theorem excluir_conta_efeito (t : Tipo) (conta_id usuario : string)
    (s s' : SistemaFinanceiro) :
  excluir_conta t conta_id usuario s = (Sucesso, s') ->
  exists antes c depois,
    contas t s = (antes ++ c :: depois)%list
    /\ (forall c0, In c0 antes -> id c0 = conta_id -> conta_ativo c0 = false)
    /\ id c = conta_id /\ conta_ativo c = true
    /\ contas t s' = (antes ++ desativar c :: depois)%list
    /\ arquivo t s' = Some (contas t s')
    /\ contas (outro t) s' = contas (outro t) s
    /\ arquivo (outro t) s' = arquivo (outro t) s
    /\ List.length (filter conta_ativo (contas t s))
       = S (List.length (filter conta_ativo (contas t s')))
    /\ (NoDup (map id (contas t s)) ->
        (forall c0, In c0 (contas t s') -> id c0 = conta_id ->
                    conta_ativo c0 = false)
        /\ (forall usuario2,
              excluir_conta t conta_id usuario2 s'
              = (Falha ContaNaoEncontrada, s'))
        /\ (forall r2 data2 usuario2,
              registrar_baixa t r2 conta_id data2 usuario2 s'
              = (Falha ContaNaoEncontrada, s'))).
Proof.
  unfold excluir_conta at 1.
  pose proof (excluir_loop_resultado conta_id (contas t s)) as R.
  destruct (excluir_loop conta_id (contas t s)) as [l' |]; [| discriminate].
  intros [= <-].
  destruct R as (a & c & b & E & Ha & Hc & El).
  apply portadora_spec in Hc as [Hid Hat].
  destruct (contas_salvar_set t l' s) as [C1 C2].
  destruct (salvar_set_outro t l' s) as (O1 & O2 & _).
  exists a, c, b. rewrite C1, C2, O1, O2, <- El.
  split; [assumption |]. split; [now apply nao_portadoras |].
  repeat (split; [assumption || reflexivity |]).
  split; [rewrite E, El; now apply filter_ativo_meio |].
  intros ND. rewrite E in ND.
  assert (Hin : forall c0, In c0 l' -> id c0 = conta_id ->
                           conta_ativo c0 = false).
  { intros c0 Hc0 E0. rewrite El in Hc0.
    apply in_app_or in Hc0 as [H0 | [<- | H0]].
    - apply (proj1 (nao_portadoras conta_id a) Ha); assumption.
    - reflexivity.
    - destruct (NoDup_ids_meio a b c ND c0 (or_intror H0)). congruence. }
  split; [assumption |]. split.
  - intros usuario2. unfold excluir_conta. rewrite C1.
    now rewrite (excluir_loop_inativa conta_id l' Hin).
  - intros r2 data2 usuario2. unfold registrar_baixa. rewrite C1.
    now rewrite (registrar_loop_inativa t r2 conta_id data2 usuario2 l' Hin).
Qed.

(** ** A registered account in listings and searches *)

Lemma prefix_refl (a : string) : String.prefix a a = true.
Proof.
  induction a as [| c a IH]; cbn; [reflexivity |].
  destruct (Ascii.ascii_dec c c); [assumption | contradiction].
Qed.

Lemma contains_refl (a : string) : contains a a = true.
Proof. destruct a; cbn [contains]; rewrite prefix_refl; reflexivity. Qed.

(** X7.  After a registration that succeeds, a listing of the kind, at
    any clock reading and under any filters that the pending status and
    the category pass, returns the account with the attributes given,
    pending, with the due status of the listing's day, and returns no
    other account under that id; and the search for the id finds the
    account as registered. *)
Theorem cadastrar_conta_aparece (lower : string -> string) (t : Tipo)
    (r : Relogio) (parc descr categ : string) (v : float)
    (data_venc obs usuario : string) (s s' : SistemaFinanceiro)
    (novo : string) :
  cadastrar_conta t r parc descr categ v data_venc obs usuario s
  = (inr novo, s') ->
  In (mkConta novo descr categ v data_venc "pendente"
              (calcular_status_vencimento r data_venc) parc obs (agora_str r)
              usuario None None (Some true))
     (buscar_conta lower t novo s')
  /\ (forall r2 filtro_status filtro_categoria,
        passa_filtro filtro_status "pendente" = true ->
        passa_filtro filtro_categoria categ = true ->
        let listadas :=
          fst (listar_contas t r2 filtro_status filtro_categoria s') in
        let c := mkConta novo descr categ v data_venc "pendente"
                         (calcular_status_vencimento r2 data_venc) parc obs
                         (agora_str r) usuario None None (Some true) in
        In c listadas
        /\ forall c', In c' listadas -> id c' = novo -> c' = c).
Proof.
  intros H.
  destruct (cadastrar_conta_numero _ _ _ _ _ _ _ _ _ _ _ _ H)
    as (n & conta & _ & _ & _ & _ & _ & _ & Hnovo).
  apply cadastrar_conta_ok in H as [Hid ->].
  destruct (contas_salvar_set t
              (contas t s ++
               [mkConta novo descr categ v data_venc "pendente"
                  (calcular_status_vencimento r data_venc) parc obs
                  (agora_str r) usuario None None (Some true)]) s)
    as [C1 _].
  split.
  - unfold buscar_conta. rewrite C1. apply filter_In. split.
    + apply in_or_app. right. now left.
    + cbn [conta_ativo ativo id andb]. now rewrite contains_refl.
  - intros r2 fs fc Hs Hc. cbv zeta.
    unfold listar_contas. cbn [fst]. rewrite C1, map_app. cbn [map].
    split.
    + apply sorted_by_In, filter_In. split.
      * apply in_or_app. right. now left.
      * cbn. now rewrite Hs, Hc.
    + intros c' Hc' E. apply sorted_by_In, filter_In in Hc' as [Hc' _].
      apply in_app_or in Hc' as [Hc' | [<- | []]]; [| reflexivity].
      apply in_map_iff in Hc' as (c0 & <- & H0).
      destruct (Hnovo c0 H0). rewrite <- E.
      unfold atualizar. destruct (conta_ativo c0); reflexivity.
Qed.
(** ** The order of a listing *)

Lemma str_ltb_asym (a b : string) : str_ltb a b = true -> str_ltb b a = false.
Proof.
  unfold str_ltb. rewrite (String.compare_antisym a b).
  destruct (String.compare b a); cbn; congruence.
Qed.

Lemma str_ltb_irrefl (a : string) : str_ltb a a = false.
Proof.
  destruct (str_ltb a a) eqn:E; [| reflexivity].
  pose proof (str_ltb_asym a a E). congruence.
Qed.

Lemma ordenada_por_cons {A} (key : A -> string) (x y : A) (l : list A) :
  ordenada_por key (x :: y :: l)
  = negb (str_ltb (key y) (key x)) && ordenada_por key (y :: l).
Proof. reflexivity. Qed.

Lemma insert_by_ordenada {A} (key : A -> string) (x : A) (l : list A) :
  ordenada_por key l = true -> ordenada_por key (insert_by key x l) = true.
Proof.
  induction l as [| y l IH]; [reflexivity |].
  intros H. cbn [insert_by].
  destruct (str_ltb (key y) (key x)) eqn:E.
  - assert (Hl : ordenada_por key l = true).
    { destruct l; [reflexivity |]. rewrite ordenada_por_cons in H.
      now apply andb_prop in H. }
    specialize (IH Hl).
    destruct l as [| z l].
    + cbn [insert_by]. rewrite ordenada_por_cons.
      now rewrite (str_ltb_asym _ _ E).
    + cbn [insert_by] in *.
      rewrite ordenada_por_cons in H. apply andb_prop in H as [Hyz _].
      destruct (str_ltb (key z) (key x)).
      * rewrite ordenada_por_cons, Hyz. exact IH.
      * rewrite ordenada_por_cons, (str_ltb_asym _ _ E). exact IH.
  - rewrite ordenada_por_cons, E. exact H.
Qed.

Lemma sorted_by_ordenada {A} (key : A -> string) (l : list A) :
  ordenada_por key (sorted_by key l) = true.
Proof.
  unfold sorted_by. induction l as [| x l IH]; [reflexivity |].
  cbn [fold_right]. now apply insert_by_ordenada.
Qed.

Lemma insert_by_com_chave {A} (key : A -> string) (k : string) (x : A)
    (l : list A) :
  com_chave key k (insert_by key x l) = com_chave key k (x :: l).
Proof.
  unfold com_chave. induction l as [| y l IH]; [reflexivity |].
  cbn [insert_by]. destruct (str_ltb (key y) (key x)) eqn:E; [| reflexivity].
  cbn [filter] in *. rewrite IH.
  destruct (String.eqb_spec (key x) k) as [Ex | Ex]; [| reflexivity].
  destruct (String.eqb_spec (key y) k) as [Ey | Ey]; [| reflexivity].
  rewrite Ex, Ey, str_ltb_irrefl in E. discriminate.
Qed.

Lemma sorted_by_com_chave {A} (key : A -> string) (k : string) (l : list A) :
  com_chave key k (sorted_by key l) = com_chave key k l.
Proof.
  unfold sorted_by. induction l as [| x l IH]; [reflexivity |].
  cbn [fold_right]. rewrite insert_by_com_chave.
  unfold com_chave in *. cbn [filter]. now rewrite IH.
Qed.

Lemma insert_by_length {A} (key : A -> string) (x : A) (l : list A) :
  List.length (insert_by key x l) = S (List.length l).
Proof.
  induction l as [| y l IH]; [reflexivity |]. cbn [insert_by].
  destruct (str_ltb (key y) (key x)); cbn [List.length]; congruence.
Qed.

Lemma sorted_by_length {A} (key : A -> string) (l : list A) :
  List.length (sorted_by key l) = List.length l.
Proof.
  unfold sorted_by. induction l as [| x l IH]; [reflexivity |].
  cbn [fold_right List.length]. now rewrite insert_by_length, IH.
Qed.

Lemma atualizar_campos (r : Relogio) (c : Conta) :
  conta_ativo (atualizar r c) = conta_ativo c
  /\ status (atualizar r c) = status c
  /\ categoria (atualizar r c) = categoria c
  /\ data_vencimento (atualizar r c) = data_vencimento c.
Proof. unfold atualizar. destruct (conta_ativo c) eqn:E; auto. Qed.

Lemma filter_map_atualizar (r : Relogio) (p : Conta -> bool)
    (l : list Conta) :
  (forall c, p (atualizar r c) = p c) ->
  filter p (map (atualizar r) l) = map (atualizar r) (filter p l).
Proof.
  intros H. induction l as [| c l IH]; [reflexivity |].
  cbn [map filter]. rewrite H. destruct (p c); cbn [map]; now rewrite IH.
Qed.

(** X8.  A listing returns, with the due status of the listing's day,
    the active accounts of the list that pass the two filters, each
    once, ordered by the text of the due date, the accounts of one due
    date in the order of the list. *)
Theorem listar_contas_ordenada (t : Tipo) (r : Relogio)
    (filtro_status filtro_categoria : option string)
    (s : SistemaFinanceiro) :
  let listadas := fst (listar_contas t r filtro_status filtro_categoria s) in
  let escolhidas :=
    filter (fun c => conta_ativo c
                     && passa_filtro filtro_status (status c)
                     && passa_filtro filtro_categoria (categoria c))
           (contas t s) in
  ordenada_por data_vencimento listadas = true
  /\ List.length listadas = List.length escolhidas
  /\ (forall venc,
        com_chave data_vencimento venc listadas
        = map (com_status_vencimento (calcular_status_vencimento r venc))
              (com_chave data_vencimento venc escolhidas))
  /\ (forall c, In c listadas ->
                status_vencimento c
                = calcular_status_vencimento r (data_vencimento c)).
Proof.
  cbv zeta. unfold listar_contas. cbn [fst].
  rewrite (filter_map_atualizar r
             (fun c => conta_ativo c
                       && passa_filtro filtro_status (status c)
                       && passa_filtro filtro_categoria (categoria c))).
  2: { intros c. destruct (atualizar_campos r c) as (-> & -> & -> & _).
       reflexivity. }
  split; [apply sorted_by_ordenada |].
  split; [now rewrite sorted_by_length, length_map |].
  split.
  - intros venc. rewrite sorted_by_com_chave. unfold com_chave.
    rewrite (filter_map_atualizar r
               (fun c => String.eqb (data_vencimento c) venc)).
    2: { intros c. destruct (atualizar_campos r c) as (_ & _ & _ & ->).
         reflexivity. }
    induction (contas t s) as [| c l IH]; [reflexivity |].
    cbn [filter].
    destruct (conta_ativo c
              && passa_filtro filtro_status (status c)
              && passa_filtro filtro_categoria (categoria c)) eqn:Ep;
      [| exact IH].
    cbn [filter].
    destruct (String.eqb_spec (data_vencimento c) venc) as [E | E];
      [| exact IH].
    cbn [map]. rewrite IH. f_equal.
    apply andb_prop in Ep as [Ep _]. apply andb_prop in Ep as [Ea _].
    unfold atualizar. now rewrite Ea, E.
  - intros c Hc. apply sorted_by_In, in_map_iff in Hc as (c0 & <- & H0).
    apply filter_In in H0 as [_ H0].
    apply andb_prop in H0 as [H0 _]. apply andb_prop in H0 as [H0 _].
    unfold atualizar. rewrite H0. reflexivity.
Qed.

Lemma atualizar_idem (r : Relogio) (c : Conta) :
  atualizar r (atualizar r c) = atualizar r c.
Proof.
  unfold atualizar. destruct (conta_ativo c) eqn:E; [| now rewrite E].
  change (conta_ativo (com_status_vencimento
                         (calcular_status_vencimento r (data_vencimento c)) c))
    with (conta_ativo c).
  rewrite E. reflexivity.
Qed.

(** X9.  A listing changes nothing that a listing at the same clock
    reading returns or leaves: after it, any listing of the kind gives
    the accounts it gives without it, and the state it leaves is the
    state the first one left. *)
Theorem listar_contas_repetida (t : Tipo) (r : Relogio)
    (fs1 fc1 fs2 fc2 : option string) (s : SistemaFinanceiro) :
  let s1 := snd (listar_contas t r fs1 fc1 s) in
  fst (listar_contas t r fs2 fc2 s1) = fst (listar_contas t r fs2 fc2 s)
  /\ snd (listar_contas t r fs2 fc2 s1) = s1.
Proof.
  cbv zeta. unfold listar_contas. cbn [fst snd].
  destruct (contas_salvar_set t (map (atualizar r) (contas t s)) s)
    as [C _].
  rewrite C, map_map.
  rewrite (map_ext _ _ (atualizar_idem r)).
  split; [reflexivity |].
  destruct t, s; reflexivity.
Qed.
(** ** Alerts and due statuses *)

Import Alertas.

Lemma passo_alerta_status (t : Tipo) (r : Relogio) (al : Alertas)
    (c : Conta) :
  valid (hoje r) ->
  let p st := conta_ativo c
              && negb (String.eqb (status c) (status_baixado t))
              && String.eqb (calcular_status_vencimento r (data_vencimento c))
                            st in
  let mais (st : string) (l : list (Tipo * Conta)) :=
    if p st then (l ++ [(t, c)])%list else l in
  passo_alerta t r al c
  = mkAlertas (mais "vencendo_hoje" (vencendo_hoje al))
              (mais "vencendo_em_breve" (vencendo_em_7_dias al))
              (mais "atrasado" (atrasadas al)).
Proof.
  intros Hhoje. apply valid_well_formed in Hhoje. cbv zeta.
  unfold passo_alerta.
  destruct (conta_ativo c); cbn [negb orb andb]; [| now destruct al].
  destruct (String.eqb (status c) (status_baixado t)); cbn [negb andb];
    [now destruct al |].
  unfold calcular_status_vencimento.
  destruct (strptime (data_vencimento c)) as [d |] eqn:Ed;
    [| now destruct al].
  pose proof (strptime_well_formed _ _ Ed) as Hd.
  unfold date_ltb, date_eqb, days_between.
  rewrite (date_cmp_toordinal d (hoje r) Hd Hhoje).
  destruct (Z.compare_spec (toordinal d) (toordinal (hoje r)))
    as [He | Hl | Hg].
  - replace (toordinal d - toordinal (hoje r) =? 0) with true
      by (symmetry; apply Z.eqb_eq; lia).
    reflexivity.
  - replace (toordinal d - toordinal (hoje r) =? 0) with false
      by (symmetry; apply Z.eqb_neq; lia).
    replace (toordinal d - toordinal (hoje r) <? 0) with true
      by (symmetry; apply Z.ltb_lt; lia).
    reflexivity.
  - replace (toordinal d - toordinal (hoje r) =? 0) with false
      by (symmetry; apply Z.eqb_neq; lia).
    replace (toordinal d - toordinal (hoje r) <? 0) with false
      by (symmetry; apply Z.ltb_ge; lia).
    destruct (toordinal d - toordinal (hoje r) <=? 7);
      [reflexivity | now destruct al].
Qed.

Lemma fold_passo_alerta (t : Tipo) (r : Relogio) (l : list Conta) :
  valid (hoje r) ->
  forall al,
    let de st :=
      map (pair t)
        (filter (fun c => conta_ativo c
                          && negb (String.eqb (status c) (status_baixado t))
                          && String.eqb
                               (calcular_status_vencimento r
                                  (data_vencimento c)) st) l) in
    fold_left (passo_alerta t r) l al
    = mkAlertas (vencendo_hoje al ++ de "vencendo_hoje"%string)
                (vencendo_em_7_dias al ++ de "vencendo_em_breve"%string)
                (atrasadas al ++ de "atrasado"%string).
Proof.
  intros Hhoje. cbv zeta.
  induction l as [| c l IH]; intros al.
  - cbn [fold_left filter map]. rewrite !app_nil_r. now destruct al.
  - cbn [fold_left filter]. rewrite IH.
    rewrite (passo_alerta_status t r al c Hhoje). cbv zeta.
    cbn [vencendo_hoje vencendo_em_7_dias atrasadas].
    f_equal;
      match goal with
      | |- context [if ?b then _ else _] => destruct b
      end; cbn [map]; rewrite <- ?app_assoc; reflexivity.
Qed.

(** X10.  With a clock that gives a real date, each list of alerts
    holds the payables and then the receivables, in the order of their
    lists, that are active and not settled and whose due date has today
    the due status of the list: ["vencendo_hoje"], ["vencendo_em_breve"]
    for the list of seven days, ["atrasado"].  An account whose due
    date is further away or is no date is in no list. *)
Theorem alertas_conforme_status (r : Relogio) (s : SistemaFinanceiro) :
  valid (hoje r) ->
  let al := obter_alertas_vencimento r s in
  vencendo_hoje al
  = (a_vencer r "vencendo_hoje" Pagar s
     ++ a_vencer r "vencendo_hoje" Receber s)%list
  /\ vencendo_em_7_dias al
     = (a_vencer r "vencendo_em_breve" Pagar s
        ++ a_vencer r "vencendo_em_breve" Receber s)%list
  /\ atrasadas al
     = (a_vencer r "atrasado" Pagar s ++ a_vencer r "atrasado" Receber s)%list.
Proof.
  intros Hhoje. cbv zeta. unfold obter_alertas_vencimento.
  rewrite (fold_passo_alerta Pagar r (contas_pagar s) Hhoje).
  rewrite (fold_passo_alerta Receber r (contas_receber s) Hhoje).
  cbv zeta. cbn [vencendo_hoje vencendo_em_7_dias atrasadas app].
  repeat split.
Qed.
(** ** The flows of a period and of a day *)

Lemma date_leb_toordinal (a b : date) :
  well_formed a -> well_formed b ->
  date_leb a b = true <-> toordinal a <= toordinal b.
Proof.
  intros Ha Hb. unfold date_leb. rewrite (date_cmp_toordinal a b Ha Hb).
  destruct (Z.compare_spec (toordinal a) (toordinal b)); split;
    intros; try lia; try reflexivity; discriminate.
Qed.

Lemma date_leb_refl (d : date) : date_leb d d = true.
Proof.
  unfold date_leb, date_cmp. rewrite !Z.compare_refl. reflexivity.
Qed.

Lemma movimento_periodo_total_finito (t : Tipo) (ini fim : date)
    (l : list Conta) :
  forallb (fun c => Float64.is_finite (valor c)) l = true ->
  finito (snd (movimento_periodo t ini fim l)) = true.
Proof.
  intros H. unfold movimento_periodo.
  now apply movimento_periodo_finito.
Qed.

(** The period flow between two dates in order, on finite amounts. *)
Lemma fluxo_caixa_periodo_finito (data_inicio data_fim : string)
    (s : SistemaFinanceiro) (ini fim : date) :
  strptime data_inicio = Some ini -> strptime data_fim = Some fim ->
  toordinal ini <= toordinal fim ->
  valores_finitos s = true ->
  exists fp,
    fluxo_caixa_periodo data_inicio data_fim s = Ok fp
    /\ fp_data_inicio fp = data_inicio /\ fp_data_fim fp = data_fim
    /\ transacoes (fp_entradas fp)
       = filter (baixada_entre Receber ini fim) (contas_receber s)
    /\ transacoes (fp_saidas fp)
       = filter (baixada_entre Pagar ini fim) (contas_pagar s)
    /\ quantidade (fp_entradas fp) = List.length (transacoes (fp_entradas fp))
    /\ quantidade (fp_saidas fp) = List.length (transacoes (fp_saidas fp)).
Proof.
  intros Hi Hf Hle Hfin.
  pose proof (strptime_well_formed _ _ Hi) as Wi.
  pose proof (strptime_well_formed _ _ Hf) as Wf.
  destruct (valores_finitos_split s Hfin) as [Fp Fr].
  unfold fluxo_caixa_periodo. rewrite Hi, Hf.
  assert (Elt : date_ltb fim ini = false).
  { unfold date_ltb. rewrite (date_cmp_toordinal fim ini Wf Wi).
    destruct (Z.compare_spec (toordinal fim) (toordinal ini));
      try reflexivity; lia. }
  rewrite Elt.
  pose proof (movimento_periodo_transacoes Receber ini fim (contas_receber s))
    as Te.
  pose proof (movimento_periodo_transacoes Pagar ini fim (contas_pagar s))
    as Ts.
  pose proof (movimento_periodo_total_finito Receber ini fim _ Fr) as Ne.
  pose proof (movimento_periodo_total_finito Pagar ini fim _ Fp) as Ns.
  destruct (movimento_periodo Receber ini fim (contas_receber s))
    as [entradas total_entradas].
  destruct (movimento_periodo Pagar ini fim (contas_pagar s))
    as [saidas total_saidas].
  cbn [fst snd] in *.
  destruct (sub_finito total_entradas total_saidas Ne Ns) as (sd & -> & _).
  eexists. split; [reflexivity |].
  cbn [fp_data_inicio fp_data_fim fp_entradas fp_saidas mk_movimento
       transacoes quantidade].
  repeat (split; [reflexivity || assumption |]). reflexivity.
Qed.

(** X11.  For two texts that are dates, the first not after the second,
    and amounts that are finite numbers, [fluxo_caixa_periodo] returns a
    flow under the two texts: its inflows are the active receivables of
    status ["recebido"], and its outflows the active payables of status
    ["pago"], whose settlement date is a date from the first day to the
    last, both included, in the order of their lists; an account whose
    settlement date is missing or is no date is left out; the
    quantities are the lengths of the two lists. *)
Theorem fluxo_caixa_periodo_conteudo (data_inicio data_fim : string)
    (s : SistemaFinanceiro) (ini fim : date) :
  strptime data_inicio = Some ini -> strptime data_fim = Some fim ->
  toordinal ini <= toordinal fim ->
  valores_finitos s = true ->
  exists fp,
    fluxo_caixa_periodo data_inicio data_fim s = Ok fp
    /\ fp_data_inicio fp = data_inicio /\ fp_data_fim fp = data_fim
    /\ transacoes (fp_entradas fp)
       = filter (baixada_entre Receber ini fim) (contas_receber s)
    /\ transacoes (fp_saidas fp)
       = filter (baixada_entre Pagar ini fim) (contas_pagar s)
    /\ quantidade (fp_entradas fp) = List.length (transacoes (fp_entradas fp))
    /\ quantidade (fp_saidas fp) = List.length (transacoes (fp_saidas fp))
    /\ (forall t c,
          baixada_entre t ini fim c = true <->
          conta_ativo c = true /\ status c = status_baixado t
          /\ exists txt d, data_baixa c = Some txt /\ strptime txt = Some d
                           /\ toordinal ini <= toordinal d <= toordinal fim).
Proof.
  intros Hi Hf Hle Hfin.
  pose proof (strptime_well_formed _ _ Hi) as Wi.
  pose proof (strptime_well_formed _ _ Hf) as Wf.
  destruct (fluxo_caixa_periodo_finito _ _ s ini fim Hi Hf Hle Hfin)
    as (fp & H1 & H2 & H3 & H4 & H5 & H6 & H7).
  exists fp. repeat (split; [assumption |]).
  intros t c. rewrite baixada_entre_spec. split.
  - intros (G1 & G2 & txt & d & G3 & G4 & G5 & G6).
    pose proof (strptime_well_formed _ _ G4) as Wd.
    apply (date_leb_toordinal ini d Wi Wd) in G5.
    apply (date_leb_toordinal d fim Wd Wf) in G6.
    eauto 10.
  - intros (G1 & G2 & txt & d & G3 & G4 & G5 & G6).
    pose proof (strptime_well_formed _ _ G4) as Wd.
    apply (date_leb_toordinal ini d Wi Wd) in G5.
    apply (date_leb_toordinal d fim Wd Wf) in G6.
    eauto 10.
Qed.

Lemma acumular_finito (l : list decimal) :
  forallb finito l = true ->
  forall tot, finito tot = true ->
              exists tot', acumular l tot = Some tot' /\ finito tot' = true.
Proof.
  induction l as [| v l IH]; intros H tot Ht.
  - exists tot. split; [reflexivity | assumption].
  - cbn [forallb] in H. apply andb_prop in H as [Hv Hl].
    rewrite acumular_cons.
    destruct (add_finito tot v Ht Hv) as (d & -> & Hd). now apply IH.
Qed.

Lemma decimais_finitos (p : Conta -> bool) (l : list Conta) :
  forallb (fun c => Float64.is_finite (valor c)) l = true ->
  forallb finito (map decimal_valor (filter p l)) = true.
Proof.
  induction l as [| c l IH]; [reflexivity |]. cbn [forallb filter].
  intros H. apply andb_prop in H as [Hc Hl].
  destruct (p c); [| auto]. cbn [map forallb].
  now rewrite (decimal_valor_finito c Hc), IH.
Qed.

Lemma movimento_dia_finito (t : Tipo) (data : string) (l : list Conta) :
  forallb (fun c => Float64.is_finite (valor c)) l = true ->
  exists tot,
    movimento_dia t data l = Some (filter (baixada_no_dia t data) l, tot)
    /\ finito tot = true.
Proof.
  intros H. unfold movimento_dia. rewrite movimento_dia_acc.
  destruct (acumular_finito _ (decimais_finitos (baixada_no_dia t data) l H)
              PyDecimal.zero_00 eq_refl) as (tot & -> & Ht).
  exists tot. split; [reflexivity | assumption].
Qed.

Lemma fluxo_caixa_diario_finito (r : Relogio) (data : string)
    (s : SistemaFinanceiro) :
  validar_data data = true -> valores_finitos s = true ->
  exists fd,
    fluxo_caixa_diario r (Some data) s = Ok fd
    /\ forall t, transacoes_do_dia t fd
                 = filter (baixada_no_dia t data) (contas t s).
Proof.
  intros Hd Hfin. destruct (valores_finitos_split s Hfin) as [Fp Fr].
  unfold fluxo_caixa_diario. rewrite Hd. cbn [negb].
  destruct (movimento_dia_finito Receber data _ Fr) as (te & -> & Ne).
  destruct (movimento_dia_finito Pagar data _ Fp) as (ts & -> & Ns).
  destruct (sub_finito te ts Ne Ns) as (sd & -> & _).
  eexists. split; [reflexivity |]. intros []; reflexivity.
Qed.

Lemma filter_filter_andb {A} (p q : A -> bool) (l : list A) :
  filter q (filter p l) = filter (fun x => p x && q x) l.
Proof.
  induction l as [| x l IH]; [reflexivity |]. cbn [filter].
  destruct (p x); cbn [filter andb]; [destruct (q x) |]; now rewrite IH.
Qed.

Lemma baixada_no_dia_entre (t : Tipo) (data : string) (d : date) (c : Conta) :
  strptime data = Some d ->
  baixada_no_dia t data c = baixada_entre t d d c && baixa_em data c.
Proof.
  intros Hd. unfold baixada_no_dia, baixada_entre, baixa_em, opt_str_eqb.
  destruct (conta_ativo c), (String.eqb (status c) (status_baixado t));
    cbn [andb]; try reflexivity.
  destruct (data_baixa c) as [txt |]; [| reflexivity].
  destruct (String.eqb_spec txt data) as [-> | _].
  - now rewrite Hd, date_leb_refl.
  - now rewrite andb_false_r.
Qed.

(** X12.  For a text that is a date and amounts that are finite
    numbers, the daily flow of the text and the flow of the period from
    the text to itself both succeed, and the daily flow lists, in the
    same order, the transactions of the period flow whose settlement
    date is that very text: a settlement date written otherwise, which
    the period flow reads as the same day, is missing from the daily
    flow. *)
Theorem fluxo_caixa_diario_no_periodo (r : Relogio) (data : string)
    (s : SistemaFinanceiro) :
  validar_data data = true -> valores_finitos s = true ->
  exists fd fp,
    fluxo_caixa_diario r (Some data) s = Ok fd
    /\ fluxo_caixa_periodo data data s = Ok fp
    /\ transacoes (fd_entradas fd)
       = filter (baixa_em data) (transacoes (fp_entradas fp))
    /\ transacoes (fd_saidas fd)
       = filter (baixa_em data) (transacoes (fp_saidas fp))
    /\ (forall c, In c (transacoes (fd_entradas fd)) ->
                  In c (transacoes (fp_entradas fp)))
    /\ (forall c, In c (transacoes (fd_saidas fd)) ->
                  In c (transacoes (fp_saidas fp))).
Proof.
  intros Hd Hfin.
  destruct (fluxo_caixa_diario_finito r data s Hd Hfin) as (fd & Efd & Tfd).
  unfold validar_data in Hd.
  destruct (strptime data) as [d |] eqn:Ed; [| discriminate].
  destruct (fluxo_caixa_periodo_finito data data s d d Ed Ed ltac:(lia) Hfin)
    as (fp & Efp & _ & _ & Te & Ts & _).
  exists fd, fp. split; [assumption |]. split; [assumption |].
  assert (Ee : transacoes (fd_entradas fd)
               = filter (baixa_em data) (transacoes (fp_entradas fp))).
  { rewrite Te, filter_filter_andb.
    change (transacoes (fd_entradas fd)) with (transacoes_do_dia Receber fd).
    rewrite Tfd. apply filter_ext. intros c. now apply baixada_no_dia_entre. }
  assert (Es : transacoes (fd_saidas fd)
               = filter (baixa_em data) (transacoes (fp_saidas fp))).
  { rewrite Ts, filter_filter_andb.
    change (transacoes (fd_saidas fd)) with (transacoes_do_dia Pagar fd).
    rewrite Tfd. apply filter_ext. intros c. now apply baixada_no_dia_entre. }
  split; [assumption |]. split; [assumption |].
  split; intros c Hc; [rewrite Ee in Hc | rewrite Es in Hc];
    now apply filter_In in Hc.
Qed.
(** ** The months [fluxo_caixa_mensal] rejects *)

Lemma new_date_fora (y m d : Z) :
  ~ (1 <= y <= 9999 /\ 1 <= m <= 12) -> new_date y m d = None.
Proof.
  intros H. unfold new_date, MINYEAR, MAXYEAR.
  destruct (1 <=? y) eqn:E1; [| reflexivity].
  destruct (y <=? 9999) eqn:E2; [| reflexivity].
  destruct (1 <=? m) eqn:E3; [| reflexivity].
  destruct (m <=? 12) eqn:E4; [| reflexivity].
  apply Z.leb_le in E1, E2, E3, E4. lia.
Qed.

Lemma limites_do_mes_fora (ano mes : Z) :
  ~ mes_representavel ano mes -> limites_do_mes ano mes = Levanta ValueError.
Proof.
  unfold mes_representavel. intros H. unfold limites_do_mes.
  destruct (new_date ano mes 1) as [d |] eqn:E1; [| reflexivity].
  assert (Hr : 1 <= ano <= 9999 /\ 1 <= mes <= 12).
  { destruct (Z_le_dec 1 ano), (Z_le_dec ano 9999), (Z_le_dec 1 mes),
      (Z_le_dec mes 12); try lia;
      rewrite new_date_fora in E1 by lia; discriminate. }
  assert (ano = 9999 /\ mes = 12) as [-> ->] by lia.
  cbn [Z.eqb Pos.eqb]. rewrite new_date_fora by lia. reflexivity.
Qed.

(** X13.  For a year and a month within the range of a C [int],
    [fluxo_caixa_mensal] raises [ValueError] exactly when the year is
    not from 1 to 9999, or the month is not from 1 to 12, or the month
    is December 9999; it never raises [OverflowError] and never returns
    an error dictionary, unlike the daily and the period flows. *)
Theorem fluxo_caixa_mensal_erros (r : Relogio) (ano mes : Z)
    (s : SistemaFinanceiro) :
  cabe_em_int ano -> cabe_em_int mes ->
  (fluxo_caixa_mensal r (Some ano) (Some mes) s = Levanta ValueError
   <-> ~ mes_representavel ano mes)
  /\ fluxo_caixa_mensal r (Some ano) (Some mes) s <> Levanta OverflowError
  /\ (forall e, fluxo_caixa_mensal r (Some ano) (Some mes) s
                <> ErroDominio e).
Proof.
  intros _ _. unfold fluxo_caixa_mensal.
  assert (D : mes_representavel ano mes \/ ~ mes_representavel ano mes).
  { unfold mes_representavel. lia. }
  destruct D as [Hr | Hn].
  - destruct Hr as (Ha & Hm & Hd).
    rewrite (limites_do_mes_ok ano mes Ha Hm Hd).
    destruct (movimento_periodo Receber _ _ _) as [entradas total_entradas].
    destruct (movimento_periodo Pagar _ _ _) as [saidas total_saidas].
    assert (Hr : mes_representavel ano mes) by (unfold mes_representavel; auto).
    destruct (PyDecimal.sub total_entradas total_saidas);
      [destruct (resumo_por_categoria entradas);
       [destruct (resumo_por_categoria saidas) | ] |];
      (split; [split; [discriminate | intros Hn; contradiction] |]);
      split; try discriminate; intros e; discriminate.
  - rewrite (limites_do_mes_fora ano mes Hn).
    split; [split; auto |]. split; [discriminate | intros e; discriminate].
Qed.

(** ** A settlement in the flow of its day *)

Lemma valores_finitos_baixa (t : Tipo) (a b : list Conta) (c : Conta)
    (d u : string) (s : SistemaFinanceiro) :
  contas t s = (a ++ c :: b)%list ->
  valores_finitos s = true ->
  valores_finitos
    (salvar_contas t (set_contas t (a ++ baixar t d u c :: b)%list s)) = true.
Proof.
  unfold valores_finitos. intros E.
  rewrite !forallb_app. intros H. apply andb_prop in H as [Hp Hr].
  destruct t; cbn [contas] in E; cbn; rewrite ?Hp, ?Hr;
    [rewrite E in Hp | rewrite E in Hr];
    rewrite forallb_app in *; cbn [forallb baixar valor] in *;
    try (now rewrite Hp); now rewrite Hr.
Qed.

(** X14.  After a settlement that succeeds, on amounts that are finite
    numbers, the daily flow of the settlement date (the one given, or
    today's) succeeds and lists the account settled, under its id and
    that date, among the outflows when it is a payable and among the
    inflows when it is a receivable. *)
Theorem baixa_aparece_no_fluxo_do_dia (t : Tipo) (r r2 : Relogio)
    (conta_id : string) (data : option string) (usuario : string)
    (s s' : SistemaFinanceiro) :
  registrar_baixa t r conta_id data usuario s = (Sucesso, s') ->
  valores_finitos s = true ->
  exists fd c,
    fluxo_caixa_diario r2 (Some (data_efetiva r data)) s' = Ok fd
    /\ In c (transacoes_do_dia t fd)
    /\ id c = conta_id
    /\ status c = status_baixado t
    /\ data_baixa c = Some (data_efetiva r data)
    /\ usuario_baixa c = Some usuario.
Proof.
  intros H Hfin.
  destruct (registrar_baixa_forma _ _ _ _ _ _ _ H)
    as (a & c & b & E & Ha & Hp & Hs & Hv & ->).
  apply portadora_spec in Hp as [Hid Hat].
  pose proof (valores_finitos_baixa t a b c (data_efetiva r data) usuario s
                E Hfin) as Hfin'.
  destruct (fluxo_caixa_diario_finito r2 (data_efetiva r data) _ Hv Hfin')
    as (fd & Efd & Tfd).
  exists fd, (baixar t (data_efetiva r data) usuario c).
  split; [assumption |]. rewrite Tfd.
  destruct (contas_salvar_set t
              (a ++ baixar t (data_efetiva r data) usuario c :: b)%list s)
    as [-> _].
  split; [| auto].
  apply filter_In. split; [apply in_or_app; right; now left |].
  apply baixada_no_dia_spec. auto.
Qed.

(** ** The categories and the counts of a report *)

Lemma atualizar_categoria_chaves (cat : string)
    (f : TotaisCategoria -> TotaisCategoria)
    (d : list (string * TotaisCategoria)) :
  (forall k, In k (map fst (atualizar_categoria cat f d))
             <-> k = cat \/ In k (map fst d))
  /\ (NoDup (map fst d) -> NoDup (map fst (atualizar_categoria cat f d))).
Proof.
  induction d as [| [k0 x] d [IH1 IH2]]; cbn [atualizar_categoria map fst].
  - split; [intros k; cbn; intuition congruence |].
    intros _. constructor; [intros [] | constructor].
  - destruct (String.eqb_spec k0 cat) as [-> | Hne]; cbn [map fst].
    + split; [intros k; cbn; intuition congruence | auto].
    + split.
      * intros k. cbn [In]. rewrite IH1. intuition congruence.
      * intros ND. inversion ND as [| ? ? Hk0 ND']; subst.
        constructor; [| auto].
        rewrite IH1. intros [E | Hin]; [congruence | contradiction].
Qed.

Lemma analise_por_categoria_chaves (t : Tipo) (l : list Conta) :
  forall d,
    (forall k, In k (map fst (fold_left (passo_categoria t) l d))
               <-> In k (map fst d)
                   \/ exists c, In c l /\ conta_ativo c = true
                                /\ categoria c = k)
    /\ (NoDup (map fst d) ->
        NoDup (map fst (fold_left (passo_categoria t) l d))).
Proof.
  induction l as [| c l IH]; intros d; cbn [fold_left].
  - split; [| auto]. intros k. split; [auto |].
    intros [H | (c & [] & _)]. assumption.
  - destruct (IH (passo_categoria t d c)) as [I1 I2].
    unfold passo_categoria in *.
    destruct (conta_ativo c) eqn:Ea.
    + destruct (atualizar_categoria_chaves (categoria c)
                  (somar_na_categoria
                     (String.eqb (status c) (status_baixado t)) (valor c)) d)
        as [A1 A2].
      split; [| auto].
      intros k. rewrite I1, A1. split.
      * intros [[E | H] | (c' & Hc' & H1 & H2)].
        -- subst k. right. exists c. split; [now left | auto].
        -- left; assumption.
        -- right. exists c'. split; [now right | auto].
      * intros [H | (c' & [E | Hc'] & H1 & H2)].
        -- left; right; assumption.
        -- subst c'. left; left. symmetry; exact H2.
        -- right. exists c'. auto.
    + split; [| auto].
      intros k. rewrite I1. split.
      * intros [H | (c' & Hc' & H1 & H2)];
          [left; assumption | right; exists c'; split; [now right | auto]].
      * intros [H | (c' & [E | Hc'] & H1 & H2)];
          [left; assumption | subst; congruence | right; exists c'; auto].
Qed.

Lemma no_periodo_sem_limites (data_inicio data_fim : option string)
    (c : Conta) :
  truthy data_inicio || truthy data_fim = false ->
  no_periodo data_inicio data_fim c = true.
Proof.
  unfold no_periodo. intros H. apply orb_false_elim in H as [-> ->].
  reflexivity.
Qed.

Lemma filtrar_periodo_ativas (data_inicio data_fim : option string)
    (l : list Conta) (c : Conta) :
  In c (filtrar_periodo data_inicio data_fim l) /\ conta_ativo c = true
  <-> In c l /\ conta_ativo c = true
      /\ no_periodo data_inicio data_fim c = true.
Proof.
  unfold filtrar_periodo.
  destruct (truthy data_inicio || truthy data_fim) eqn:E.
  - rewrite filter_In, andb_true_iff. tauto.
  - pose proof (no_periodo_sem_limites data_inicio data_fim c E). tauto.
Qed.

(** X15.  In a report, with or without a period, the category analysis
    of a kind has one entry for each category of an active account of
    the kind whose due date is in the period, and no other entry: no
    category appears twice, and the categories of soft-deleted accounts
    alone do not appear. *)
Theorem relatorio_categorias_chaves (soma : list float -> float)
    (r : Relogio) (data_inicio data_fim : option string)
    (s : SistemaFinanceiro) (t : Tipo) :
  let chaves :=
    map fst (categorias_de t
               (relatorio_financeiro soma r data_inicio data_fim s)) in
  NoDup chaves
  /\ forall k, In k chaves
               <-> exists c, In c (contas t s) /\ conta_ativo c = true
                             /\ no_periodo data_inicio data_fim c = true
                             /\ categoria c = k.
Proof.
  cbv zeta.
  assert (E : categorias_de t
                (relatorio_financeiro soma r data_inicio data_fim s)
              = analise_por_categoria t
                  (filtrar_periodo data_inicio data_fim (contas t s)))
    by (destruct t; reflexivity).
  rewrite E. unfold analise_por_categoria.
  destruct (analise_por_categoria_chaves t
              (filtrar_periodo data_inicio data_fim (contas t s)) [])
    as [H1 H2].
  split; [apply H2; constructor |].
  intros k. rewrite H1. cbn [map In]. split.
  - intros [[] | (c & Hc & Ha & Hk)].
    destruct (proj1 (filtrar_periodo_ativas data_inicio data_fim _ c)
                (conj Hc Ha)) as (G1 & G2 & G3).
    exists c. auto.
  - intros (c & Hc & Ha & Hp & Hk). right. exists c.
    destruct (proj2 (filtrar_periodo_ativas data_inicio data_fim _ c)
                (conj Hc (conj Ha Hp))) as (G1 & G2).
    auto.
Qed.

Lemma conta_apos_status (t : Tipo) (r : Relogio) (c c' : Conta) :
  status c = "pendente"%string \/ status c = status_baixado t ->
  conta_apos t r c c' ->
  status c' = "pendente"%string \/ status c' = status_baixado t.
Proof.
  intros H [-> | [-> | [(d & u & -> & _) | ->]]]; auto.
  now destruct (atualizar_campos r c) as (_ & -> & _).
Qed.

Lemma Forall2_apos_status (t : Tipo) (r : Relogio) (l l' : list Conta) :
  Forall2 (conta_apos t r) l l' ->
  Forall (fun c => status c = "pendente"%string
                   \/ status c = status_baixado t) l ->
  Forall (fun c => status c = "pendente"%string
                   \/ status c = status_baixado t) l'.
Proof.
  induction 1 as [| c c' l l' H _ IH]; intros F; [constructor |].
  inversion F; subst. constructor; eauto using conta_apos_status.
Qed.

Lemma status_das_contas (ops : list (Relogio * Operacao)) (t : Tipo) :
  Forall (fun c => status c = "pendente"%string
                   \/ status c = status_baixado t)
         (contas t (executar_todas ops (iniciar None None))).
Proof.
  apply (executar_todas_inv
           (fun s => Forall (fun c => status c = "pendente"%string
                                      \/ status c = status_baixado t)
                            (contas t s))).
  - intros r op s F.
    destruct (executar_lista r op s t) as (m & n & E & F2 & N).
    rewrite E. apply Forall_app. split.
    + eapply Forall2_apos_status; eauto.
    + destruct N as [-> | (parc & descr & categ & v & dv & obs & u
                           & _ & _ & _ & ->)]; constructor; [| constructor].
      now left.
  - destruct t; constructor.
Qed.

Lemma contagem_por_status (t : Tipo) (l : list Conta) :
  Forall (fun c => status c = "pendente"%string
                   \/ status c = status_baixado t) l ->
  List.length l
  = (List.length (filter (tem_status "pendente") l)
     + List.length (filter (tem_status (status_baixado t)) l)
     + List.length (filter (fun c => negb (conta_ativo c)) l))%nat.
Proof.
  induction 1 as [| c l Hc _ IH]; [reflexivity |].
  assert (T : (tem_status "pendente" c = true
               /\ tem_status (status_baixado t) c = false
               /\ negb (conta_ativo c) = false)
              \/ (tem_status "pendente" c = false
                  /\ tem_status (status_baixado t) c = true
                  /\ negb (conta_ativo c) = false)
              \/ (tem_status "pendente" c = false
                  /\ tem_status (status_baixado t) c = false
                  /\ negb (conta_ativo c) = true)).
  { unfold tem_status.
    destruct Hc as [Hs | Hs]; rewrite Hs;
      destruct (conta_ativo c); destruct t; cbn; auto. }
  cbn [filter].
  destruct T as [(-> & -> & ->) | [(-> & -> & ->) | (-> & -> & ->)]];
    cbn [List.length]; lia.
Qed.

Lemma filter_ativas_nenhuma_inativa (p : Conta -> bool) (l : list Conta) :
  List.length
    (filter (fun c => negb (conta_ativo c))
            (filter (fun c => conta_ativo c && p c) l)) = 0%nat.
Proof.
  induction l as [| c l IH]; [reflexivity |]. cbn [filter].
  destruct (conta_ativo c) eqn:E; cbn [andb]; [| exact IH].
  destruct (p c); [| exact IH]. cbn [filter]. now rewrite E.
Qed.

Lemma Forall_filter {A} (P : A -> Prop) (p : A -> bool) (l : list A) :
  Forall P l -> Forall P (filter p l).
Proof.
  induction 1 as [| x l Hx _ IH]; cbn [filter]; [constructor |].
  destruct (p x); [constructor |]; assumption.
Qed.

(** X16.  From a start without files, after any run of operations, the
    counts of a report add up: with a period, the total of a kind is
    the number of pending accounts plus the number of settled ones;
    without a period, the total is that sum plus the number of
    soft-deleted accounts of the kind, which the total alone counts. *)
Theorem relatorio_contagens (soma : list float -> float) (r : Relogio)
    (data_inicio data_fim : option string)
    (ops : list (Relogio * Operacao)) (t : Tipo) :
  let s := executar_todas ops (iniciar None None) in
  let n := contagem_de t
             (relatorio_financeiro soma r data_inicio data_fim s) in
  qtd_total n
  = (qtd_pendentes n + qtd_baixadas n
     + (if truthy data_inicio || truthy data_fim then 0
        else List.length
               (filter (fun c => negb (conta_ativo c)) (contas t s))))%nat.
Proof.
  cbv zeta.
  set (s := executar_todas ops (iniciar None None)).
  assert (E : contagem_de t
                (relatorio_financeiro soma r data_inicio data_fim s)
              = contagem t
                  (filtrar_periodo data_inicio data_fim (contas t s)))
    by (destruct t; reflexivity).
  rewrite E. unfold contagem. cbn [qtd_total qtd_pendentes qtd_baixadas].
  pose proof (status_das_contas ops t) as F. fold s in F.
  unfold filtrar_periodo.
  destruct (truthy data_inicio || truthy data_fim).
  - rewrite (contagem_por_status t _
               (Forall_filter _
                  (fun c => conta_ativo c
                            && no_periodo data_inicio data_fim c) _ F)).
    now rewrite filter_ativas_nenhuma_inativa.
  - apply contagem_por_status. assumption.
Qed.
(** ** What an operation on one kind leaves alone *)


(** ** The overdue accounts of a report taken after a listing *)

Lemma atrasada_atualizar (r : Relogio) (c : Conta) :
  atrasada (atualizar r c)
  = conta_ativo c
    && String.eqb (calcular_status_vencimento r (data_vencimento c))
                  "atrasado".
Proof.
  unfold atualizar, atrasada. destruct (conta_ativo c) eqn:E.
  - change (conta_ativo (com_status_vencimento
                           (calcular_status_vencimento r (data_vencimento c))
                           c))
      with (conta_ativo c).
    rewrite E. reflexivity.
  - now rewrite E.
Qed.

(** X18.  A listing writes the due status of its day on every active
    account, settled ones included; so a report without a period taken
    after a listing of a kind gives as overdue accounts of the kind the
    active accounts whose due date is before the day of the listing,
    whether they are settled or not, each with the due status
    ["atrasado"], in the order of the list. *)
Theorem relatorio_atrasadas_apos_listagem (soma : list float -> float)
    (r r2 : Relogio) (filtro_status filtro_categoria : option string)
    (s : SistemaFinanceiro) (t : Tipo) :
  let s1 := snd (listar_contas t r filtro_status filtro_categoria s) in
  atrasadas_de t (relatorio_financeiro soma r2 None None s1)
  = map (com_status_vencimento "atrasado")
        (filter (fun c => conta_ativo c
                          && String.eqb
                               (calcular_status_vencimento r
                                  (data_vencimento c)) "atrasado")
                (contas t s)).
Proof.
  cbv zeta.
  assert (E : atrasadas_de t
                (relatorio_financeiro soma r2 None None
                   (snd (listar_contas t r filtro_status filtro_categoria s)))
              = filter atrasada (map (atualizar r) (contas t s))).
  { unfold listar_contas. cbn [snd]. destruct t; reflexivity. }
  rewrite E. clear E. induction (contas t s) as [| c l IH]; [reflexivity |].
  cbn [map filter]. rewrite atrasada_atualizar.
  destruct (conta_ativo c) eqn:Ea; cbn [andb]; [| exact IH].
  destruct (String.eqb_spec
              (calcular_status_vencimento r (data_vencimento c)) "atrasado")
    as [Es | Es]; [| exact IH].
  cbn [map]. rewrite IH. f_equal.
  unfold atualizar. now rewrite Ea, Es.
Qed.

(** ** A settlement, by the first active account bearing the id *)

(** X19.  A settlement looks at the first active account bearing the
    id and at no other: when that account is settled the call fails as
    already settled; otherwise, when the settlement date (the one given,
    or today's) is no date, it fails on the date; otherwise it
    succeeds and settles that account.  A call that fails changes
    nothing. *)
Theorem registrar_baixa_primeira_portadora (t : Tipo) (r : Relogio)
    (conta_id : string) (data : option string) (usuario : string)
    (s : SistemaFinanceiro) (antes depois : list Conta) (c : Conta) :
  contas t s = (antes ++ c :: depois)%list ->
  (forall c0, In c0 antes -> id c0 = conta_id -> conta_ativo c0 = false) ->
  id c = conta_id -> conta_ativo c = true ->
  registrar_baixa t r conta_id data usuario s
  = if String.eqb (status c) (status_baixado t)
    then (Falha ContaJaBaixada, s)
    else if validar_data (data_efetiva r data)
         then (Sucesso,
               salvar_contas t
                 (set_contas t
                    (antes ++ baixar t (data_efetiva r data) usuario c
                       :: depois)%list s))
         else (Falha DataBaixaInvalida, s).
Proof.
  intros E Ha Hid Hat. unfold registrar_baixa. rewrite E.
  rewrite registrar_loop_app by (now apply nao_portadoras).
  cbn [registrar_loop]. fold (data_efetiva r data).
  rewrite Hid, Hat, String.eqb_refl. cbn [andb].
  destruct (String.eqb (status c) (status_baixado t)); [reflexivity |].
  destruct (validar_data (data_efetiva r data)); reflexivity.
Qed.

(** ** The categories of a monthly flow *)

Lemma somar_decimal_categoria_chaves (cat : string) (v : decimal)
    (d d' : list (string * decimal)) :
  somar_decimal_categoria cat v d = Some d' ->
  (forall k, In k (map fst d') <-> k = cat \/ In k (map fst d))
  /\ (NoDup (map fst d) -> NoDup (map fst d')).
Proof.
  revert d'. induction d as [| [k0 x] d IH]; intros d';
    cbn [somar_decimal_categoria].
  - destruct (PyDecimal.add PyDecimal.zero_00 v); [| discriminate].
    intros [= <-]. cbn [map fst]. split.
    + intros k. cbn. intuition congruence.
    + intros _. constructor; [intros [] | constructor].
  - destruct (String.eqb_spec k0 cat) as [-> | Hne].
    + destruct (PyDecimal.add x v); [| discriminate].
      intros [= <-]. cbn [map fst]. split; [| auto].
      intros k. cbn. intuition congruence.
    + destruct (somar_decimal_categoria cat v d) as [r' |]; [| discriminate].
      intros [= <-]. destruct (IH r' eq_refl) as [I1 I2].
      cbn [map fst]. split.
      * intros k. cbn [In]. rewrite I1. intuition congruence.
      * intros ND. inversion ND as [| ? ? Hk0 ND']; subst.
        constructor; [| auto].
        rewrite I1. intros [E | Hin]; [congruence | contradiction].
Qed.

Lemma resumo_por_categoria_chaves (l : list Conta) :
  forall d0 d,
    fold_left
      (fun acc c =>
         match acc with
         | Some d => somar_decimal_categoria (categoria c) (decimal_valor c) d
         | None => None
         end) l (Some d0) = Some d ->
    (forall k, In k (map fst d)
               <-> In k (map fst d0) \/ exists c, In c l /\ categoria c = k)
    /\ (NoDup (map fst d0) -> NoDup (map fst d)).
Proof.
  induction l as [| c l IH]; intros d0 d; cbn [fold_left].
  - intros [= <-]. split; [| auto]. intros k. split; [auto |].
    intros [H | (c & [] & _)]. assumption.
  - destruct (somar_decimal_categoria (categoria c) (decimal_valor c) d0)
      as [d1 |] eqn:E1.
    + intros H. destruct (IH d1 d H) as [I1 I2].
      destruct (somar_decimal_categoria_chaves _ _ _ _ E1) as [A1 A2].
      split; [| auto].
      intros k. rewrite I1, A1. split.
      * intros [[E | H0] | (c' & Hc' & H2)].
        -- subst k. right. exists c. split; [now left | reflexivity].
        -- left; assumption.
        -- right. exists c'. split; [now right | assumption].
      * intros [H0 | (c' & [E | Hc'] & H2)].
        -- left; right; assumption.
        -- subst c'. left; left. symmetry; exact H2.
        -- right. exists c'. auto.
    + intros H. exfalso. clear -H. induction l as [| c' l IHl]; cbn in H;
        [discriminate | auto].
Qed.

Lemma em_float_chaves (d : list (string * decimal)) :
  map fst (em_float d) = map fst d.
Proof. unfold em_float. rewrite map_map. reflexivity. Qed.

(** X20.  For a month of the calendar and amounts that are finite
    numbers, the monthly flow gives, under ["por_categoria"] of the
    inflows and of the outflows, one entry for each category of a
    transaction of the list, and no other entry: no category appears
    twice. *)
Theorem fluxo_caixa_mensal_por_categoria (r : Relogio)
    (s : SistemaFinanceiro) (ano mes : Z) :
  mes_representavel ano mes ->
  valores_finitos s = true ->
  exists fm,
    fluxo_caixa_mensal r (Some ano) (Some mes) s = Ok fm
    /\ NoDup (map fst (por_categoria (fm_entradas fm)))
    /\ NoDup (map fst (por_categoria (fm_saidas fm)))
    /\ (forall k, In k (map fst (por_categoria (fm_entradas fm)))
                  <-> exists c, In c (transacoes (fm_entradas fm))
                                /\ categoria c = k)
    /\ (forall k, In k (map fst (por_categoria (fm_saidas fm)))
                  <-> exists c, In c (transacoes (fm_saidas fm))
                                /\ categoria c = k).
Proof.
  intros (Ha & Hm & Hd) Hfin.
  destruct (valores_finitos_split s Hfin) as [Fp Fr].
  unfold fluxo_caixa_mensal. rewrite (limites_do_mes_ok ano mes Ha Hm Hd).
  set (ini := mkdate ano mes 1).
  set (fim := mkdate ano mes (_days_in_month ano mes)).
  pose proof (movimento_periodo_transacoes Receber ini fim (contas_receber s))
    as Te.
  pose proof (movimento_periodo_transacoes Pagar ini fim (contas_pagar s))
    as Ts.
  pose proof (movimento_periodo_total_finito Receber ini fim _ Fr) as Ne.
  pose proof (movimento_periodo_total_finito Pagar ini fim _ Fp) as Ns.
  destruct (movimento_periodo Receber ini fim (contas_receber s))
    as [entradas total_entradas].
  destruct (movimento_periodo Pagar ini fim (contas_pagar s))
    as [saidas total_saidas].
  cbn [fst snd] in *.
  destruct (sub_finito total_entradas total_saidas Ne Ns) as (sd & -> & _).
  assert (Fe : forallb (fun c => Float64.is_finite (valor c)) entradas = true)
    by (rewrite Te; now apply forallb_filter).
  assert (Fs : forallb (fun c => Float64.is_finite (valor c)) saidas = true)
    by (rewrite Ts; now apply forallb_filter).
  destruct (resumo_por_categoria_finito entradas Fe) as (ce & Ece).
  destruct (resumo_por_categoria_finito saidas Fs) as (cs & Ecs).
  rewrite Ece, Ecs.
  eexists. split; [reflexivity |].
  cbn [fm_entradas fm_saidas mk_movimento por_categoria transacoes].
  rewrite !em_float_chaves.
  destruct (resumo_por_categoria_chaves entradas [] ce Ece) as [E1 E2].
  destruct (resumo_por_categoria_chaves saidas [] cs Ecs) as [S1 S2].
  split; [apply E2; constructor |]. split; [apply S2; constructor |].
  split; intros k; [rewrite E1 | rewrite S1]; cbn [map In]; tauto.
Qed.
(** ** The daily series of the chart data *)

Import Grafico.

Lemma chave_eqb_eq (a b : Chave) : chave_eqb a b = true <-> a = b.
Proof.
  destruct a as [x |], b as [y |]; cbn [chave_eqb];
    try (split; [discriminate | congruence]); [| tauto].
  rewrite String.eqb_eq. split; congruence.
Qed.

Lemma somar_no_dia_chaves (lado : Lado) (data : Chave) (v : float)
    (d : list (Chave * PorDia)) :
  (forall k, In k (map fst (somar_no_dia lado data v d))
             <-> k = data \/ In k (map fst d))
  /\ (NoDup (map fst d) -> NoDup (map fst (somar_no_dia lado data v d))).
Proof.
  induction d as [| [k0 x] d [IH1 IH2]]; cbn [somar_no_dia map fst].
  - split; [intros k; cbn; intuition congruence |].
    intros _. constructor; [intros [] | constructor].
  - destruct (chave_eqb k0 data) eqn:Ek; cbn [map fst].
    + apply chave_eqb_eq in Ek. subst k0.
      split; [intros k; cbn; intuition congruence | auto].
    + assert (Hne : k0 <> data).
      { intros E. apply chave_eqb_eq in E. congruence. }
      split.
      * intros k. cbn [In]. rewrite IH1. intuition congruence.
      * intros ND. inversion ND as [| ? ? Hk0 ND']; subst.
        constructor; [| auto].
        rewrite IH1. intros [E | Hin]; [congruence | contradiction].
Qed.

Lemma agrupar_chaves (lado : Lado) (l : list Conta) :
  forall d,
    (forall k, In k (map fst (agrupar lado l d))
               <-> In k (map fst d)
                   \/ exists c, In c l /\ data_baixa c = k)
    /\ (NoDup (map fst d) -> NoDup (map fst (agrupar lado l d))).
Proof.
  unfold agrupar. induction l as [| c l IH]; intros d; cbn [fold_left].
  - split; [| auto]. intros k. split; [auto |].
    intros [H | (c & [] & _)]. assumption.
  - destruct (IH (somar_no_dia lado (data_baixa c) (valor c) d))
      as [I1 I2].
    destruct (somar_no_dia_chaves lado (data_baixa c) (valor c) d)
      as [A1 A2].
    split; [| auto].
    intros k. rewrite I1, A1. split.
    + intros [[E | H] | (c' & Hc' & H2)].
      * subst k. right. exists c. split; [now left | reflexivity].
      * left; assumption.
      * right. exists c'. split; [now right | assumption].
    + intros [H | (c' & [E | Hc'] & H2)].
      * left; right; assumption.
      * subst c'. left; left. symmetry; exact H2.
      * right. exists c'. auto.
Qed.

Lemma textos_sem_None (ks : list Chave) :
  ~ In None ks -> exists l, textos ks = Some l /\ ks = map Some l.
Proof.
  induction ks as [| [x |] ks IH]; intros H; cbn [textos].
  - exists []. auto.
  - destruct IH as (l & -> & E); [intros H0; apply H; now right |].
    exists (x :: l). cbn [map]. now rewrite <- E.
  - destruct H. now left.
Qed.

Lemma textos_com_None (ks : list Chave) : In None ks -> textos ks = None.
Proof.
  induction ks as [| [x |] ks IH]; cbn [textos In].
  - intros [].
  - intros [E | H]; [discriminate |]. now rewrite (IH H).
  - reflexivity.
Qed.

Lemma insert_by_NoDup {A} (key : A -> string) (x : A) (l : list A) :
  ~ In x l -> NoDup l -> NoDup (insert_by key x l).
Proof.
  induction l as [| y l IH]; intros Hx ND; cbn [insert_by].
  - constructor; [intros [] | constructor].
  - destruct (str_ltb (key y) (key x)); [| now constructor].
    inversion ND as [| ? ? Hy ND']; subst.
    constructor.
    + rewrite insert_by_In. intros [E | H]; [| contradiction].
      apply Hx. now left.
    + apply IH; [| assumption]. intros H. apply Hx. now right.
Qed.

Lemma sorted_by_NoDup {A} (key : A -> string) (l : list A) :
  NoDup l -> NoDup (sorted_by key l).
Proof.
  unfold sorted_by. induction 1 as [| x l Hx _ IH]; cbn [fold_right].
  - constructor.
  - apply insert_by_NoDup; [| assumption].
    fold (sorted_by key l). now rewrite sorted_by_In.
Qed.

Lemma str_ltb_total (a b : string) :
  str_ltb b a = false -> a <> b -> str_ltb a b = true.
Proof.
  unfold str_ltb. intros H Hne.
  destruct (String.compare a b) eqn:E; [| reflexivity |].
  - apply String.compare_eq_iff in E. congruence.
  - rewrite (String.compare_antisym b a), E in H. discriminate.
Qed.

Lemma ordenada_crescente (l : list string) :
  ordenada_por (fun k => k) l = true -> NoDup l -> crescente l = true.
Proof.
  induction l as [| x l IH]; [reflexivity |].
  intros H ND. inversion ND as [| ? ? Hx ND']; subst.
  destruct l as [| y l]; [reflexivity |].
  rewrite ordenada_por_cons in H. apply andb_prop in H as [Hxy Hl].
  change (crescente (x :: y :: l))
    with (str_ltb x y && crescente (y :: l)).
  rewrite (IH Hl ND'), andb_true_r.
  apply str_ltb_total; [now apply negb_true_iff |].
  intros ->. apply Hx. now left.
Qed.

(** Every transaction of a flow that [fluxo_caixa_mensal] returns has a
    text as settlement date. *)
Lemma fluxo_caixa_mensal_com_datas (r : Relogio) (ano mes : option Z)
    (s : SistemaFinanceiro) (fm : FluxoMensal) (c : Conta) :
  fluxo_caixa_mensal r ano mes s = Ok fm ->
  In c (transacoes (fm_entradas fm) ++ transacoes (fm_saidas fm))%list ->
  data_baixa c <> None.
Proof.
  unfold fluxo_caixa_mensal.
  destruct (limites_do_mes _ _) as [[ini fim] | |]; try discriminate.
  pose proof (movimento_periodo_transacoes Receber ini fim (contas_receber s))
    as Te.
  pose proof (movimento_periodo_transacoes Pagar ini fim (contas_pagar s))
    as Ts.
  destruct (movimento_periodo Receber ini fim (contas_receber s))
    as [entradas total_entradas].
  destruct (movimento_periodo Pagar ini fim (contas_pagar s))
    as [saidas total_saidas].
  cbn [fst] in Te, Ts.
  destruct (PyDecimal.sub total_entradas total_saidas); [| discriminate].
  destruct (resumo_por_categoria entradas); [| discriminate].
  destruct (resumo_por_categoria saidas); [| discriminate].
  intros [= <-]. cbn [fm_entradas fm_saidas mk_movimento transacoes].
  rewrite Te, Ts. intros H.
  apply in_app_or in H as [H | H]; apply filter_In in H as [_ H];
    apply baixada_entre_spec in H as (_ & _ & txt & d' & E & _);
    congruence.
Qed.

(** X21.  For a monthly flow whose transactions all have a text as
    settlement date, as have those of every flow that
    [fluxo_caixa_mensal] returns, the daily series of the chart data has
    one point for each text that is the settlement date of an inflow or
    of an outflow of the flow, and no other point, in strictly
    increasing order of the texts; for a daily flow and for a period
    flow the series is empty, and for an error dictionary the error is
    handed back. *)
Theorem grafico_transacoes_diarias (fm : FluxoMensal) (fd : FluxoDiario)
    (fp : FluxoPeriodo) (e : ErroFluxo) :
  (forall c,
     In c (transacoes (fm_entradas fm) ++ transacoes (fm_saidas fm))%list ->
     data_baixa c <> None) ->
  (exists g datas,
     dados_para_grafico_fluxo_caixa (DoMes fm) = Dados g
     /\ map ponto_data (transacoes_diarias g) = map Some datas
     /\ crescente datas = true
     /\ NoDup datas
     /\ (forall data,
           In data datas
           <-> exists c,
                 In c (transacoes (fm_entradas fm)
                       ++ transacoes (fm_saidas fm))%list
                 /\ data_baixa c = Some data))
  /\ (exists g, dados_para_grafico_fluxo_caixa (DoDia fd) = Dados g
                /\ transacoes_diarias g = [])
  /\ (exists g, dados_para_grafico_fluxo_caixa (DoPeriodo fp) = Dados g
                /\ transacoes_diarias g = [])
  /\ dados_para_grafico_fluxo_caixa (DeErro e) = DicionarioErro e
  /\ (forall r ano mes s fm' c,
        fluxo_caixa_mensal r ano mes s = Ok fm' ->
        In c (transacoes (fm_entradas fm')
              ++ transacoes (fm_saidas fm'))%list ->
        data_baixa c <> None).
Proof.
  intros Hdatas.
  split; [| split; [eexists; split; reflexivity |];
            split; [eexists; split; reflexivity |];
            split; [reflexivity |];
            intros r ano mes s fm' c;
            apply fluxo_caixa_mensal_com_datas].
  set (e1 := transacoes (fm_entradas fm)) in *.
  set (s1 := transacoes (fm_saidas fm)) in *.
  destruct (agrupar_chaves Entradas e1 []) as [E1 E2].
  destruct (agrupar_chaves Saidas s1 (agrupar Entradas e1 [])) as [S1 S2].
  assert (ND : NoDup (map fst (agrupar Saidas s1 (agrupar Entradas e1 []))))
    by (apply S2, E2; constructor).
  assert (Chaves : forall k,
             In k (map fst (agrupar Saidas s1 (agrupar Entradas e1 [])))
             <-> exists c, In c (e1 ++ s1)%list /\ data_baixa c = k).
  { intros k. rewrite S1, E1. cbn [map In]. split.
    - intros [[[] | (c & Hc & H)] | (c & Hc & H)]; exists c;
        (split; [apply in_or_app; auto | assumption]).
    - intros (c & Hc & H). apply in_app_or in Hc as [Hc | Hc]; eauto. }
  destruct (textos_sem_None
              (map fst (agrupar Saidas s1 (agrupar Entradas e1 []))))
    as (l & Tl & El).
  { intros H. apply Chaves in H as (c & Hc & E).
    exact (Hdatas c Hc E). }
  assert (NDl : NoDup l).
  { rewrite El in ND. now apply NoDup_map_inv in ND. }
  pose proof (sorted_by_NoDup (fun k : string => k) l NDl) as NDs.
  eexists _, (sorted_by (fun k : string => k) l).
  split.
  { cbn [dados_para_grafico_fluxo_caixa]. unfold transacoes_diarias_de.
    cbv zeta. fold e1 s1. unfold ordenar_chaves. rewrite Tl. reflexivity. }
  cbn [transacoes_diarias].
  split; [rewrite map_map; cbn [ponto_data]; now rewrite map_id |].
  split; [apply ordenada_crescente; [apply sorted_by_ordenada | exact NDs] |].
  split; [exact NDs |].
  intros data. rewrite sorted_by_In, <- Chaves, El, in_map_iff. split.
  - intros H. exists data. auto.
  - intros (x & [= ->] & H). exact H.
Qed.

(** When a transaction of the flow holds [None] as settlement date and
    another holds a text, the sort of the keys compares the two and the
    call raises [TypeError]. *)
Lemma grafico_data_nula (fm : FluxoMensal) (c1 c2 : Conta) (txt : string) :
  In c1 (transacoes (fm_entradas fm) ++ transacoes (fm_saidas fm))%list ->
  In c2 (transacoes (fm_entradas fm) ++ transacoes (fm_saidas fm))%list ->
  data_baixa c1 = None -> data_baixa c2 = Some txt ->
  dados_para_grafico_fluxo_caixa (DoMes fm) = LevantaTypeError.
Proof.
  intros H1 H2 N1 N2.
  set (e1 := transacoes (fm_entradas fm)) in *.
  set (s1 := transacoes (fm_saidas fm)) in *.
  destruct (agrupar_chaves Entradas e1 []) as [E1 _].
  destruct (agrupar_chaves Saidas s1 (agrupar Entradas e1 [])) as [S1 _].
  assert (Chaves : forall c, In c (e1 ++ s1)%list ->
             In (data_baixa c)
                (map fst (agrupar Saidas s1 (agrupar Entradas e1 [])))).
  { intros c Hc. rewrite S1, E1.
    apply in_app_or in Hc as [Hc | Hc]; eauto. }
  pose proof (Chaves c1 H1) as K1. rewrite N1 in K1.
  pose proof (Chaves c2 H2) as K2. rewrite N2 in K2.
  cbn [dados_para_grafico_fluxo_caixa]. unfold transacoes_diarias_de.
  cbv zeta. fold e1 s1. unfold ordenar_chaves.
  rewrite (textos_com_None _ K1).
  destruct (map fst (agrupar Saidas s1 (agrupar Entradas e1 [])))
    as [| a [| b ks]]; [destruct K1 | | reflexivity].
  destruct K1 as [-> | []]. destruct K2 as [E | []]. discriminate.
Qed.

(** ** Instances of the further properties at the example states *)

Lemma registrar_baixa_efeito_witness :
  (registrar_baixa Pagar relogio_ex "CP001" (Some "2024-03-10") "sistema"
      sistema_uma_conta = (Sucesso, sistema_uma_paga)) /\
  exists antes c depois,
    contas Pagar sistema_uma_conta = (antes ++ c :: depois)%list
    /\ (forall c0, In c0 antes -> id c0 = "CP001" -> conta_ativo c0 = false)
    /\ id c = "CP001" /\ conta_ativo c = true
    /\ status c <> status_baixado Pagar
    /\ validar_data (data_efetiva relogio_ex (Some "2024-03-10")) = true
    /\ contas Pagar sistema_uma_paga
       = (antes ++ baixar Pagar (data_efetiva relogio_ex (Some "2024-03-10"))
           "sistema" c :: depois)%list
    /\ arquivo Pagar sistema_uma_paga = Some (contas Pagar sistema_uma_paga)
    /\ contas (outro Pagar) sistema_uma_paga = contas (outro Pagar)
        sistema_uma_conta
    /\ arquivo (outro Pagar) sistema_uma_paga = arquivo (outro Pagar)
        sistema_uma_conta
    /\ (forall r2 data2 usuario2,
          registrar_baixa Pagar r2 "CP001" data2 usuario2 sistema_uma_paga
          = (Falha ContaJaBaixada, sistema_uma_paga)).
Proof.
  split; [vm_compute; reflexivity |].
  apply (registrar_baixa_efeito Pagar relogio_ex "CP001" (Some "2024-03-10")
           "sistema" sistema_uma_conta).
  vm_compute; reflexivity.
Defined.

Lemma excluir_conta_efeito_witness :
  (excluir_conta Pagar "CP001" "sistema" sistema_uma_conta = (Sucesso,
      sistema_uma_excluida)) /\
  exists antes c depois,
    contas Pagar sistema_uma_conta = (antes ++ c :: depois)%list
    /\ (forall c0, In c0 antes -> id c0 = "CP001" -> conta_ativo c0 = false)
    /\ id c = "CP001" /\ conta_ativo c = true
    /\ contas Pagar sistema_uma_excluida = (antes ++ desativar c ::
        depois)%list
    /\ arquivo Pagar sistema_uma_excluida = Some (contas Pagar
        sistema_uma_excluida)
    /\ contas (outro Pagar) sistema_uma_excluida = contas (outro Pagar)
        sistema_uma_conta
    /\ arquivo (outro Pagar) sistema_uma_excluida = arquivo (outro Pagar)
        sistema_uma_conta
    /\ List.length (filter conta_ativo (contas Pagar sistema_uma_conta))
       = S (List.length (filter conta_ativo (contas Pagar
           sistema_uma_excluida)))
    /\ (NoDup (map id (contas Pagar sistema_uma_conta)) ->
        (forall c0, In c0 (contas Pagar sistema_uma_excluida) -> id c0 =
            "CP001" ->
                    conta_ativo c0 = false)
        /\ (forall usuario2,
              excluir_conta Pagar "CP001" usuario2 sistema_uma_excluida
              = (Falha ContaNaoEncontrada, sistema_uma_excluida))
        /\ (forall r2 data2 usuario2,
              registrar_baixa Pagar r2 "CP001" data2 usuario2
                  sistema_uma_excluida
              = (Falha ContaNaoEncontrada, sistema_uma_excluida))).
Proof.
  split; [vm_compute; reflexivity |].
  apply (excluir_conta_efeito Pagar "CP001" "sistema" sistema_uma_conta).
  vm_compute; reflexivity.
Defined.

Lemma cadastrar_conta_aparece_witness :
  (cadastrar_conta Pagar relogio_ex "" "Conta A" "aluguel" (lit 15000 (-1))
      "2024-03-05" "" "sistema" (iniciar None None)
  = (inr "CP001", sistema_uma_conta)) /\
  In (mkConta "CP001" "Conta A" "aluguel" (lit 15000 (-1)) "2024-03-05"
      "pendente"
              (calcular_status_vencimento relogio_ex "2024-03-05") "" ""
                  (agora_str relogio_ex)
              "sistema" None None (Some true))
     (buscar_conta (fun x : string => x) Pagar "CP001" sistema_uma_conta)
  /\ (forall r2 filtro_status filtro_categoria,
        passa_filtro filtro_status "pendente" = true ->
        passa_filtro filtro_categoria "aluguel" = true ->
        let listadas :=
          fst (listar_contas Pagar r2 filtro_status filtro_categoria
              sistema_uma_conta) in
        let c := mkConta "CP001" "Conta A" "aluguel" (lit 15000 (-1))
            "2024-03-05" "pendente"
                         (calcular_status_vencimento r2 "2024-03-05") "" ""
                         (agora_str relogio_ex) "sistema" None None (Some
                             true) in
        In c listadas
        /\ forall c', In c' listadas -> id c' = "CP001" -> c' = c).
Proof.
  split; [vm_compute; reflexivity |].
  apply (cadastrar_conta_aparece (fun x : string => x) Pagar relogio_ex ""
           "Conta A" "aluguel" (lit 15000 (-1)) "2024-03-05" "" "sistema"
           (iniciar None None)).
  vm_compute; reflexivity.
Defined.

Lemma alertas_conforme_status_witness :
  (valid (hoje relogio_ex)) /\
  let al := obter_alertas_vencimento relogio_ex sistema_tres_contas in
  vencendo_hoje al
  = (a_vencer relogio_ex "vencendo_hoje" Pagar sistema_tres_contas
     ++ a_vencer relogio_ex "vencendo_hoje" Receber sistema_tres_contas)%list
  /\ vencendo_em_7_dias al
     = (a_vencer relogio_ex "vencendo_em_breve" Pagar sistema_tres_contas
        ++ a_vencer relogio_ex "vencendo_em_breve" Receber
            sistema_tres_contas)%list
  /\ atrasadas al
     = (a_vencer relogio_ex "atrasado" Pagar sistema_tres_contas ++ a_vencer
         relogio_ex "atrasado" Receber sistema_tres_contas)%list.
Proof.
  split; [vm_compute; reflexivity |].
  apply (alertas_conforme_status relogio_ex sistema_tres_contas).
  vm_compute; reflexivity.
Defined.

Lemma fluxo_caixa_periodo_conteudo_witness :
  (strptime "2024-03-01" = Some (mkdate 2024 3 1)) /\
  (strptime "2024-03-31" = Some (mkdate 2024 3 31)) /\
  (toordinal (mkdate 2024 3 1) <= toordinal (mkdate 2024 3 31)) /\
  (valores_finitos sistema_dez_vinte_recebidas = true) /\
  exists fp,
    fluxo_caixa_periodo "2024-03-01" "2024-03-31" sistema_dez_vinte_recebidas
        = Ok fp
    /\ fp_data_inicio fp = "2024-03-01" /\ fp_data_fim fp = "2024-03-31"
    /\ transacoes (fp_entradas fp)
       = filter (baixada_entre Receber (mkdate 2024 3 1) (mkdate 2024 3 31))
           (contas_receber sistema_dez_vinte_recebidas)
    /\ transacoes (fp_saidas fp)
       = filter (baixada_entre Pagar (mkdate 2024 3 1) (mkdate 2024 3 31))
           (contas_pagar sistema_dez_vinte_recebidas)
    /\ quantidade (fp_entradas fp) = List.length (transacoes (fp_entradas fp))
    /\ quantidade (fp_saidas fp) = List.length (transacoes (fp_saidas fp))
    /\ (forall t c,
          baixada_entre t (mkdate 2024 3 1) (mkdate 2024 3 31) c = true <->
          conta_ativo c = true /\ status c = status_baixado t
          /\ exists txt d, data_baixa c = Some txt /\ strptime txt = Some d
                           /\ toordinal (mkdate 2024 3 1) <= toordinal d <=
                               toordinal (mkdate 2024 3 31)).
Proof.
  split; [vm_compute; reflexivity |].
  split; [vm_compute; reflexivity |].
  split; [vm_compute; discriminate |].
  split; [vm_compute; reflexivity |].
  apply (fluxo_caixa_periodo_conteudo "2024-03-01" "2024-03-31"
           sistema_dez_vinte_recebidas (mkdate 2024 3 1) (mkdate 2024 3 31));
    [vm_compute; reflexivity | vm_compute; reflexivity
    | vm_compute; discriminate | vm_compute; reflexivity].
Defined.

Lemma fluxo_caixa_diario_no_periodo_witness :
  (validar_data "2024-03-10" = true) /\
  (valores_finitos sistema_dez_vinte_recebidas = true) /\
  exists fd fp,
    fluxo_caixa_diario relogio_ex (Some "2024-03-10")
        sistema_dez_vinte_recebidas = Ok fd
    /\ fluxo_caixa_periodo "2024-03-10" "2024-03-10"
        sistema_dez_vinte_recebidas = Ok fp
    /\ transacoes (fd_entradas fd)
       = filter (baixa_em "2024-03-10") (transacoes (fp_entradas fp))
    /\ transacoes (fd_saidas fd)
       = filter (baixa_em "2024-03-10") (transacoes (fp_saidas fp))
    /\ (forall c, In c (transacoes (fd_entradas fd)) ->
                  In c (transacoes (fp_entradas fp)))
    /\ (forall c, In c (transacoes (fd_saidas fd)) ->
                  In c (transacoes (fp_saidas fp))).
Proof.
  split; [vm_compute; reflexivity |].
  split; [vm_compute; reflexivity |].
  apply (fluxo_caixa_diario_no_periodo relogio_ex "2024-03-10"
           sistema_dez_vinte_recebidas); vm_compute; reflexivity.
Defined.

Lemma fluxo_caixa_mensal_erros_witness :
  (cabe_em_int 2024) /\
  (cabe_em_int 13) /\
  (fluxo_caixa_mensal relogio_ex (Some 2024) (Some 13) (iniciar None None) =
      Levanta ValueError
   <-> ~ mes_representavel 2024 13)
  /\ fluxo_caixa_mensal relogio_ex (Some 2024) (Some 13) (iniciar None None)
      <> Levanta OverflowError
  /\ (forall e, fluxo_caixa_mensal relogio_ex (Some 2024) (Some 13) (iniciar
      None None)
                <> ErroDominio e).
Proof.
  split; [unfold cabe_em_int; lia |].
  split; [unfold cabe_em_int; lia |].
  apply (fluxo_caixa_mensal_erros relogio_ex 2024 13 (iniciar None None));
    unfold cabe_em_int; lia.
Defined.

Lemma baixa_aparece_no_fluxo_do_dia_witness :
  (registrar_baixa Pagar relogio_ex "CP001" (Some "2024-03-10") "sistema"
      sistema_uma_conta = (Sucesso, sistema_uma_paga)) /\
  (valores_finitos sistema_uma_conta = true) /\
  exists fd c,
    fluxo_caixa_diario relogio_ex (Some (data_efetiva relogio_ex (Some
        "2024-03-10"))) sistema_uma_paga = Ok fd
    /\ In c (transacoes_do_dia Pagar fd)
    /\ id c = "CP001"
    /\ status c = status_baixado Pagar
    /\ data_baixa c = Some (data_efetiva relogio_ex (Some "2024-03-10"))
    /\ usuario_baixa c = Some "sistema".
Proof.
  split; [vm_compute; reflexivity |].
  split; [vm_compute; reflexivity |].
  apply (baixa_aparece_no_fluxo_do_dia Pagar relogio_ex relogio_ex "CP001"
           (Some "2024-03-10") "sistema" sistema_uma_conta);
    vm_compute; reflexivity.
Defined.

Lemma registrar_baixa_primeira_portadora_witness :
  (contas Pagar sistema_uma_conta = ([] ++ conta_a_ex :: [])%list) /\
  ((forall c0, In c0 [] -> id c0 = "CP001" -> conta_ativo c0 = false)) /\
  (id conta_a_ex = "CP001") /\
  (conta_ativo conta_a_ex = true) /\
  registrar_baixa Pagar relogio_ex "CP001" (Some "2024-03-10") "sistema"
      sistema_uma_conta
  = if String.eqb (status conta_a_ex) (status_baixado Pagar)
    then (Falha ContaJaBaixada, sistema_uma_conta)
    else if validar_data (data_efetiva relogio_ex (Some "2024-03-10"))
         then (Sucesso,
               salvar_contas Pagar
                 (set_contas Pagar
                    ([] ++ baixar Pagar (data_efetiva relogio_ex (Some
                        "2024-03-10")) "sistema" conta_a_ex
                       :: [])%list sistema_uma_conta))
         else (Falha DataBaixaInvalida, sistema_uma_conta).
Proof.
  split; [vm_compute; reflexivity |].
  split; [intros c0 [] |].
  split; [reflexivity |]. split; [reflexivity |].
  apply (registrar_baixa_primeira_portadora Pagar relogio_ex "CP001"
           (Some "2024-03-10") "sistema" sistema_uma_conta [] [] conta_a_ex);
    [vm_compute; reflexivity | intros c0 [] | reflexivity | reflexivity].
Defined.

Lemma fluxo_caixa_mensal_por_categoria_witness :
  (mes_representavel 2024 3) /\
  (valores_finitos sistema_dez_vinte_recebidas = true) /\
  exists fm,
    fluxo_caixa_mensal relogio_ex (Some 2024) (Some 3)
        sistema_dez_vinte_recebidas = Ok fm
    /\ NoDup (map fst (por_categoria (fm_entradas fm)))
    /\ NoDup (map fst (por_categoria (fm_saidas fm)))
    /\ (forall k, In k (map fst (por_categoria (fm_entradas fm)))
                  <-> exists c, In c (transacoes (fm_entradas fm))
                                /\ categoria c = k)
    /\ (forall k, In k (map fst (por_categoria (fm_saidas fm)))
                  <-> exists c, In c (transacoes (fm_saidas fm))
                                /\ categoria c = k).
Proof.
  split; [unfold mes_representavel; lia |].
  split; [vm_compute; reflexivity |].
  apply (fluxo_caixa_mensal_por_categoria relogio_ex
           sistema_dez_vinte_recebidas 2024 3);
    [unfold mes_representavel; lia | vm_compute; reflexivity].
Defined.

Lemma grafico_transacoes_diarias_witness :
  ((forall c,
     In c (transacoes (fm_entradas fluxo_mensal_ex) ++ transacoes (fm_saidas
         fluxo_mensal_ex))%list ->
     data_baixa c <> None)) /\
  (exists g datas,
     dados_para_grafico_fluxo_caixa (DoMes fluxo_mensal_ex) = Dados g
     /\ map ponto_data (transacoes_diarias g) = map Some datas
     /\ crescente datas = true
     /\ NoDup datas
     /\ (forall data,
           In data datas
           <-> exists c,
                 In c (transacoes (fm_entradas fluxo_mensal_ex)
                       ++ transacoes (fm_saidas fluxo_mensal_ex))%list
                 /\ data_baixa c = Some data))
  /\ (exists g, dados_para_grafico_fluxo_caixa (DoDia fluxo_diario_ex) =
      Dados g
                /\ transacoes_diarias g = [])
  /\ (exists g, dados_para_grafico_fluxo_caixa (DoPeriodo fluxo_periodo_ex) =
      Dados g
                /\ transacoes_diarias g = [])
  /\ dados_para_grafico_fluxo_caixa (DeErro DataInvalida) = DicionarioErro
      DataInvalida
  /\ (forall r ano mes s fm' c,
        fluxo_caixa_mensal r ano mes s = Ok fm' ->
        In c (transacoes (fm_entradas fm')
              ++ transacoes (fm_saidas fm'))%list ->
        data_baixa c <> None).
Proof.
  assert (W : forall c,
             In c (transacoes (fm_entradas fluxo_mensal_ex)
                   ++ transacoes (fm_saidas fluxo_mensal_ex))%list ->
             data_baixa c <> None).
  { intros c Hc. vm_compute in Hc.
    destruct Hc as [<- | [<- | []]]; discriminate. }
  split; [exact W |].
  exact (grafico_transacoes_diarias fluxo_mensal_ex fluxo_diario_ex
           fluxo_periodo_ex DataInvalida W).
Defined.
